(** * LoopBack help desk: the React front end, embedded and verified

    The repository's executable logic is its three React components:
    - [UserPortal]      (UserPortal.jsx): the chat loop with escalation;
    - [App]             (App.jsx): the admin dashboard;
    - [DatabaseViewer]  (DatabaseViewer.jsx): CRUD over the knowledge base.

    Every event handler is embedded as a function from the component state
    to a computation in the monad [IO], which threads the log of observable
    effects (HTTP requests, toasts, alerts, console diagnostics).  The
    backend is not part of the repository: it is a parameter [server] whose
    answers may depend on everything that happened before.

    Conventions.
    - A handler runs to completion before the next event is handled; the
      order of its effects is the order of the source text.  The states
      in which a request is pending, which the components show with
      [loading] set, lie inside such a step: no statement below is about
      them.
    - A JavaScript string is a [string] holding its UTF-8 encoding.
      [trim] removes every white space and line terminator of the
      language, in that encoding.  The case mappings of the platform are
      not modelled beyond ASCII: [getCategoryIcon], which lower-cases
      arbitrary text, takes [toLowerCase] as a parameter.
    - A JSON field that may be missing or null is an [option string]
      (a missing field and a null one are not told apart); JavaScript
      truthiness of such a value is [truthy]. *)

From Stdlib Require Import String Ascii List Bool ZArith Lia DecimalString.
Import ListNotations.
Open Scope string_scope.

(* ================================================================= *)
(** ** JavaScript strings *)

Module JS.

Definition isUpper (c : ascii) : bool :=
  let n := nat_of_ascii c in (65 <=? n)%nat && (n <=? 90)%nat.

Definition isLower (c : ascii) : bool :=
  let n := nat_of_ascii c in (97 <=? n)%nat && (n <=? 122)%nat.

Definition lowerChar (c : ascii) : ascii :=
  if isUpper c then ascii_of_nat (nat_of_ascii c + 32) else c.

Definition upperChar (c : ascii) : ascii :=
  if isLower c then ascii_of_nat (nat_of_ascii c - 32) else c.

Fixpoint mapString (f : ascii -> ascii) (s : string) : string :=
  match s with
  | EmptyString => EmptyString
  | String c r => String (f c) (mapString f r)
  end.

(** What [String.prototype.toLowerCase] does to a text written in
    ASCII: the letters A-Z are folded, every other byte is kept. *)
Definition asciiLowerCase : string -> string := mapString lowerChar.

(** [String.prototype.toUpperCase] on a text written in ASCII, which
    is all the portal applies it to (the roles ['ai'] and ['user']):
    the letters a-z are folded, every other byte is kept. *)
Definition toUpperCase : string -> string := mapString upperChar.

(** A text written in ASCII: every byte is below 128. *)
Fixpoint isAscii (s : string) : bool :=
  match s with
  | EmptyString => true
  | String c r => (nat_of_ascii c <? 128)%nat && isAscii r
  end.

(** [prefix key s]: does [s] start with [key]? *)
Fixpoint startsWith (key s : string) : bool :=
  match key, s with
  | EmptyString, _ => true
  | String _ _, EmptyString => false
  | String a key', String b s' => Ascii.eqb a b && startsWith key' s'
  end.

(** [String.prototype.includes]: [includes s key] is [s.includes(key)],
    a scan of every start position from the left. *)
Fixpoint includes (s key : string) : bool :=
  startsWith key s
  || match s with
     | EmptyString => false
     | String _ r => includes r key
     end.

(** White space and line terminators written on one byte: TAB, LF, VT,
    FF, CR and SPACE. *)
Definition isWhitespace (c : ascii) : bool :=
  let n := nat_of_ascii c in ((9 <=? n)%nat && (n <=? 13)%nat) || (n =? 32)%nat.

(** On two bytes: U+00A0 (C2 A0). *)
Definition isWhitespace2 (c1 c2 : ascii) : bool :=
  (nat_of_ascii c1 =? 194)%nat && (nat_of_ascii c2 =? 160)%nat.

(** On three bytes: U+1680 (E1 9A 80); U+2000 to U+200A, U+2028,
    U+2029 and U+202F (E2 80 80 to 8A, A8, A9, AF); U+205F (E2 81 9F);
    U+3000 (E3 80 80); U+FEFF (EF BB BF). *)
Definition isWhitespace3 (c1 c2 c3 : ascii) : bool :=
  let n1 := nat_of_ascii c1 in
  let n2 := nat_of_ascii c2 in
  let n3 := nat_of_ascii c3 in
  ((n1 =? 225) && (n2 =? 154) && (n3 =? 128))%nat
  || ((n1 =? 226) && (n2 =? 128)
      && (((128 <=? n3) && (n3 <=? 138))
          || (n3 =? 168) || (n3 =? 169) || (n3 =? 175)))%nat
  || ((n1 =? 226) && (n2 =? 129) && (n3 =? 159))%nat
  || ((n1 =? 227) && (n2 =? 128) && (n3 =? 128))%nat
  || ((n1 =? 239) && (n2 =? 187) && (n3 =? 191))%nat.

(** [String.prototype.trimStart]: drop white space, character by
    character, from the left. *)
Fixpoint trimStart (s : string) : string :=
  match s with
  | EmptyString => EmptyString
  | String c1 r1 =>
      if isWhitespace c1 then trimStart r1
      else
        match r1 with
        | EmptyString => s
        | String c2 r2 =>
            if isWhitespace2 c1 c2 then trimStart r2
            else
              match r2 with
              | EmptyString => s
              | String c3 r3 =>
                  if isWhitespace3 c1 c2 c3 then trimStart r3 else s
              end
        end
  end.

(** [blank s]: [s] is made of white space only. *)
Fixpoint blank (s : string) : bool :=
  match s with
  | EmptyString => true
  | String c1 r1 =>
      if isWhitespace c1 then blank r1
      else
        match r1 with
        | EmptyString => false
        | String c2 r2 =>
            if isWhitespace2 c1 c2 then blank r2
            else
              match r2 with
              | EmptyString => false
              | String c3 r3 => isWhitespace3 c1 c2 c3 && blank r3
              end
        end
  end.

(** [String.prototype.trimEnd]: cut where only white space follows.
    (No white space starts with a continuation byte, so the cut falls
    between two characters.) *)
Fixpoint trimEnd (s : string) : string :=
  match s with
  | EmptyString => EmptyString
  | String c r => if blank s then EmptyString else String c (trimEnd r)
  end.

(** [String.prototype.trim] *)
Definition trim (s : string) : string := trimEnd (trimStart s).

(** Truthiness of a string: only the empty string is falsy. *)
Definition nonEmpty (s : string) : bool := negb (s =? "").

(** Truthiness of a value that is a string, or missing / null. *)
Definition truthy (v : option string) : bool :=
  match v with
  | Some s => nonEmpty s
  | None => false
  end.

(** [a === b] on such values. *)
Definition strictEq (a b : option string) : bool :=
  match a, b with
  | Some x, Some y => x =? y
  | None, None => true
  | _, _ => false
  end.

(** [l.filter(Boolean)]: the truthy values of [l]. *)
Fixpoint filterBoolean (l : list (option string)) : list string :=
  match l with
  | [] => []
  | Some x :: r => if nonEmpty x then x :: filterBoolean r else filterBoolean r
  | None :: r => filterBoolean r
  end.

(** [a || b] on such values. *)
Definition orElse (a b : option string) : option string :=
  if truthy a then a else b.

(** [Array.prototype.join] *)
Fixpoint join (sep : string) (l : list string) : string :=
  match l with
  | [] => ""
  | [x] => x
  | x :: r => x ++ sep ++ join sep r
  end.

(** [\n] *)
Definition LF : string := String (ascii_of_nat 10) EmptyString.

(** [Array.prototype.includes] on an array of strings. *)
Fixpoint arrayIncludes (l : list string) (x : string) : bool :=
  match l with
  | [] => false
  | y :: r => (y =? x) || arrayIncludes r x
  end.

(** [[...new Set(l)]]: the distinct elements of [l], each at the place of
    its first occurrence ([seen] holds what the set already contains). *)
Fixpoint setFrom (seen l : list string) : list string :=
  match l with
  | [] => []
  | x :: r =>
      if arrayIncludes seen x then setFrom seen r
      else x :: setFrom (x :: seen) r
  end.

Definition newSet (l : list string) : list string := setFrom [] l.

End JS.

(* ================================================================= *)
(** ** Data model *)

(** A chat message of the portal: [{ role, content }]. *)
Record message := Message { role : string; content : string }.

(** An item of a ticket's history: [{ role, message, time }]. *)
Record historyItem := HistoryItem {
  h_role : string; h_message : string; h_time : string }.

(** A ticket as the dashboard reads it from [GET /tickets]. *)
Record ticket := Ticket {
  id : string;
  title : option string;
  query : string;
  category : option string;
  subcategory : option string;
  status : string;
  group_id : option string;
  ai_draft : option string;
  admin_draft : option string;
  history : list historyItem
}.

(** A row of the knowledge base. *)
Record entry := Entry {
  ID : string; Category : string; Question : string; Resolution : string }.

(** The body of [POST /chat/analyze]'s answer. *)
Record analysis := Analysis {
  response : string;
  escalation_required : bool;
  summary : option string
}.

(** The body sent by the knowledge-base form. *)
Record kbPayload := KbPayload {
  p_category : string; p_question : string; p_resolution : string;
  p_issue : string }.

(* ================================================================= *)
(** ** The network and the observable effects *)

Definition API_URL : string := "http://localhost:8000".

Inductive verb := GET | POST | PUT | DELETE.

(** One constructor per request the front end can build. *)
Inductive request :=
| GetTickets
| PostTickets (query : string) (history : option (list message))
              (force_create : bool)
| DeleteTicket (ticketId : string)
| PostAsk (ticketId question : string)
| PostBroadcast (ticket_id final_answer : string)
| PostBroadcastAll (final_answer : string) (ticket_ids : list string)
| PostAnalyze (message : string) (history : list (string * string))
| GetKB
| PostKB (payload : kbPayload)
| PutKB (entryId : string) (payload : kbPayload)
| DeleteKB (entryId : string).

Definition method (r : request) : verb :=
  match r with
  | GetTickets | GetKB => GET
  | PostTickets _ _ _ | PostAsk _ _ | PostBroadcast _ _
  | PostBroadcastAll _ _ | PostAnalyze _ _ | PostKB _ => POST
  | PutKB _ _ => PUT
  | DeleteTicket _ | DeleteKB _ => DELETE
  end.

Definition url (r : request) : string :=
  match r with
  | GetTickets | PostTickets _ _ _ => API_URL ++ "/tickets"
  | DeleteTicket i => API_URL ++ "/tickets/" ++ i
  | PostAsk i _ => API_URL ++ "/tickets/" ++ i ++ "/ask"
  | PostBroadcast _ _ => API_URL ++ "/broadcast"
  | PostBroadcastAll _ _ => API_URL ++ "/broadcast_all"
  | PostAnalyze _ _ => API_URL ++ "/chat/analyze"
  | GetKB | PostKB _ => API_URL ++ "/knowledge-base"
  | PutKB i _ | DeleteKB i => API_URL ++ "/knowledge-base/" ++ i
  end.

(** What the user, the network or the console can observe. *)
Inductive effect :=
| Request (r : request)                      (* an axios call *)
| Notify (message : string) (type : string)  (* showNotification *)
| Alert (message : string)                   (* window.alert *)
| Confirm (message : string)                 (* window.confirm *)
| ConsoleError (label : string).             (* console.error *)

Definition trace := list effect.

(** An axios promise: resolved with the response body, or rejected. *)
Inductive reply (A : Type) :=
| Resolved (data : A)
| Rejected (message : string).
Arguments Resolved {A} data.
Arguments Rejected {A} message.

(** The backend.  Each endpoint sees the effects so far, so its answers
    may change from one call to the next.  The answer to a batch
    broadcast is its [tickets_resolved], as a template literal prints
    it. *)
Record server := Server {
  srv_get_tickets : trace -> reply (list ticket);
  srv_post_tickets :
    trace -> string -> option (list message) -> bool -> reply string;
  srv_delete_ticket : trace -> string -> reply unit;
  srv_ask : trace -> string -> string -> reply unit;
  srv_broadcast : trace -> string -> string -> reply unit;
  srv_broadcast_all : trace -> string -> list string -> reply string;
  srv_analyze : trace -> string -> list (string * string) -> reply analysis;
  srv_get_kb : trace -> reply (list entry);
  srv_post_kb : trace -> kbPayload -> reply unit;
  srv_put_kb : trace -> string -> kbPayload -> reply unit;
  srv_delete_kb : trace -> string -> reply unit
}.

(** The effect monad.  A computation reads the log of what happened
    before it started and returns its result with the effects it adds. *)
Definition IO (A : Type) : Type := trace -> A * trace.

Definition ret {A} (a : A) : IO A := fun _ => (a, []).

Definition bind {A B} (m : IO A) (k : A -> IO B) : IO B :=
  fun past =>
    let (a, e1) := m past in
    let (b, e2) := k a (past ++ e1)%list in
    (b, (e1 ++ e2)%list).

Notation "x <- m ;; k" := (bind m (fun x => k))
  (at level 61, m at next level, right associativity).
Notation "m ;;; k" := (bind m (fun _ => k))
  (at level 61, right associativity).

Definition emit (e : effect) : IO unit := fun _ => (tt, [e]).

(** [call r answer]: log the request and return what the server says,
    given the log before the call. *)
Definition call {A} (r : request) (answer : trace -> reply A) : IO (reply A) :=
  fun past => (answer past, [Request r]).

(** The effects a computation adds when started after [past]. *)
Definition emitted {A} (m : IO A) (past : trace) : trace := snd (m past).

(** Its result. *)
Definition result {A} (m : IO A) (past : trace) : A := fst (m past).

(** Toasts and blocking alerts: what the user is shown. *)
Definition userVisible (e : effect) : bool :=
  match e with Notify _ _ | Alert _ => true | _ => false end.

Definition isConsole (e : effect) : bool :=
  match e with ConsoleError _ => true | _ => false end.

Fixpoint requests (tr : trace) : list request :=
  match tr with
  | [] => []
  | Request r :: tr' => r :: requests tr'
  | _ :: tr' => requests tr'
  end.

Definition isTicketCreation (r : request) : bool :=
  match r with PostTickets _ _ _ => true | _ => false end.

Definition isKbMutation (r : request) : bool :=
  match r with PostKB _ | PutKB _ _ => true | _ => false end.

Section Endpoints.
Variable srv : server.

Definition getTickets := call GetTickets (srv_get_tickets srv).
Definition postTickets q h f :=
  call (PostTickets q h f) (fun tr => srv_post_tickets srv tr q h f).
Definition deleteTicketReq i :=
  call (DeleteTicket i) (fun tr => srv_delete_ticket srv tr i).
Definition postAsk i q := call (PostAsk i q) (fun tr => srv_ask srv tr i q).
Definition postBroadcast i a :=
  call (PostBroadcast i a) (fun tr => srv_broadcast srv tr i a).
Definition postBroadcastAll a ids :=
  call (PostBroadcastAll a ids) (fun tr => srv_broadcast_all srv tr a ids).
Definition postAnalyze m h :=
  call (PostAnalyze m h) (fun tr => srv_analyze srv tr m h).
Definition getKB := call GetKB (srv_get_kb srv).
Definition postKB p := call (PostKB p) (fun tr => srv_post_kb srv tr p).
Definition putKB i p := call (PutKB i p) (fun tr => srv_put_kb srv tr i p).
Definition deleteKB i := call (DeleteKB i) (fun tr => srv_delete_kb srv tr i).
End Endpoints.

(* ================================================================= *)
(** ** UserPortal.jsx *)

Module UserPortal.

(** The component state: one field per [useState]. *)
Record state := State {
  input : string;
  messages : list message;
  loading : bool;
  ticketCreated : option string
}.

Definition setInput v s := State v (messages s) (loading s) (ticketCreated s).
Definition setMessages v s := State (input s) v (loading s) (ticketCreated s).
Definition setLoading v s := State (input s) (messages s) v (ticketCreated s).
Definition setTicketCreated v s := State (input s) (messages s) (loading s) v.

Definition initial : state :=
  State ""
    [Message "ai" "Hi! I'm your IT Assistant. How can I help you today?"]
    false None.

(** [[...currentMessages].reverse().find(m => m.role === 'user')] *)
Definition lastUserMsg (currentMessages : list message) : option message :=
  find (fun m => role m =? "user") (rev currentMessages).

(** The fallback of [createTicket]: the last user message, or a fixed
    text when the conversation has none. *)
Definition fallbackQuery (currentMessages : list message) : string :=
  match lastUserMsg currentMessages with
  | Some m => content m
  | None => "Support Request"
  end.

(** The [queryText] computed at the top of [createTicket]:
    [summary] unless [!summary], and then the fallback. *)
Definition queryText (currentMessages : list message)
           (summary : option string) : string :=
  match summary with
  | Some q => if JS.nonEmpty q then q else fallbackQuery currentMessages
  | None => fallbackQuery currentMessages
  end.

Definition createdNotice (ticket_id : string) : message :=
  Message "ai"
    ("[System] Ticket " ++ ticket_id ++
     " has been created automatically based on our conversation. An agent will review it shortly.").

Definition escalatedNotice (ticket_id : string) : message :=
  Message "ai"
    ("Checking... Ticket " ++ ticket_id ++
     " has been created. An agent will contact you shortly.").

Definition troubleNotice : message :=
  Message "ai" "I'm having trouble connecting. You can try asking again.".

(** The history sent to the analysis: role ['ai'] becomes ['model'],
    every other role ['user']. *)
Definition analyzeHistory (ms : list message) : list (string * string) :=
  map (fun m => (if role m =? "ai" then "model" else "user", content m)) ms.

Section Handlers.
Variable srv : server.

Definition createTicket (currentMessages : list message)
           (summary : option string) (s : state) : IO state :=
  res <- postTickets srv (queryText currentMessages summary)
                     (Some currentMessages) true ;;
  match res with
  | Resolved ticket_id =>
      ret (setMessages (messages s ++ [createdNotice ticket_id])%list
             (setTicketCreated (Some ticket_id) s))
  | Rejected _ =>
      emit (ConsoleError "Failed to create ticket automatically") ;;;
      ret s
  end.

Definition handleSend (s : state) : IO state :=
  if negb (JS.nonEmpty (JS.trim (input s))) || loading s then ret s
  else
    let userMsg := JS.trim (input s) in
    let newMessages := (messages s ++ [Message "user" userMsg])%list in
    let s1 := setLoading true (setInput "" (setMessages newMessages s)) in
    res <- postAnalyze srv userMsg (analyzeHistory newMessages) ;;
    match res with
    | Resolved data =>
        let aiMsg := Message "ai" (response data) in
        let updatedMessages := (newMessages ++ [aiMsg])%list in
        let s2 := setMessages updatedMessages s1 in
        s3 <- (if escalation_required data
               then createTicket updatedMessages (summary data) s2
               else ret s2) ;;
        ret (setLoading false s3)
    | Rejected _ =>
        ret (setLoading false
               (setMessages (messages s1 ++ [troubleNotice])%list s1))
    end.

Definition fullHistory (ms : list message) : string :=
  JS.join JS.LF
    (map (fun m => JS.toUpperCase (role m) ++ ": " ++ content m) ms).

Definition handleEscalate (s : state) : IO state :=
  let s1 := setLoading true s in
  res <- postTickets srv (fullHistory (messages s)) None true ;;
  match res with
  | Resolved ticket_id =>
      ret (setLoading false
             (setMessages (messages s1 ++ [escalatedNotice ticket_id])%list
                (setTicketCreated (Some ticket_id) s1)))
  | Rejected _ =>
      emit (Alert "Failed to create ticket.") ;;;
      ret (setLoading false s1)
  end.

(** What the user can do with the rendered portal: type into the input
    (enabled while not loading) and submit the form. *)
Inductive event :=
| Type_ (v : string)
| Submit.

(** One event, handled to completion. *)
Definition step (ev : event) (s : state) : IO state :=
  match ev with
  | Type_ v => if loading s then ret s else ret (setInput v s)
  | Submit => handleSend s
  end.

(** A session: the events in order, from the initial state. *)
Fixpoint run (evs : list event) (s : state) : IO state :=
  match evs with
  | [] => ret s
  | ev :: evs' => s' <- step ev s ;; run evs' s'
  end.

(** [reachable past s]: some session ends in state [s] having left
    the log [past]. *)
Definition reachable (past : trace) (s : state) : Prop :=
  exists evs, run evs initial [] = (s, past).

End Handlers.

(** The parts of the render that read [ticketCreated]. *)
Definition bannerShown (s : state) : bool := JS.truthy (ticketCreated s).

Definition placeholder (s : state) : string :=
  if JS.truthy (ticketCreated s) then "Add more details..."
  else "Type your message...".

End UserPortal.

(* ================================================================= *)
(** ** App.jsx: the admin dashboard *)

Module App.

(** The closure stored in [confirmPopup.onConfirm] by
    [approveResolution]: it captures the ticket and the answer read
    when the button was pressed. *)
Record popup := Popup {
  popupTitle : string;
  popupMessage : string;
  popupIcon : string;
  onConfirmTicket : string;
  onConfirmAnswer : string
}.

(** The component state: one field per [useState]. *)
Record state := State {
  tickets : list ticket;
  confirmDelete : option (string * string);  (* { ticketId, ticketQuery } *)
  categoryFilter : string;
  subcategoryFilter : string;
  showBroadcastAll : bool;
  broadcastAllText : string;
  showDatabase : bool;
  viewMode : string;
  notification : option (string * string);   (* { message, type } *)
  confirmPopup : option popup;
  selectedTicketIds : list string;
  isConfirmingBroadcastAll : bool;
  showAskModal : option ticket;
  askQuestionText : string
}.

Definition initial : state :=
  State [] None "All" "All" false "" false "admin" None None [] false None "".

Definition setTickets v s :=
  State v (confirmDelete s) (categoryFilter s) (subcategoryFilter s)
    (showBroadcastAll s) (broadcastAllText s) (showDatabase s) (viewMode s)
    (notification s) (confirmPopup s) (selectedTicketIds s)
    (isConfirmingBroadcastAll s) (showAskModal s) (askQuestionText s).
Definition setConfirmDelete v s :=
  State (tickets s) v (categoryFilter s) (subcategoryFilter s)
    (showBroadcastAll s) (broadcastAllText s) (showDatabase s) (viewMode s)
    (notification s) (confirmPopup s) (selectedTicketIds s)
    (isConfirmingBroadcastAll s) (showAskModal s) (askQuestionText s).
Definition setCategoryFilter v s :=
  State (tickets s) (confirmDelete s) v (subcategoryFilter s)
    (showBroadcastAll s) (broadcastAllText s) (showDatabase s) (viewMode s)
    (notification s) (confirmPopup s) (selectedTicketIds s)
    (isConfirmingBroadcastAll s) (showAskModal s) (askQuestionText s).
Definition setSubcategoryFilter v s :=
  State (tickets s) (confirmDelete s) (categoryFilter s) v
    (showBroadcastAll s) (broadcastAllText s) (showDatabase s) (viewMode s)
    (notification s) (confirmPopup s) (selectedTicketIds s)
    (isConfirmingBroadcastAll s) (showAskModal s) (askQuestionText s).
Definition setShowBroadcastAll v s :=
  State (tickets s) (confirmDelete s) (categoryFilter s) (subcategoryFilter s)
    v (broadcastAllText s) (showDatabase s) (viewMode s)
    (notification s) (confirmPopup s) (selectedTicketIds s)
    (isConfirmingBroadcastAll s) (showAskModal s) (askQuestionText s).
Definition setBroadcastAllText v s :=
  State (tickets s) (confirmDelete s) (categoryFilter s) (subcategoryFilter s)
    (showBroadcastAll s) v (showDatabase s) (viewMode s)
    (notification s) (confirmPopup s) (selectedTicketIds s)
    (isConfirmingBroadcastAll s) (showAskModal s) (askQuestionText s).
Definition setNotification v s :=
  State (tickets s) (confirmDelete s) (categoryFilter s) (subcategoryFilter s)
    (showBroadcastAll s) (broadcastAllText s) (showDatabase s) (viewMode s)
    v (confirmPopup s) (selectedTicketIds s)
    (isConfirmingBroadcastAll s) (showAskModal s) (askQuestionText s).
Definition setConfirmPopup v s :=
  State (tickets s) (confirmDelete s) (categoryFilter s) (subcategoryFilter s)
    (showBroadcastAll s) (broadcastAllText s) (showDatabase s) (viewMode s)
    (notification s) v (selectedTicketIds s)
    (isConfirmingBroadcastAll s) (showAskModal s) (askQuestionText s).
Definition setSelectedTicketIds v s :=
  State (tickets s) (confirmDelete s) (categoryFilter s) (subcategoryFilter s)
    (showBroadcastAll s) (broadcastAllText s) (showDatabase s) (viewMode s)
    (notification s) (confirmPopup s) v
    (isConfirmingBroadcastAll s) (showAskModal s) (askQuestionText s).
Definition setIsConfirmingBroadcastAll v s :=
  State (tickets s) (confirmDelete s) (categoryFilter s) (subcategoryFilter s)
    (showBroadcastAll s) (broadcastAllText s) (showDatabase s) (viewMode s)
    (notification s) (confirmPopup s) (selectedTicketIds s)
    v (showAskModal s) (askQuestionText s).
Definition setShowAskModal v s :=
  State (tickets s) (confirmDelete s) (categoryFilter s) (subcategoryFilter s)
    (showBroadcastAll s) (broadcastAllText s) (showDatabase s) (viewMode s)
    (notification s) (confirmPopup s) (selectedTicketIds s)
    (isConfirmingBroadcastAll s) v (askQuestionText s).
Definition setAskQuestionText v s :=
  State (tickets s) (confirmDelete s) (categoryFilter s) (subcategoryFilter s)
    (showBroadcastAll s) (broadcastAllText s) (showDatabase s) (viewMode s)
    (notification s) (confirmPopup s) (selectedTicketIds s)
    (isConfirmingBroadcastAll s) (showAskModal s) v.

(** [showNotification(message, type)]: the toast is put in the state
    and shown (its removal four seconds later is not modelled). *)
Definition showNotification (message type : string) (s : state) : IO state :=
  emit (Notify message type) ;;;
  ret (setNotification (Some (message, type)) s).

(* ----------------------------------------------------------------- *)
(** *** getCategoryIcon *)

(** [iconMap], in the order of its declaration, which is the order
    [Object.entries] enumerates its (non-numeric) keys in. *)
Definition iconMap : list (string * string) :=
  [ ("Network", "🌐");
    ("Hardware", "🛠️");
    ("Software", "💻");
    ("Account", "👤");
    ("Facility", "🏢");
    ("Password", "🔑");
    ("VPN", "🔒");
    ("Wi-Fi", "📡");
    ("Printer", "🖨️");
    ("Access", "🔓");
    ("Email", "📧");
    ("Laptop", "💻");
    ("Desktop", "🖥️");
    ("Monitor", "🖥️");
    ("Keyboard", "⌨️");
    ("Mouse", "🖱️");
    ("License", "📜");
    ("Permission", "🛡️");
    ("Slack", "💬");
    ("Zoom", "📹");
    ("Azure", "☁️");
    ("AWS", "☁️");
    ("HR", "👥");
    ("Finance", "💰");
    ("Security", "🛡️");
    ("Meeting", "🤝");
    ("Audio", "🔊");
    ("Video", "🎬") ].

Definition fallbackIcon : string := "📋".

Section CategoryIcon.
(** [String.prototype.toLowerCase], as the platform provides it. *)
Variable toLowerCase : string -> string.

(** The [for (const [key, icon] of ...)] loop and the [return] after it. *)
Fixpoint scanIcons (entries : list (string * string)) (category : string)
  : string :=
  match entries with
  | [] => fallbackIcon
  | (key, icon) :: rest =>
      if JS.includes (toLowerCase category) (toLowerCase key)
      then icon
      else scanIcons rest category
  end.

Definition getCategoryIcon (category : string) : string :=
  scanIcons iconMap category.

End CategoryIcon.

(* ----------------------------------------------------------------- *)
(** *** Derived lists of the render *)

Definition isOpen (t : ticket) : bool :=
  (status t =? "Pending") || (status t =? "Awaiting Info").

(** The callback of [tickets.filter] that defines [escalatedTickets],
    with its three early [return false]. *)
Definition isEscalated (categoryFilter subcategoryFilter : string)
           (t : ticket) : bool :=
  if negb (status t =? "Pending") && negb (status t =? "Awaiting Info")
  then false
  else if negb (categoryFilter =? "All")
          && negb (JS.strictEq (category t) (Some categoryFilter))
  then false
  else if negb (subcategoryFilter =? "All")
          && negb (JS.strictEq (subcategory t) (Some subcategoryFilter))
  then false
  else true.

Definition escalatedTicketsOf (ts : list ticket)
           (categoryFilter subcategoryFilter : string) : list ticket :=
  filter (isEscalated categoryFilter subcategoryFilter) ts.

Definition escalatedTickets (s : state) : list ticket :=
  escalatedTicketsOf (tickets s) (categoryFilter s) (subcategoryFilter s).

(** [activeSubcategories]: ['All'] and then the set of the truthy
    subcategories of the open tickets whose category is the filter. *)
Definition activeSubcategoriesOf (ts : list ticket) (categoryFilter : string)
  : list string :=
  "All" ::
  JS.newSet
    (JS.filterBoolean
       (map subcategory
          (filter (fun t => JS.strictEq (category t) (Some categoryFilter)
                            && ((status t =? "Pending")
                                || (status t =? "Awaiting Info")))
                  ts))).

Definition activeSubcategories (s : state) : list string :=
  activeSubcategoriesOf (tickets s) (categoryFilter s).

(** The subcategory pills are rendered under this condition only. *)
Definition subcategoryPillsShown (s : state) : bool :=
  negb (categoryFilter s =? "All")
  && (1 <? length (activeSubcategories s))%nat.

(* ----------------------------------------------------------------- *)
(** *** The ticket card *)

(** The three constants computed at the top of the callback of
    [escalatedTickets.map]. *)
Definition groupedTickets (ts : list ticket) (t : ticket) : list ticket :=
  filter (fun t' => JS.strictEq (group_id t') (group_id t)
                    && (status t' =? "Pending")) ts.

Definition isGrouped (grouped : list ticket) : bool :=
  (1 <? length grouped)%nat.

Definition otherCount (grouped : list ticket) : Z :=
  (Z.of_nat (length grouped) - 1)%Z.

(** [categoryStyles], as (key, (bg, icon)). *)
Definition categoryStyles : list (string * (string * string)) :=
  [ ("Network", ("#3B82F6", "🌐"));
    ("Hardware", ("#F97316", "🛠️"));
    ("Software", ("#8B5CF6", "💻"));
    ("Account", ("#10B981", "👤"));
    ("Facility", ("#6B7280", "🏢"));
    ("Security", ("#EF4444", "🛡️")) ].

Fixpoint lookupStyle (table : list (string * (string * string)))
         (key : option string) : option (string * string) :=
  match table with
  | [] => None
  | (k, v) :: rest =>
      if JS.strictEq key (Some k) then Some v else lookupStyle rest key
  end.

(** [categoryStyles[ticket.category] || { bg: '#6B7280', icon: '📋' }]
    (keys inherited from [Object.prototype] are not modelled). *)
Definition catStyle (t : ticket) : string * string :=
  match lookupStyle categoryStyles (category t) with
  | Some v => v
  | None => ("#6B7280", "📋")
  end.

Definition optText (v : option string) : string :=
  match v with Some x => x | None => "" end.

(** What a card puts on the screen: whether it carries the class
    [selected], the initial text of its draft area, and its text nodes
    in document order. *)
Record card := Card {
  cardKey : string;
  cardSelected : bool;
  draftId : string;
  draftDefault : option string;
  texts : list string
}.

(** The body of the callback of [escalatedTickets.map]. *)
Definition ticketCard (ts : list ticket) (selected : list string)
           (t : ticket) : card :=
  let groupedTickets := groupedTickets ts t in
  let isGrouped := isGrouped groupedTickets in
  let otherCount := otherCount groupedTickets in
  let catStyle := catStyle t in
  Card (id t)
    (JS.arrayIncludes selected (id t))
    ("draft-" ++ id t)
    (JS.orElse (admin_draft t) (ai_draft t))
    ((if JS.truthy (category t)
      then [(snd catStyle ++ " " ++ optText (category t))%string] else [])
     ++ (if JS.truthy (subcategory t)
         then [("#" ++ optText (subcategory t))%string] else [])
     ++ [id t;
         optText (JS.orElse (title t) (Some "Support Request"));
         "SUMMARY:";
         query t]
     ++ (if JS.truthy (admin_draft t) && JS.truthy (ai_draft t)
         then ["⚙️ AI Technical Summary:"; optText (ai_draft t)] else [])
     ++ ["AI-Suggested Response (Draft):"]
     ++ (if status t =? "Awaiting Info" then ["Awaiting Info"] else [])
     ++ flat_map (fun h => [h_role h; h_message h; h_time h]) (history t)
     ++ ["Broadcast Reply"; "Ask User"; "Reject"])%list.

(** The grid: one card per escalated ticket (the empty state aside). *)
Definition escalatedGrid (s : state) : list card :=
  map (ticketCard (tickets s) (selectedTicketIds s)) (escalatedTickets s).

(* ----------------------------------------------------------------- *)
(** *** Handlers without network access *)

(** A click on a category tab. *)
Definition selectCategory (name : string) (s : state) : state :=
  setSelectedTicketIds [] (setSubcategoryFilter "All" (setCategoryFilter name s)).

(** A click on a subcategory pill. *)
Definition selectSubcategory (sub : string) (s : state) : state :=
  setSelectedTicketIds [] (setSubcategoryFilter sub s).

Definition handleDeleteClick (ticketId ticketQuery : string) (s : state)
  : state :=
  setConfirmDelete (Some (ticketId, ticketQuery)) s.

Definition openBroadcastModal (s : state) : state :=
  let s1 :=
    if (length (selectedTicketIds s) =? 0)%nat
    then let allIds := map id (escalatedTickets s) in
         setSelectedTicketIds allIds s
    else s in
  setShowBroadcastAll true
    (setIsConfirmingBroadcastAll false (setBroadcastAllText "" s1)).

Definition toggleTicketSelection (i : string) (s : state) : state :=
  let prev := selectedTicketIds s in
  setSelectedTicketIds
    (if JS.arrayIncludes prev i
     then filter (fun tid => negb (tid =? i)) prev
     else (prev ++ [i])%list)
    s.

(** The [Cancel] button and the backdrop of the confirmation modal. *)
Definition cancelConfirm (s : state) : state := setConfirmPopup None s.

(* ----------------------------------------------------------------- *)
(** *** Handlers that talk to the backend *)

Section Handlers.
Variable srv : server.

Definition fetchTickets (s : state) : IO state :=
  response <- getTickets srv ;;
  match response with
  | Resolved data => ret (setTickets data s)
  | Rejected _ => emit (ConsoleError "Fetch error:") ;;; ret s
  end.

(** [document] gives the value of the element with a given id, if the
    element exists: [document.getElementById(i)?.value]. *)
Definition approveResolution (document : string -> option string)
           (ticketId : string) (s : state) : IO state :=
  let finalAnswer := document ("draft-" ++ ticketId) in
  if negb (JS.truthy finalAnswer)
  then showNotification "Please enter a solution" "error" s
  else ret (setConfirmPopup
              (Some (Popup "Confirm Broadcast"
                       "Are you sure you want to broadcast this solution? This will resolve the ticket and update the knowledge base."
                       "📢" ticketId (optText finalAnswer)))
              s).

(** The closure [onConfirm] built by [approveResolution]. *)
Definition onConfirm (p : popup) (s : state) : IO state :=
  res <- postBroadcast srv (onConfirmTicket p) (onConfirmAnswer p) ;;
  match res with
  | Resolved _ =>
      s1 <- showNotification "Solution broadcasted successfully!" "success" s ;;
      s2 <- fetchTickets s1 ;;
      ret (setConfirmPopup None s2)
  | Rejected _ => showNotification "Broadcast failed" "error" s
  end.

(** The [Confirm] button of the confirmation modal, which is rendered
    only while [confirmPopup] is set. *)
Definition clickConfirm (s : state) : IO state :=
  match confirmPopup s with
  | Some p => onConfirm p s
  | None => ret s
  end.

Definition deleteTicket (s : state) : IO state :=
  match confirmDelete s with
  | None => ret s
  | Some (ticketId, _) =>
      res <- deleteTicketReq srv ticketId ;;
      match res with
      | Resolved _ =>
          s1 <- fetchTickets s ;;
          s2 <- showNotification "Ticket deleted successfully" "success" s1 ;;
          ret (setConfirmDelete None s2)
      | Rejected _ =>
          emit (ConsoleError "Delete error:") ;;;
          showNotification "Delete failed!" "error" s
      end
  end.

Definition handleBroadcastAll (s : state) : IO state :=
  if (length (selectedTicketIds s) =? 0)%nat
  then showNotification "Please select at least one ticket" "error" s
  else if negb (JS.nonEmpty (JS.trim (broadcastAllText s)))
  then showNotification "Please enter a solution" "error" s
  else if negb (isConfirmingBroadcastAll s)
  then ret (setIsConfirmingBroadcastAll true s)
  else
    response <- postBroadcastAll srv (broadcastAllText s)
                                 (selectedTicketIds s) ;;
    match response with
    | Resolved tickets_resolved =>
        s1 <- showNotification
                ("Successfully resolved " ++ tickets_resolved
                 ++ " ticket(s)!") "success" s ;;
        fetchTickets
          (setSelectedTicketIds []
             (setIsConfirmingBroadcastAll false
                (setBroadcastAllText "" (setShowBroadcastAll false s1))))
    | Rejected _ =>
        emit (ConsoleError "Broadcast all error:") ;;;
        showNotification "Failed to broadcast solution" "error" s
    end.

(** With no ticket in [showAskModal] the URL cannot be built: the
    [TypeError] is raised inside the [try] and caught like a failure. *)
Definition handleAskUser (s : state) : IO state :=
  if negb (JS.nonEmpty (JS.trim (askQuestionText s))) then ret s
  else
    match showAskModal s with
    | None => showNotification "Failed to send question" "error" s
    | Some t =>
        res <- postAsk srv (id t) (askQuestionText s) ;;
        match res with
        | Resolved _ =>
            s1 <- showNotification "Question sent to user" "success" s ;;
            fetchTickets (setAskQuestionText "" (setShowAskModal None s1))
        | Rejected _ => showNotification "Failed to send question" "error" s
        end
    end.

End Handlers.

(* ----------------------------------------------------------------- *)
(** *** The page after a render *)

(** The draft areas are uncontrolled: right after the grid is rendered
    each holds its [defaultValue] (the empty text when that is missing).
    [initialPage cards i] is the value of the first element with id [i],
    as [document.getElementById(i)?.value] reads it. *)
Fixpoint initialPage (cards : list card) (elementId : string)
  : option string :=
  match cards with
  | [] => None
  | c :: rest =>
      if draftId c =? elementId then Some (optText (draftDefault c))
      else initialPage rest elementId
  end.

(* ----------------------------------------------------------------- *)
(** *** The tabs, their counts and the selection buttons *)

(** [categories]: the tabs, as (name, icon). *)
Definition categories : list (string * string) :=
  [ ("All", "📋");
    ("Network", "🌐");
    ("Hardware", "🛠️");
    ("Software", "💻");
    ("Account", "👤");
    ("Facility", "🏢");
    ("Others", "📦") ].

(** The [count] written on the tab [name]. *)
Definition tabCount (ts : list ticket) (name : string) : nat :=
  length
    (filter (fun t => ((status t =? "Pending") || (status t =? "Awaiting Info"))
                      && ((name =? "All")
                          || JS.strictEq (category t) (Some name)))
            ts).

(** The [subCount] written on the pill [sub]. *)
Definition subCount (ts : list ticket) (categoryFilter sub : string) : nat :=
  length
    (filter (fun t => ((status t =? "Pending") || (status t =? "Awaiting Info"))
                      && JS.strictEq (category t) (Some categoryFilter)
                      && ((sub =? "All")
                          || JS.strictEq (subcategory t) (Some sub)))
            ts).

(** The button that reads "Select All" or "Deselect All". *)
Definition toggleSelectAll (s : state) : state :=
  if (length (selectedTicketIds s) =? length (escalatedTickets s))%nat
  then setSelectedTicketIds [] s
  else setSelectedTicketIds (map id (escalatedTickets s)) s.

Definition selectAllLabel (s : state) : string :=
  if (length (selectedTicketIds s) =? length (escalatedTickets s))%nat
  then "Deselect All" else "Select All".

(** The empty state replaces the grid when no ticket is escalated. *)
Definition allClear (s : state) : bool :=
  (length (escalatedTickets s) =? 0)%nat.

(* ----------------------------------------------------------------- *)
(** *** The remaining controls *)

Definition setShowDatabase v s :=
  State (tickets s) (confirmDelete s) (categoryFilter s) (subcategoryFilter s)
    (showBroadcastAll s) (broadcastAllText s) v (viewMode s)
    (notification s) (confirmPopup s) (selectedTicketIds s)
    (isConfirmingBroadcastAll s) (showAskModal s) (askQuestionText s).
Definition setViewMode v s :=
  State (tickets s) (confirmDelete s) (categoryFilter s) (subcategoryFilter s)
    (showBroadcastAll s) (broadcastAllText s) (showDatabase s) v
    (notification s) (confirmPopup s) (selectedTicketIds s)
    (isConfirmingBroadcastAll s) (showAskModal s) (askQuestionText s).

(** "Wait, Go Back" in the confirmation step of the batch modal. *)
Definition goBack (s : state) : state := setIsConfirmingBroadcastAll false s.

(** The [Cancel] button of the batch modal. *)
Definition cancelBroadcastAll (s : state) : state :=
  setBroadcastAllText "" (setShowBroadcastAll false s).

(** A click on the backdrop of the batch modal. *)
Definition dismissBroadcastAll (s : state) : state :=
  setShowBroadcastAll false s.

(** The [Ask User] button of a card. *)
Definition openAskModal (t : ticket) (s : state) : state :=
  setAskQuestionText "Could you please provide more details about this issue?"
    (setShowAskModal (Some t) s).

Definition cancelAsk (s : state) : state := setShowAskModal None s.

Definition cancelDelete (s : state) : state := setConfirmDelete None s.

(** What the operator, or the polling timer, can do.  An event is
    accepted in every state: a control that is not on the screen in
    some state only makes fewer sessions possible. *)
Inductive event :=
| Poll                                   (* the interval, or Refresh *)
| ClickCategory (name : string)
| ClickSubcategory (sub : string)
| ToggleSelection (ticketId : string)
| ClickSelectAll
| OpenBroadcastModal
| TypeBroadcastText (v : string)
| SubmitBroadcastAll
| GoBack
| CancelBroadcastAll
| DismissBroadcastAll
| ClickBroadcastReply (document : string -> option string) (ticketId : string)
| ClickConfirm
| CancelConfirm
| ClickReject (ticketId ticketQuery : string)
| ClickDelete
| CancelDelete
| ClickAskUser (t : ticket)
| TypeQuestion (v : string)
| SendQuestion
| CancelAsk
| ShowDatabase (v : bool)
| SwitchView (mode : string).

Section Sessions.
Variable srv : server.

(** One event, handled to completion. *)
Definition step (ev : event) (s : state) : IO state :=
  match ev with
  | Poll => fetchTickets srv s
  | ClickCategory name => ret (selectCategory name s)
  | ClickSubcategory sub => ret (selectSubcategory sub s)
  | ToggleSelection i => ret (toggleTicketSelection i s)
  | ClickSelectAll => ret (toggleSelectAll s)
  | OpenBroadcastModal => ret (openBroadcastModal s)
  | TypeBroadcastText v => ret (setBroadcastAllText v s)
  | SubmitBroadcastAll => handleBroadcastAll srv s
  | GoBack => ret (goBack s)
  | CancelBroadcastAll => ret (cancelBroadcastAll s)
  | DismissBroadcastAll => ret (dismissBroadcastAll s)
  | ClickBroadcastReply document i => approveResolution document i s
  | ClickConfirm => clickConfirm srv s
  | CancelConfirm => ret (cancelConfirm s)
  | ClickReject i q => ret (handleDeleteClick i q s)
  | ClickDelete => deleteTicket srv s
  | CancelDelete => ret (cancelDelete s)
  | ClickAskUser t => ret (openAskModal t s)
  | TypeQuestion v => ret (setAskQuestionText v s)
  | SendQuestion => handleAskUser srv s
  | CancelAsk => ret (cancelAsk s)
  | ShowDatabase v => ret (setShowDatabase v s)
  | SwitchView mode => ret (setViewMode mode s)
  end.

(** A session: the events in order. *)
Fixpoint run (evs : list event) (s : state) : IO state :=
  match evs with
  | [] => ret s
  | ev :: evs' => s' <- step ev s ;; run evs' s'
  end.

End Sessions.

End App.

(* ================================================================= *)
(** ** DatabaseViewer.jsx: the knowledge-base editor *)

Module DatabaseViewer.

Record form := Form {
  formCategory : string; formQuestion : string; formResolution : string }.

(** The component state ([lastUpdated], a wall-clock time, is left out). *)
Record state := State {
  data : list entry;
  viewMode : string;
  showModal : bool;
  editingEntry : option entry;
  formData : form
}.

Definition initial : state := State [] "table" false None (Form "" "" "").

Definition setData v s :=
  State v (viewMode s) (showModal s) (editingEntry s) (formData s).
Definition setShowModal v s :=
  State (data s) (viewMode s) v (editingEntry s) (formData s).
Definition setEditingEntry v s :=
  State (data s) (viewMode s) (showModal s) v (formData s).
Definition setFormData v s :=
  State (data s) (viewMode s) (showModal s) (editingEntry s) v.

Definition resetForm (s : state) : state :=
  setShowModal false (setEditingEntry None (setFormData (Form "" "" "") s)).

Definition handleEdit (e : entry) (s : state) : state :=
  setShowModal true
    (setFormData (Form (Category e) (Question e) (Resolution e))
       (setEditingEntry (Some e) s)).

(** The [Add Entry] button. *)
Definition addEntry (s : state) : state := setShowModal true s.

(** The three controls of the form are [required]: the browser checks
    them when the form is submitted. *)
Definition requiredFilled (f : form) : bool :=
  JS.nonEmpty (formCategory f) && JS.nonEmpty (formQuestion f)
  && JS.nonEmpty (formResolution f).

Section Handlers.
Variable srv : server.

Definition fetchData (s : state) : IO state :=
  response <- getKB srv ;;
  match response with
  | Resolved d => ret (setData d s)
  | Rejected _ => emit (ConsoleError "DB Fetch error:") ;;; ret s
  end.

(** [confirmed] is the user's answer to [window.confirm]. *)
Definition handleDelete (entryId : string) (confirmed : bool) (s : state)
  : IO state :=
  emit (Confirm "Are you sure you want to delete this entry?") ;;;
  if negb confirmed then ret s
  else
    res <- deleteKB srv entryId ;;
    match res with
    | Resolved _ => fetchData s
    | Rejected m => emit (Alert ("Failed to delete entry: " ++ m)) ;;; ret s
    end.

Definition handleSave (s : state) : IO state :=
  let payload :=
    KbPayload (formCategory (formData s)) (formQuestion (formData s))
              (formResolution (formData s)) "" in
  res <- match editingEntry s with
         | Some e => putKB srv (ID e) payload
         | None => postKB srv payload
         end ;;
  match res with
  | Resolved _ =>
      s1 <- fetchData s ;;
      ret (resetForm s1)
  | Rejected m => emit (Alert ("Failed to save: " ++ m)) ;;; ret s
  end.

(** A press on [Save], the form's submit button: the browser validates
    the required controls and dispatches [submit], hence [handleSave],
    only when all of them are filled; otherwise it reports the first
    empty one and nothing else happens. *)
Definition submitForm (s : state) : IO state :=
  if requiredFilled (formData s) then handleSave s else ret s.

End Handlers.

(* ----------------------------------------------------------------- *)
(** *** The controls of the editor *)

Definition setViewMode v s :=
  State (data s) v (showModal s) (editingEntry s) (formData s).

(** The [onChange] of the three controls: [{ ...formData, Field: v }]. *)
Definition changeCategory (v : string) (s : state) : state :=
  setFormData (Form v (formQuestion (formData s))
                    (formResolution (formData s))) s.
Definition changeQuestion (v : string) (s : state) : state :=
  setFormData (Form (formCategory (formData s)) v
                    (formResolution (formData s))) s.
Definition changeResolution (v : string) (s : state) : state :=
  setFormData (Form (formCategory (formData s))
                    (formQuestion (formData s)) v) s.

(** What the operator, or the polling timer, can do.  The form, with
    its controls and its two buttons, is on the screen only while
    [showModal] holds. *)
Inductive event :=
| Poll
| AddEntry
| Edit (e : entry)
| TypeCategory (v : string)
| TypeQuestion (v : string)
| TypeResolution (v : string)
| Save
| CloseForm                       (* the X and Cancel buttons *)
| Delete (entryId : string) (confirmed : bool)
| SetView (mode : string).

Section Sessions.
Variable srv : server.

Definition step (ev : event) (s : state) : IO state :=
  match ev with
  | Poll => fetchData srv s
  | AddEntry => ret (addEntry s)
  | Edit e => ret (handleEdit e s)
  | TypeCategory v => ret (if showModal s then changeCategory v s else s)
  | TypeQuestion v => ret (if showModal s then changeQuestion v s else s)
  | TypeResolution v => ret (if showModal s then changeResolution v s else s)
  | Save => if showModal s then submitForm srv s else ret s
  | CloseForm => ret (if showModal s then resetForm s else s)
  | Delete entryId confirmed => handleDelete srv entryId confirmed s
  | SetView mode => ret (setViewMode mode s)
  end.

Fixpoint run (evs : list event) (s : state) : IO state :=
  match evs with
  | [] => ret s
  | ev :: evs' => s' <- step ev s ;; run evs' s'
  end.

End Sessions.

End DatabaseViewer.

(* ================================================================= *)
(** ** Vocabulary of the specification *)

(** [key] occurs in [s] as a contiguous substring. *)
Definition occursIn (key s : string) : Prop :=
  exists pre post, s = pre ++ key ++ post.

(** [key] occurs in [category] when the case of letters is ignored,
    that is, once both are lower-cased by [toLowerCase]. *)
Definition matchesKey (toLowerCase : string -> string)
           (key category : string) : Prop :=
  occursIn (toLowerCase key) (toLowerCase category).

(** [f] does to a text written in ASCII what [g] does.  The platform's
    [toLowerCase] and [toUpperCase] agree in this sense with the folds
    of the letters A-Z and a-z. *)
Definition agreesOnAscii (f g : string -> string) : Prop :=
  forall s, JS.isAscii s = true -> f s = g s.

(** A status that keeps a ticket in the queue. *)
Definition openStatus (t : ticket) : Prop :=
  status t = "Pending" \/ status t = "Awaiting Info".

(** The filter value is ["All"] or is the ticket's value. *)
Definition filterAccepts (filterValue : string) (v : option string) : Prop :=
  filterValue = "All" \/ v = Some filterValue.

(** [m] is the most recent message of [ms] written by the user. *)
Definition mostRecentUserMessage (ms : list message) (m : message) : Prop :=
  exists earlier later,
    ms = (earlier ++ m :: later)%list /\ role m = "user" /\
    forall m', In m' later -> role m' <> "user".

Definition noUserMessage (ms : list message) : Prop :=
  forall m, In m ms -> role m <> "user".

(** The ticket-creation requests among a handler's effects. *)
Definition ticketCreations (tr : trace) : list request :=
  filter isTicketCreation (requests tr).

(** The promise was rejected. *)
Definition rejected {A} (r : reply A) : Prop := exists m, r = Rejected m.

(** A failure is shown to the user exactly once and nothing is re-sent:
    one toast or alert, and the failed request is the only request. *)
Definition surfacedOnce (tr : trace) : Prop :=
  length (filter userVisible tr) = 1%nat /\ length (requests tr) = 1%nat.

(** A failure only reaches the console: no toast, no alert, one
    diagnostic, and the failed request is the only request. *)
Definition loggedOnly (tr : trace) : Prop :=
  filter userVisible tr = [] /\ length (filter isConsole tr) = 1%nat /\
  length (requests tr) = 1%nat.

(** A failure leaves no trace but the request itself. *)
Definition silent (tr : trace) : Prop :=
  filter userVisible tr = [] /\ filter isConsole tr = [] /\
  length (requests tr) = 1%nat.

(** The dashboard's subcategory options as the specification words them:
    ["All"], then the distinct subcategories of the tickets that pass
    the category filter. *)
Definition specSubcategoryOptions (ts : list ticket) (categoryFilter : string)
           (options : list string) : Prop :=
  exists subs,
    options = "All" :: subs /\ NoDup subs /\
    forall x, In x subs <->
              exists t, In t ts /\ filterAccepts categoryFilter (category t)
                        /\ subcategory t = Some x.

(* ================================================================= *)
(** ** Scenarios *)

Module Scenario.

(** Three network tickets grouped under the first one, and a resolved
    hardware ticket. *)
Definition wifi1 : ticket :=
  Ticket "TKT-1001" None "Wi-Fi not working" (Some "Network") (Some "Wi-Fi")
         "Pending" (Some "TKT-1001") None None [].
Definition wifi2 : ticket :=
  Ticket "TKT-1002" None "Internet keeps dropping" (Some "Network")
         (Some "Wi-Fi") "Pending" (Some "TKT-1001") None None [].
Definition wifi3 : ticket :=
  Ticket "TKT-1003" None "Can't connect to wireless" (Some "Network")
         (Some "Wi-Fi") "Pending" (Some "TKT-1001") None None [].
Definition printer : ticket :=
  Ticket "TKT-1004" None "Printer jam" (Some "Hardware") (Some "Printer")
         "Resolved" (Some "TKT-1004") None None [].

Definition queue : list ticket := [wifi1; wifi2; wifi3; printer].

Definition dashboard : App.state := App.setTickets queue App.initial.

(** The dashboard under the tab "Network"; a dashboard whose only
    ticket is the resolved one, under the tab "Hardware"; and one whose
    only ticket is pending, under the tab "All". *)
Definition networkTab : App.state := App.selectCategory "Network" dashboard.
Definition resolvedOnly : App.state :=
  App.selectCategory "Hardware" (App.setTickets [printer] App.initial).
Definition unfiltered : App.state := App.setTickets [wifi1] App.initial.

(** The operator has ticked two tickets and typed one resolution. *)
Definition batchReady : App.state :=
  App.setBroadcastAllText "Restart the access point."
    (App.setShowBroadcastAll true
       (App.setSelectedTicketIds ["TKT-1001"; "TKT-1003"] dashboard)).

(** The knowledge-base form: a new entry with the resolution left
    empty, the same entry completed, and an existing row being edited. *)
Definition kbRow : entry :=
  Entry "7" "Network" "VPN will not connect" "Renew the certificate.".
Definition kbIncomplete : DatabaseViewer.state :=
  DatabaseViewer.setFormData
    (DatabaseViewer.Form "Network" "Wi-Fi drops every hour" "")
    (DatabaseViewer.addEntry DatabaseViewer.initial).
Definition kbComplete : DatabaseViewer.state :=
  DatabaseViewer.setFormData
    (DatabaseViewer.Form "Network" "Wi-Fi drops every hour"
                         "Update the router firmware.")
    (DatabaseViewer.addEntry DatabaseViewer.initial).
Definition kbEditing : DatabaseViewer.state :=
  DatabaseViewer.handleEdit kbRow DatabaseViewer.initial.

(** The page of the dashboard: the draft areas of two cards, the first
    one emptied by the operator. *)
Definition page (elementId : string) : option string :=
  if elementId =? "draft-TKT-1001" then Some ""
  else if elementId =? "draft-TKT-1002" then Some "Forget the network and rejoin."
  else None.

(** The dashboard with a deletion pending, with the batch modal in its
    confirmation step, with the ask modal open, and an open confirmation
    of a single broadcast. *)
Definition deleting : App.state :=
  App.handleDeleteClick "TKT-1002" "Internet keeps dropping" dashboard.
Definition batchConfirming : App.state :=
  App.setIsConfirmingBroadcastAll true batchReady.
Definition asking : App.state :=
  App.setAskQuestionText
    "Could you please provide more details about this issue?"
    (App.setShowAskModal (Some wifi2) dashboard).
Definition draftPopup : App.popup :=
  App.Popup "Confirm Broadcast" "Are you sure?" "!" "TKT-1002"
            "Forget the network and rejoin.".

(** The portal after the user typed a first message, and a session in
    which a second message is typed after the first was sent. *)
Definition typed : UserPortal.state :=
  UserPortal.setInput "The VPN won't connect" UserPortal.initial.
Definition session : list UserPortal.event :=
  [UserPortal.Type_ "The VPN won't connect"; UserPortal.Submit;
   UserPortal.Type_ "It is still down"].

(** A backend that cannot be reached. *)
Definition down : server :=
  Server (fun _ => Rejected "Network Error")
         (fun _ _ _ _ => Rejected "Network Error")
         (fun _ _ => Rejected "Network Error")
         (fun _ _ _ => Rejected "Network Error")
         (fun _ _ _ => Rejected "Network Error")
         (fun _ _ _ => Rejected "Network Error")
         (fun _ _ _ => Rejected "Network Error")
         (fun _ => Rejected "Network Error")
         (fun _ _ => Rejected "Network Error")
         (fun _ _ _ => Rejected "Network Error")
         (fun _ _ => Rejected "Network Error").

(** A backend that accepts everything; its analysis answers every
    message with [answer]. *)
Definition up (answer : analysis) : server :=
  Server (fun _ => Resolved queue)
         (fun _ _ _ _ => Resolved "TKT-1007")
         (fun _ _ => Resolved tt)
         (fun _ _ _ => Resolved tt)
         (fun _ _ _ => Resolved tt)
         (fun _ _ ids =>
            Resolved (NilZero.string_of_uint (Nat.to_uint (length ids))))
         (fun _ _ _ => Resolved answer)
         (fun _ => Resolved [])
         (fun _ _ => Resolved tt)
         (fun _ _ _ => Resolved tt)
         (fun _ _ => Resolved tt).

(** The analysis escalates, with a summary, with an empty summary and
    with none. *)
Definition vpnSummary : analysis :=
  Analysis "I have escalated this to our IT team."
           true (Some "VPN connectivity failure").
Definition emptySummary : analysis :=
  Analysis "I have escalated this to our IT team." true (Some "").
Definition noSummary : analysis :=
  Analysis "I have escalated this to our IT team." true None.

(** The portal at the end of [session] against a backend that asks for
    escalation on every message, and the log the session left. *)
Definition ticketOpen : UserPortal.state :=
  result (UserPortal.run (up noSummary) session UserPortal.initial) [].
Definition ticketOpenLog : trace :=
  emitted (UserPortal.run (up noSummary) session UserPortal.initial) [].

(** A conversation whose last user message is followed by an answer,
    and one without any user message. *)
Definition conversation : list message :=
  [Message "ai" "Hi! I'm your IT Assistant. How can I help you today?";
   Message "user" "My laptop is slow";
   Message "ai" "Did you restart it?";
   Message "user" "The VPN won't connect";
   Message "ai" "I have escalated this to our IT team."].
Definition greetingOnly : list message :=
  [Message "ai" "Hi! I'm your IT Assistant. How can I help you today?"].


(** A ticket that comes with both drafts, one with the technical
    summary only, and a dashboard that shows them. *)
Definition drafted : ticket :=
  Ticket "TKT-1008" (Some "Dead mouse") "My mouse stopped working"
         (Some "Hardware") (Some "Mouse") "Pending" (Some "TKT-1008")
         (Some "User reports a dead wireless mouse.")
         (Some "Please replace the batteries of the mouse.") [].
Definition summarised : ticket :=
  Ticket "TKT-1009" None "The projector flickers"
         (Some "Facility") (Some "Projector") "Awaiting Info"
         (Some "TKT-1009") (Some "Likely a loose HDMI cable.") None [].
Definition draftsBoard : App.state :=
  App.setTickets [wifi1; drafted; summarised] App.initial.

End Scenario.

(* ================================================================= *)
(** ** Vocabulary of the further properties *)

(** [l1] is an initial segment of [l2]. *)
Definition isPrefix {A} (l1 l2 : list A) : Prop :=
  exists rest, l2 = (l1 ++ rest)%list.

(** The two selections hold the same ticket ids. *)
Definition sameSet (l1 l2 : list string) : Prop :=
  forall x, In x l1 <-> In x l2.

Definition isAnalysis (r : request) : bool :=
  match r with PostAnalyze _ _ => true | _ => false end.

(** The analysis requests among a handler's effects. *)
Definition analyses (tr : trace) : list request :=
  filter isAnalysis (requests tr).

(** A request with its payload filled: a chat message that is not empty
    and closes its own history, a ticket with a query, a broadcast with
    an answer (and, for a batch, with tickets), a question that is not
    blank, a knowledge-base entry with its three fields. *)
Definition wellFormed (r : request) : Prop :=
  match r with
  | PostAnalyze m h => m <> "" /\ exists earlier, h = (earlier ++ [("user", m)])%list
  | PostTickets q _ f => q <> "" /\ f = true
  | PostBroadcast _ a => a <> ""
  | PostBroadcastAll a ids => JS.trim a <> "" /\ ids <> []
  | PostAsk _ q => JS.trim q <> ""
  | PostKB p | PutKB _ p =>
      p_category p <> "" /\ p_question p <> "" /\ p_resolution p <> ""
      /\ p_issue p = ""
  | _ => True
  end.

(** The invariant of a portal session: no request is in flight between
    two events, a set flag has a ticket creation behind it, no ticket
    is created without an analysis, and every request is filled. *)
Definition portalInv (past : trace) (s : UserPortal.state) : Prop :=
  UserPortal.loading s = false
  /\ (UserPortal.ticketCreated s <> None -> ticketCreations past <> [])
  /\ (length (ticketCreations past) <= length (analyses past))%nat
  /\ Forall wellFormed (requests past).

(** The invariant of a dashboard session: an open confirmation of a
    single broadcast holds a non-empty answer. *)
Definition dashInv (s : App.state) : Prop :=
  forall p, App.confirmPopup s = Some p -> App.onConfirmAnswer p <> "".

(** The invariant of an editor session: while the form is closed it is
    empty and no row is being edited. *)
Definition kbInv (s : DatabaseViewer.state) : Prop :=
  DatabaseViewer.showModal s = false ->
  DatabaseViewer.editingEntry s = None
  /\ DatabaseViewer.formData s = DatabaseViewer.Form "" "" "".

(** The request a save sends, and the answer it gets. *)
Definition saveRequest (s : DatabaseViewer.state) : request :=
  let payload :=
    KbPayload (DatabaseViewer.formCategory (DatabaseViewer.formData s))
              (DatabaseViewer.formQuestion (DatabaseViewer.formData s))
              (DatabaseViewer.formResolution (DatabaseViewer.formData s)) "" in
  match DatabaseViewer.editingEntry s with
  | Some e => PutKB (ID e) payload
  | None => PostKB payload
  end.

Definition saveReply (srv : server) (past : trace) (s : DatabaseViewer.state)
  : reply unit :=
  let payload :=
    KbPayload (DatabaseViewer.formCategory (DatabaseViewer.formData s))
              (DatabaseViewer.formQuestion (DatabaseViewer.formData s))
              (DatabaseViewer.formResolution (DatabaseViewer.formData s)) "" in
  match DatabaseViewer.editingEntry s with
  | Some e => srv_put_kb srv past (ID e) payload
  | None => srv_post_kb srv past payload
  end.

(** Some key of the icon table occurs in the category. *)
Definition someKeyOccurs (toLowerCase : string -> string)
           (category : string) : Prop :=
  exists key icon,
    In (key, icon) App.iconMap /\ matchesKey toLowerCase key category.

(* ================================================================= *)
(** ** Running handlers *)

(** Unfold the monad and the endpoints, leaving the server's answers. *)
Ltac io :=
  cbv [emitted result bind ret emit call
       getTickets postTickets deleteTicketReq postAsk postBroadcast
       postBroadcastAll postAnalyze getKB postKB putKB deleteKB
       App.showNotification App.fetchTickets DatabaseViewer.fetchData
       negb orb andb];
  cbn [fst snd app].

(** Split on the next answer of the server. *)
Ltac answer :=
  match goal with
  | |- context [match ?r with Resolved _ => _ | Rejected _ => _ end] =>
      destruct r eqn:?
  end; cbn [fst snd app].

(** Close a goal about the effects of a failure from their list. *)
Ltac by_trace H := rewrite H; repeat split; reflexivity.

(* ================================================================= *)
(** ** Strings *)

Lemma startsWith_spec key : forall s,
  JS.startsWith key s = true <-> exists post, s = key ++ post.
Proof.
  induction key as [|a key IH]; intros s; simpl.
  - split; [intros _; now exists s | reflexivity].
  - destruct s as [|b s].
    + split; [discriminate | intros [post H]; discriminate].
    + rewrite andb_true_iff, Ascii.eqb_eq, IH. split.
      * intros [-> [post ->]]. now exists post.
      * intros [post H]. injection H as -> ->. split; [reflexivity | now exists post].
Qed.

Lemma includes_spec s : forall key,
  JS.includes s key = true <-> occursIn key s.
Proof.
  unfold occursIn.
  induction s as [|c s IH]; intros key; simpl; rewrite orb_true_iff.
  - rewrite startsWith_spec. split.
    + intros [[post H] | H]; [|discriminate]. now exists "", post.
    + intros [pre [post H]]. left.
      destruct pre; [now exists post | discriminate].
  - rewrite startsWith_spec, IH. split.
    + intros [[post H] | [pre [post H]]].
      * now exists "", post.
      * exists (String c pre), post. simpl. now rewrite H.
    + intros [pre [post H]]. destruct pre as [|c' pre]; simpl in H.
      * left. now exists post.
      * right. injection H as _ H. now exists pre, post.
Qed.

Lemma eqb_string_false (a b : string) : (a =? b) = false <-> a <> b.
Proof. apply String.eqb_neq. Qed.

Lemma nonEmpty_true (s : string) : JS.nonEmpty s = true <-> s <> "".
Proof.
  unfold JS.nonEmpty. rewrite negb_true_iff. apply String.eqb_neq.
Qed.

Lemma nonEmpty_false (s : string) : JS.nonEmpty s = false <-> s = "".
Proof.
  unfold JS.nonEmpty. rewrite negb_false_iff. apply String.eqb_eq.
Qed.

Lemma strictEq_spec (a b : option string) :
  JS.strictEq a b = true <-> a = b.
Proof.
  destruct a as [x|], b as [y|]; simpl; try (split; congruence).
  rewrite String.eqb_eq. split; congruence.
Qed.

Lemma arrayIncludes_spec l x : JS.arrayIncludes l x = true <-> In x l.
Proof.
  induction l as [|y l IH]; simpl.
  - split; [discriminate | tauto].
  - rewrite orb_true_iff, String.eqb_eq, IH. tauto.
Qed.

Lemma length_zero_false {A} (l : list A) :
  l <> [] -> (length l =? 0)%nat = false.
Proof. destruct l; [congruence | reflexivity]. Qed.

(* ================================================================= *)
(** ** getCategoryIcon *)

Lemma scanIcons_spec toLowerCase category : forall entries,
  (exists before key icon after,
      entries = (before ++ (key, icon) :: after)%list /\
      matchesKey toLowerCase key category /\
      (forall k i, In (k, i) before -> ~ matchesKey toLowerCase k category) /\
      App.scanIcons toLowerCase entries category = icon)
  \/ ((forall k i, In (k, i) entries -> ~ matchesKey toLowerCase k category) /\
      App.scanIcons toLowerCase entries category = App.fallbackIcon).
Proof.
  induction entries as [|[key icon] rest IH]; simpl.
  - right. split; [intros k i [] | reflexivity].
  - destruct (JS.includes (toLowerCase category) (toLowerCase key)) eqn:Hinc.
    + left. exists [], key, icon, rest. repeat split.
      * now apply includes_spec.
      * intros k i [].
    + assert (Hno : ~ matchesKey toLowerCase key category).
      { intros H. apply includes_spec in H. congruence. }
      destruct IH as [(before & k & i & after & -> & Hm & Hb & Hr) | [Hall Hr]].
      * left. exists ((key, icon) :: before), k, i, after. repeat split; auto.
        intros k' i' [E | Hin]; [injection E as <- <-; exact Hno | eauto].
      * right. split; [|exact Hr].
        intros k' i' [E | Hin]; [injection E as <- <-; exact Hno | eauto].
Qed.

(** The icon depends on the category through its lower-cased form and
    on the lower-cased keys only. *)
Lemma scanIcons_agree lower1 lower2 c1 c2 : forall entries,
  lower1 c1 = lower2 c2 ->
  (forall key icon, In (key, icon) entries -> lower1 key = lower2 key) ->
  App.scanIcons lower1 entries c1 = App.scanIcons lower2 entries c2.
Proof.
  induction entries as [|[key icon] rest IH]; intros Hc Hk; simpl;
    [reflexivity|].
  rewrite Hc, (Hk key icon (or_introl eq_refl)), IH; auto.
  intros k i Hin. apply (Hk k i). now right.
Qed.

Lemma iconMap_keys_ascii :
  Forall (fun entry => JS.isAscii (fst entry) = true) App.iconMap.
Proof. repeat constructor. Qed.

(** On a category written in ASCII the platform's [toLowerCase] may be
    replaced by the fold of the letters A-Z. *)
Lemma getCategoryIcon_ascii toLowerCase category :
  agreesOnAscii toLowerCase JS.asciiLowerCase ->
  JS.isAscii category = true ->
  App.getCategoryIcon toLowerCase category
  = App.getCategoryIcon JS.asciiLowerCase category.
Proof.
  intros Hlow Hc. apply scanIcons_agree; [now apply Hlow|].
  intros key icon Hin. apply Hlow.
  exact (proj1 (Forall_forall _ _) iconMap_keys_ascii (key, icon) Hin).
Qed.

(** C10. [getCategoryIcon] is a total function of the category string:
    whatever the category, it returns the icon of the first entry of
    [iconMap], in declaration order, whose key occurs in the category
    once both are lower-cased, and the fallback icon when no key occurs.
    "Network" precedes "VPN", so a category naming both gets the
    network icon.  ([toLowerCase] is the platform's; the three examples
    only use what it does to ASCII text.) *)
Theorem getCategoryIcon_first_match (toLowerCase : string -> string) :
  (forall category,
      (exists before key icon after,
          App.iconMap = (before ++ (key, icon) :: after)%list /\
          matchesKey toLowerCase key category /\
          (forall k i, In (k, i) before ->
                       ~ matchesKey toLowerCase k category) /\
          App.getCategoryIcon toLowerCase category = icon)
      \/ ((forall k i, In (k, i) App.iconMap ->
                       ~ matchesKey toLowerCase k category) /\
          App.getCategoryIcon toLowerCase category = "📋"))
  /\ (agreesOnAscii toLowerCase JS.asciiLowerCase ->
      App.getCategoryIcon toLowerCase "vpn over the NETWORK" = "🌐"
      /\ App.getCategoryIcon toLowerCase "VPN" = "🔒"
      /\ App.getCategoryIcon toLowerCase "Others" = "📋").
Proof.
  split.
  - intros category. apply scanIcons_spec.
  - intros Hlow.
    rewrite !(getCategoryIcon_ascii toLowerCase) by (exact Hlow || reflexivity).
    repeat split; reflexivity.
Qed.

(** With the fold of the letters A-Z for [toLowerCase]. *)
Lemma getCategoryIcon_first_match_witness :
  agreesOnAscii JS.asciiLowerCase JS.asciiLowerCase
  /\ App.getCategoryIcon JS.asciiLowerCase "vpn over the NETWORK" = "🌐"
  /\ App.getCategoryIcon JS.asciiLowerCase "VPN" = "🔒"
  /\ App.getCategoryIcon JS.asciiLowerCase "Others" = "📋".
Proof.
  assert (H : agreesOnAscii JS.asciiLowerCase JS.asciiLowerCase)
    by (intros s _; reflexivity).
  split; [exact H|].
  exact (proj2 (getCategoryIcon_first_match JS.asciiLowerCase) H).
Defined.

(* ================================================================= *)
(** ** The escalated queue *)

Lemma isOpen_spec t : App.isOpen t = true <-> openStatus t.
Proof.
  unfold App.isOpen, openStatus.
  now rewrite orb_true_iff, !String.eqb_eq.
Qed.

Lemma filter_guard_spec (filterValue : string) (v : option string) :
  negb (filterValue =? "All") && negb (JS.strictEq v (Some filterValue)) = false
  <-> filterAccepts filterValue v.
Proof.
  unfold filterAccepts.
  rewrite andb_false_iff, !negb_false_iff, String.eqb_eq, strictEq_spec.
  reflexivity.
Qed.

Lemma isEscalated_spec cf sf t :
  App.isEscalated cf sf t = true <->
  openStatus t /\ filterAccepts cf (category t)
  /\ filterAccepts sf (subcategory t).
Proof.
  unfold App.isEscalated.
  rewrite <- !filter_guard_spec, <- isOpen_spec. unfold App.isOpen.
  destruct (status t =? "Pending"), (status t =? "Awaiting Info"); simpl;
    destruct (negb (cf =? "All") && negb (JS.strictEq (category t) (Some cf)));
    destruct (negb (sf =? "All")
              && negb (JS.strictEq (subcategory t) (Some sf)));
    intuition congruence.
Qed.

(** C2. Whatever the ticket list and the two filter values of the
    dashboard are, a ticket is in its escalated (visible) set exactly
    when it is one of the tickets, its status is "Pending" or "Awaiting
    Info", the category filter is "All" or is its category, and the
    subcategory filter is "All" or is its subcategory.  Hence under a
    category filter [C] other than "All" every visible ticket has
    category [C] and an open status.  The grid shows one card for each
    ticket of that set, in order. *)
Theorem escalatedTickets_iff :
  (forall s ts cf sf t,
      App.tickets s = ts ->
      App.categoryFilter s = cf ->
      App.subcategoryFilter s = sf ->
      (In t (App.escalatedTickets s) <->
       In t ts
       /\ (status t = "Pending" \/ status t = "Awaiting Info")
       /\ (cf = "All" \/ category t = Some cf)
       /\ (sf = "All" \/ subcategory t = Some sf)))
  /\ (forall s C t,
         App.categoryFilter s = C ->
         C <> "All" ->
         In t (App.escalatedTickets s) ->
         category t = Some C
         /\ (status t = "Pending" \/ status t = "Awaiting Info"))
  /\ (forall s,
         map App.cardKey (App.escalatedGrid s)
         = map id (App.escalatedTickets s)).
Proof.
  assert (Hiff : forall s t,
             In t (App.escalatedTickets s) <->
             In t (App.tickets s) /\ openStatus t
             /\ filterAccepts (App.categoryFilter s) (category t)
             /\ filterAccepts (App.subcategoryFilter s) (subcategory t)).
  { intros. unfold App.escalatedTickets, App.escalatedTicketsOf.
    now rewrite filter_In, isEscalated_spec. }
  split; [|split].
  - intros s ts cf sf t <- <- <-. apply Hiff.
  - intros s C t <- HC Hin. apply Hiff in Hin.
    destruct Hin as (_ & Hst & [Hc | Hc] & _); [contradiction | now split].
  - intros s. unfold App.escalatedGrid. rewrite map_map. reflexivity.
Qed.

(** The queue of the scenario under the tab "Network". *)
Lemma escalatedTickets_iff_witness :
  App.categoryFilter Scenario.networkTab = "Network"
  /\ "Network" <> "All"
  /\ In Scenario.wifi2 (App.escalatedTickets Scenario.networkTab)
  /\ category Scenario.wifi2 = Some "Network"
  /\ (status Scenario.wifi2 = "Pending"
      \/ status Scenario.wifi2 = "Awaiting Info").
Proof.
  assert (H0 : App.categoryFilter Scenario.networkTab = "Network")
    by reflexivity.
  assert (H1 : "Network" <> "All") by discriminate.
  assert (H2 : In Scenario.wifi2 (App.escalatedTickets Scenario.networkTab)).
  { simpl. right. left. reflexivity. }
  split; [exact H0|]. split; [exact H1|]. split; [exact H2|].
  exact (proj1 (proj2 escalatedTickets_iff) Scenario.networkTab "Network"
               Scenario.wifi2 H0 H1 H2).
Defined.

(* ================================================================= *)
(** ** Subcategory options *)

Lemma setFrom_In x : forall l seen,
  In x (JS.setFrom seen l) <-> In x l /\ ~ In x seen.
Proof.
  induction l as [|y l IH]; intros seen; simpl.
  - tauto.
  - destruct (JS.arrayIncludes seen y) eqn:Hy.
    + apply arrayIncludes_spec in Hy. rewrite IH.
      split; [tauto|]. intros [[-> | H] Hn]; tauto.
    + assert (Hn : ~ In y seen).
      { intros H. apply arrayIncludes_spec in H. congruence. }
      simpl. rewrite IH. simpl.
      destruct (string_dec y x) as [-> | Hne]; [tauto|]. tauto.
Qed.

Lemma setFrom_NoDup : forall l seen, NoDup (JS.setFrom seen l).
Proof.
  induction l as [|y l IH]; intros seen; simpl.
  - constructor.
  - destruct (JS.arrayIncludes seen y); [apply IH|].
    constructor; [|apply IH].
    rewrite setFrom_In. simpl. tauto.
Qed.

Lemma filterBoolean_In x : forall l,
  In x (JS.filterBoolean l) <-> x <> "" /\ In (Some x) l.
Proof.
  induction l as [|[y|] l IH]; simpl.
  - tauto.
  - destruct (JS.nonEmpty y) eqn:Hy; simpl; rewrite IH.
    + apply nonEmpty_true in Hy. split.
      * intros [-> | [Hx Hin]]; auto.
      * intros [Hx [E | Hin]]; [injection E as ->; auto | auto].
    + apply nonEmpty_false in Hy. subst y. split; [tauto|].
      intros [Hx [E | Hin]]; [injection E as <-; contradiction | auto].
  - rewrite IH. split; [tauto|]. intros [Hx [E | Hin]]; [discriminate | auto].
Qed.

(** C6, as the code has it.  Whatever the dashboard's state, its
    options are "All" followed by a list without duplicates that holds
    exactly the non-empty subcategories of the tickets whose category
    is the category filter itself and whose status is "Pending" or
    "Awaiting Info".  The options are on the screen only when the
    category filter is not "All" and that list is not empty. *)
Theorem activeSubcategories_spec s :
  exists subs,
    App.activeSubcategories s = "All" :: subs
    /\ NoDup subs
    /\ (forall x,
           In x subs <->
           x <> "" /\
           exists t, In t (App.tickets s)
                     /\ category t = Some (App.categoryFilter s)
                     /\ (status t = "Pending" \/ status t = "Awaiting Info")
                     /\ subcategory t = Some x)
    /\ (App.subcategoryPillsShown s = true <->
        App.categoryFilter s <> "All" /\ subs <> []).
Proof.
  eexists. split; [reflexivity|]. split; [apply setFrom_NoDup|]. split.
  - intros x. unfold JS.newSet.
    rewrite setFrom_In, filterBoolean_In, in_map_iff. simpl.
    split.
    + intros [[Hx (t & Hs & Hin)] _]. split; [exact Hx|].
      apply filter_In in Hin. destruct Hin as [Hin Hc].
      apply andb_true_iff in Hc. destruct Hc as [Hc Ho].
      apply strictEq_spec in Hc. apply orb_true_iff in Ho.
      rewrite !String.eqb_eq in Ho. exists t. auto.
    + intros [Hx (t & Hin & Hc & Ho & Hs)]. split; [|tauto].
      split; [exact Hx|].
      exists t. split; [exact Hs|]. apply filter_In. split; [exact Hin|].
      apply andb_true_iff. split; [now apply strictEq_spec|].
      apply orb_true_iff. now rewrite !String.eqb_eq.
  - unfold App.subcategoryPillsShown, App.activeSubcategories,
      App.activeSubcategoriesOf.
    rewrite andb_true_iff, negb_true_iff, String.eqb_neq.
    cbn [length].
    destruct (JS.newSet _) as [|x subs]; cbn.
    + split; [intros [_ H]; discriminate | intros [_ H]; now contradiction H].
    + split; intros [H _]; (split; [exact H | discriminate || reflexivity]).
Qed.

(** C6 as stated fails.  A resolved ticket passes the category filter
    "Hardware" and its subcategory is not offered; and under the filter
    "All", which every ticket passes, the subcategory of a pending
    ticket is not among the options. *)
Lemma activeSubcategories_not_spec :
  ~ specSubcategoryOptions (App.tickets Scenario.resolvedOnly)
      (App.categoryFilter Scenario.resolvedOnly)
      (App.activeSubcategories Scenario.resolvedOnly)
  /\ ~ specSubcategoryOptions (App.tickets Scenario.unfiltered)
        (App.categoryFilter Scenario.unfiltered)
        (App.activeSubcategories Scenario.unfiltered).
Proof.
  split.
  - intros (subs & E & _ & H). injection E as <-.
    apply (H "Printer"). exists Scenario.printer.
    split; [now left|]. split; [now right | reflexivity].
  - intros (subs & E & _ & H). injection E as <-.
    apply (H "Wi-Fi"). exists Scenario.wifi1.
    split; [now left|]. split; [now left | reflexivity].
Qed.

(* ================================================================= *)
(** ** Ticket groups on the cards *)

(** C4, evaluated on the scenario of three pending tickets that share
    the group "TKT-1001".  The constants of the card are what the claim
    says (every card is grouped, with 2 other tickets), but the card
    puts neither on the screen: none of its texts mentions other
    tickets, and a card is the same whatever the other tickets are. *)
Theorem group_count_not_rendered :
  let ts := [Scenario.wifi1; Scenario.wifi2; Scenario.wifi3] in
  let s := App.setTickets ts App.initial in
  (forall t, In t ts ->
             App.isGrouped (App.groupedTickets ts t) = true
             /\ App.otherCount (App.groupedTickets ts t) = 2%Z)
  /\ length (App.escalatedGrid s) = 3%nat
  /\ (forall c, In c (App.escalatedGrid s) ->
                forall x, In x (App.texts c) -> JS.includes x "other" = false)
  /\ (forall ts' selected t,
         App.ticketCard ts' selected t = App.ticketCard [] selected t).
Proof.
  cbv zeta. split; [|split; [reflexivity | split]].
  - intros t [<- | [<- | [<- | []]]]; split; reflexivity.
  - intros c [<- | [<- | [<- | []]]] x Hx; simpl in Hx;
      repeat (destruct Hx as [<- | Hx]; [reflexivity|]); destruct Hx.
  - reflexivity.
Qed.

(* ================================================================= *)
(** ** Broadcast to many tickets *)

(** C5. Opening the modal with nothing selected selects every visible
    escalated ticket (and always clears the text and the confirmation
    step).  With a selection and a non-blank text, the first submit only
    enters the confirmation step and sends nothing; the confirming
    submit sends [POST /broadcast_all] once, with the selected ids and
    the text, and any further request is the refresh of the list. *)
Theorem broadcastAll_two_step :
  (forall s,
      App.selectedTicketIds s = [] ->
      App.selectedTicketIds (App.openBroadcastModal s)
      = map id (App.escalatedTickets s))
  /\ (forall s,
         App.showBroadcastAll (App.openBroadcastModal s) = true
         /\ App.isConfirmingBroadcastAll (App.openBroadcastModal s) = false
         /\ App.broadcastAllText (App.openBroadcastModal s) = "")
  /\ (forall srv s past,
         App.selectedTicketIds s <> [] ->
         JS.trim (App.broadcastAllText s) <> "" ->
         App.isConfirmingBroadcastAll s = false ->
         let first := App.handleBroadcastAll srv s in
         emitted first past = []
         /\ result first past = App.setIsConfirmingBroadcastAll true s
         /\ forall past',
             exists rest,
               emitted (App.handleBroadcastAll srv (result first past)) past'
               = Request (PostBroadcastAll (App.broadcastAllText s)
                                           (App.selectedTicketIds s)) :: rest
               /\ forall r, In r (requests rest) -> r = GetTickets)
  /\ (forall text ids,
         method (PostBroadcastAll text ids) = POST
         /\ url (PostBroadcastAll text ids)
            = "http://localhost:8000/broadcast_all").
Proof.
  split; [|split; [|split]].
  - intros s Hsel. unfold App.openBroadcastModal. now rewrite Hsel.
  - intros s. unfold App.openBroadcastModal.
    destruct (length (App.selectedTicketIds s) =? 0)%nat; auto.
  - intros srv s past Hsel Htext Hconf. cbv zeta.
    apply length_zero_false in Hsel. apply nonEmpty_true in Htext.
    assert (Hfirst : App.handleBroadcastAll srv s past
                     = (App.setIsConfirmingBroadcastAll true s, [])).
    { unfold App.handleBroadcastAll. now rewrite Hsel, Htext, Hconf. }
    unfold emitted, result. rewrite Hfirst. cbn [fst snd].
    split; [reflexivity | split; [reflexivity|]].
    intros past'. unfold App.handleBroadcastAll.
    destruct s; cbn in *. rewrite Hsel, Htext. cbn. io.
    answer; [answer|]; eexists; (split; [reflexivity|]); cbn;
      intros r Hr; intuition.
  - intros. split; reflexivity.
Qed.

(** The batch flow on the scenario's dashboard, backend reachable. *)
Lemma broadcastAll_two_step_witness :
  App.selectedTicketIds Scenario.dashboard = []
  /\ App.selectedTicketIds (App.openBroadcastModal Scenario.dashboard)
     = ["TKT-1001"; "TKT-1002"; "TKT-1003"]
  /\ App.selectedTicketIds Scenario.batchReady <> []
  /\ JS.trim (App.broadcastAllText Scenario.batchReady) <> ""
  /\ App.isConfirmingBroadcastAll Scenario.batchReady = false
  /\ emitted (App.handleBroadcastAll (Scenario.up Scenario.noSummary)
                Scenario.batchReady) [] = []
  /\ requests
       (emitted (App.handleBroadcastAll (Scenario.up Scenario.noSummary)
                   (App.setIsConfirmingBroadcastAll true Scenario.batchReady))
                [])
     = [PostBroadcastAll "Restart the access point." ["TKT-1001"; "TKT-1003"];
        GetTickets].
Proof.
  destruct broadcastAll_two_step as (Hopen & _ & Hsubmit & _).
  assert (H0 : App.selectedTicketIds Scenario.dashboard = []) by reflexivity.
  assert (H1 : App.selectedTicketIds Scenario.batchReady <> []) by discriminate.
  assert (H2 : JS.trim (App.broadcastAllText Scenario.batchReady) <> "")
    by discriminate.
  assert (H3 : App.isConfirmingBroadcastAll Scenario.batchReady = false)
    by reflexivity.
  destruct (Hsubmit (Scenario.up Scenario.noSummary) Scenario.batchReady []
                    H1 H2 H3) as (Hfirst & _ & _).
  split; [exact H0|]. split; [exact (Hopen Scenario.dashboard H0)|].
  split; [exact H1|]. split; [exact H2|]. split; [exact H3|].
  split; [exact Hfirst | reflexivity].
Defined.

(* ================================================================= *)
(** ** Saving a knowledge-base entry *)

(** The request [handleSave] sends for a state. *)
Lemma handleSave_emitted srv s past :
  exists rest,
    emitted (DatabaseViewer.handleSave srv s) past
    = Request
        (let payload :=
           KbPayload (DatabaseViewer.formCategory (DatabaseViewer.formData s))
                     (DatabaseViewer.formQuestion (DatabaseViewer.formData s))
                     (DatabaseViewer.formResolution (DatabaseViewer.formData s))
                     "" in
         match DatabaseViewer.editingEntry s with
         | Some e => PutKB (ID e) payload
         | None => PostKB payload
         end) :: rest
    /\ filter isKbMutation (requests rest) = [].
Proof.
  unfold DatabaseViewer.handleSave.
  destruct (DatabaseViewer.editingEntry s) as [e|]; io;
    (answer; [answer|]); eexists; (split; [reflexivity | reflexivity]).
Qed.

(** C7. Submitting the knowledge-base form with an empty Category,
    Question or Resolution is stopped by the required-field validation:
    nothing is sent and the state is unchanged.  With the three fields
    filled, the submission sends one request carrying them: [POST
    /knowledge-base] for a new entry, [PUT /knowledge-base/{ID}] with
    the identifier of the entry being edited; no other request creates
    or updates an entry. *)
Theorem kb_submit_required :
  (forall srv s past,
      DatabaseViewer.formCategory (DatabaseViewer.formData s) = ""
      \/ DatabaseViewer.formQuestion (DatabaseViewer.formData s) = ""
      \/ DatabaseViewer.formResolution (DatabaseViewer.formData s) = "" ->
      emitted (DatabaseViewer.submitForm srv s) past = []
      /\ result (DatabaseViewer.submitForm srv s) past = s)
  /\ (forall srv s past,
         DatabaseViewer.formCategory (DatabaseViewer.formData s) <> "" ->
         DatabaseViewer.formQuestion (DatabaseViewer.formData s) <> "" ->
         DatabaseViewer.formResolution (DatabaseViewer.formData s) <> "" ->
         let payload :=
           KbPayload (DatabaseViewer.formCategory (DatabaseViewer.formData s))
                     (DatabaseViewer.formQuestion (DatabaseViewer.formData s))
                     (DatabaseViewer.formResolution (DatabaseViewer.formData s))
                     "" in
         exists rest,
           emitted (DatabaseViewer.submitForm srv s) past
           = Request (match DatabaseViewer.editingEntry s with
                      | Some e => PutKB (ID e) payload
                      | None => PostKB payload
                      end) :: rest
           /\ filter isKbMutation (requests rest) = [])
  /\ (forall p e,
         method (PostKB p) = POST
         /\ url (PostKB p) = "http://localhost:8000/knowledge-base"
         /\ method (PutKB (ID e) p) = PUT
         /\ url (PutKB (ID e) p)
            = "http://localhost:8000/knowledge-base/" ++ ID e).
Proof.
  split; [|split].
  - intros srv s past H. unfold DatabaseViewer.submitForm.
    assert (Hreq : DatabaseViewer.requiredFilled (DatabaseViewer.formData s)
                   = false).
    { unfold DatabaseViewer.requiredFilled.
      rewrite !andb_false_iff, !nonEmpty_false. tauto. }
    rewrite Hreq. split; reflexivity.
  - intros srv s past Hc Hq Hr. cbv zeta. unfold DatabaseViewer.submitForm.
    assert (Hreq : DatabaseViewer.requiredFilled (DatabaseViewer.formData s)
                   = true).
    { unfold DatabaseViewer.requiredFilled.
      rewrite !andb_true_iff, !nonEmpty_true. tauto. }
    rewrite Hreq. apply handleSave_emitted.
  - intros. repeat split; reflexivity.
Qed.

(** A new entry without resolution, and the edit of row 7. *)
Lemma kb_submit_required_witness :
  (DatabaseViewer.formResolution
     (DatabaseViewer.formData Scenario.kbIncomplete) = ""
   /\ emitted (DatabaseViewer.submitForm (Scenario.up Scenario.noSummary)
                 Scenario.kbIncomplete) [] = [])
  /\ (DatabaseViewer.formCategory
        (DatabaseViewer.formData Scenario.kbEditing) <> ""
      /\ DatabaseViewer.formQuestion
           (DatabaseViewer.formData Scenario.kbEditing) <> ""
      /\ DatabaseViewer.formResolution
           (DatabaseViewer.formData Scenario.kbEditing) <> ""
      /\ exists rest,
          emitted (DatabaseViewer.submitForm (Scenario.up Scenario.noSummary)
                     Scenario.kbEditing) []
          = Request (PutKB "7" (KbPayload "Network" "VPN will not connect"
                                          "Renew the certificate." ""))
              :: rest
          /\ filter isKbMutation (requests rest) = []).
Proof.
  destruct kb_submit_required as (Hempty & Hfilled & _).
  split.
  - assert (H0 : DatabaseViewer.formResolution
                   (DatabaseViewer.formData Scenario.kbIncomplete) = "")
      by reflexivity.
    split; [exact H0|].
    exact (proj1 (Hempty (Scenario.up Scenario.noSummary)
                         Scenario.kbIncomplete [] (or_intror (or_intror H0)))).
  - assert (H1 : DatabaseViewer.formCategory
                   (DatabaseViewer.formData Scenario.kbEditing) <> "")
      by discriminate.
    assert (H2 : DatabaseViewer.formQuestion
                   (DatabaseViewer.formData Scenario.kbEditing) <> "")
      by discriminate.
    assert (H3 : DatabaseViewer.formResolution
                   (DatabaseViewer.formData Scenario.kbEditing) <> "")
      by discriminate.
    split; [exact H1|]. split; [exact H2|]. split; [exact H3|].
    exact (Hfilled (Scenario.up Scenario.noSummary) Scenario.kbEditing []
                   H1 H2 H3).
Defined.

(* ================================================================= *)
(** ** Broadcast to one ticket *)

(** C8. With an empty draft (or no draft area) [approveResolution]
    sends nothing and only shows the toast "Please enter a solution".
    With a non-empty draft it sends nothing either: it opens the
    confirmation with the ticket and the draft bound; cancelling closes
    it without any effect, after which there is nothing left to
    confirm; confirming sends [POST /broadcast] once with that ticket
    id and that draft, and any further request is the refresh of the
    list. *)
Theorem broadcast_one_after_confirmation :
  (forall document ticketId s past,
      JS.truthy (document ("draft-" ++ ticketId)) = false ->
      emitted (App.approveResolution document ticketId s) past
      = [Notify "Please enter a solution" "error"]
      /\ App.confirmPopup
           (result (App.approveResolution document ticketId s) past)
         = App.confirmPopup s)
  /\ (forall srv document ticketId draft s past,
         document ("draft-" ++ ticketId) = Some draft ->
         draft <> "" ->
         let opened :=
           result (App.approveResolution document ticketId s) past in
         emitted (App.approveResolution document ticketId s) past = []
         /\ (exists p, App.confirmPopup opened = Some p
                       /\ App.onConfirmTicket p = ticketId
                       /\ App.onConfirmAnswer p = draft)
         /\ App.confirmPopup (App.cancelConfirm opened) = None
         /\ (forall past',
                emitted (App.clickConfirm srv (App.cancelConfirm opened)) past'
                = [])
         /\ (forall past',
                exists rest,
                  emitted (App.clickConfirm srv opened) past'
                  = Request (PostBroadcast ticketId draft) :: rest
                  /\ forall r, In r (requests rest) -> r = GetTickets))
  /\ (forall ticketId draft,
         method (PostBroadcast ticketId draft) = POST
         /\ url (PostBroadcast ticketId draft)
            = "http://localhost:8000/broadcast").
Proof.
  split; [|split].
  - intros document ticketId s past H.
    unfold App.approveResolution. rewrite H. split; reflexivity.
  - intros srv document ticketId draft s past Hdoc Hne. cbv zeta.
    assert (Hrun : App.approveResolution document ticketId s past
                   = (App.setConfirmPopup
                        (Some (App.Popup "Confirm Broadcast"
                                 "Are you sure you want to broadcast this solution? This will resolve the ticket and update the knowledge base."
                                 "📢" ticketId draft)) s, [])).
    { unfold App.approveResolution. rewrite Hdoc. simpl.
      apply nonEmpty_true in Hne. now rewrite Hne. }
    unfold emitted, result. rewrite Hrun. cbn [fst snd].
    split; [reflexivity|]. split; [eexists; repeat split|].
    split; [reflexivity|]. split; [reflexivity|].
    intros past'. unfold App.clickConfirm, App.onConfirm. cbn. io.
    answer; [answer|]; eexists; (split; [reflexivity|]); cbn;
      intros r Hr; intuition.
  - intros. split; reflexivity.
Qed.

(** The emptied draft of TKT-1001 and the filled draft of TKT-1002. *)
Lemma broadcast_one_after_confirmation_witness :
  (JS.truthy (Scenario.page ("draft-" ++ "TKT-1001")) = false
   /\ emitted (App.approveResolution Scenario.page "TKT-1001"
                 Scenario.dashboard) []
      = [Notify "Please enter a solution" "error"])
  /\ (Scenario.page ("draft-" ++ "TKT-1002")
      = Some "Forget the network and rejoin."
      /\ "Forget the network and rejoin." <> ""
      /\ emitted (App.approveResolution Scenario.page "TKT-1002"
                    Scenario.dashboard) [] = []).
Proof.
  destruct broadcast_one_after_confirmation as (Hempty & Hfull & _).
  split.
  - assert (H0 : JS.truthy (Scenario.page ("draft-" ++ "TKT-1001")) = false)
      by reflexivity.
    split; [exact H0|].
    exact (proj1 (Hempty Scenario.page "TKT-1001"
                         Scenario.dashboard [] H0)).
  - assert (H1 : Scenario.page ("draft-" ++ "TKT-1002")
                 = Some "Forget the network and rejoin.") by reflexivity.
    assert (H2 : "Forget the network and rejoin." <> "") by discriminate.
    split; [exact H1|]. split; [exact H2|].
    exact (proj1 (Hfull Scenario.down Scenario.page "TKT-1002" _
                        Scenario.dashboard [] H1 H2)).
Defined.

(* ================================================================= *)
(** ** Failed requests, site by site *)

Section Failures.
Variable srv : server.
Variable past : trace.

Lemma fetchTickets_failure s :
  rejected (srv_get_tickets srv past) ->
  emitted (App.fetchTickets srv s) past
  = [Request GetTickets; ConsoleError "Fetch error:"].
Proof. intros [m H]. io. now rewrite H. Qed.

Lemma onConfirm_failure p s :
  rejected (srv_broadcast srv past (App.onConfirmTicket p)
                          (App.onConfirmAnswer p)) ->
  emitted (App.onConfirm srv p s) past
  = [Request (PostBroadcast (App.onConfirmTicket p) (App.onConfirmAnswer p));
     Notify "Broadcast failed" "error"].
Proof. intros [m H]. unfold App.onConfirm. io. now rewrite H. Qed.

Lemma deleteTicket_failure s i q :
  App.confirmDelete s = Some (i, q) ->
  rejected (srv_delete_ticket srv past i) ->
  emitted (App.deleteTicket srv s) past
  = [Request (DeleteTicket i); ConsoleError "Delete error:";
     Notify "Delete failed!" "error"].
Proof.
  intros Hs [m H]. unfold App.deleteTicket. rewrite Hs. io. now rewrite H.
Qed.

Lemma handleBroadcastAll_failure s :
  App.selectedTicketIds s <> [] ->
  JS.trim (App.broadcastAllText s) <> "" ->
  App.isConfirmingBroadcastAll s = true ->
  rejected (srv_broadcast_all srv past (App.broadcastAllText s)
                              (App.selectedTicketIds s)) ->
  emitted (App.handleBroadcastAll srv s) past
  = [Request (PostBroadcastAll (App.broadcastAllText s)
                               (App.selectedTicketIds s));
     ConsoleError "Broadcast all error:";
     Notify "Failed to broadcast solution" "error"].
Proof.
  intros Hsel Htext Hconf [m H]. unfold App.handleBroadcastAll.
  apply length_zero_false in Hsel. apply nonEmpty_true in Htext.
  rewrite Hsel, Htext, Hconf. io. now rewrite H.
Qed.

Lemma handleAskUser_failure s t :
  JS.trim (App.askQuestionText s) <> "" ->
  App.showAskModal s = Some t ->
  rejected (srv_ask srv past (id t) (App.askQuestionText s)) ->
  emitted (App.handleAskUser srv s) past
  = [Request (PostAsk (id t) (App.askQuestionText s));
     Notify "Failed to send question" "error"].
Proof.
  intros Htext Hs [m H]. unfold App.handleAskUser.
  apply nonEmpty_true in Htext. rewrite Htext, Hs. io. now rewrite H.
Qed.

Lemma createTicket_failure ms summary s :
  rejected (srv_post_tickets srv past (UserPortal.queryText ms summary)
                             (Some ms) true) ->
  emitted (UserPortal.createTicket srv ms summary s) past
  = [Request (PostTickets (UserPortal.queryText ms summary) (Some ms) true);
     ConsoleError "Failed to create ticket automatically"].
Proof. intros [m H]. unfold UserPortal.createTicket. io. now rewrite H. Qed.

Lemma handleSend_failure s :
  JS.trim (UserPortal.input s) <> "" ->
  UserPortal.loading s = false ->
  let newMessages :=
    (UserPortal.messages s
     ++ [Message "user" (JS.trim (UserPortal.input s))])%list in
  rejected (srv_analyze srv past (JS.trim (UserPortal.input s))
                        (UserPortal.analyzeHistory newMessages)) ->
  emitted (UserPortal.handleSend srv s) past
  = [Request (PostAnalyze (JS.trim (UserPortal.input s))
                          (UserPortal.analyzeHistory newMessages))]
  /\ UserPortal.messages (result (UserPortal.handleSend srv s) past)
     = (newMessages ++ [UserPortal.troubleNotice])%list.
Proof.
  intros Htext Hload newMessages [m H]. unfold UserPortal.handleSend.
  apply nonEmpty_true in Htext. rewrite Htext, Hload. io.
  fold newMessages. now rewrite H.
Qed.

Lemma handleEscalate_failure s :
  rejected (srv_post_tickets srv past
              (UserPortal.fullHistory (UserPortal.messages s)) None true) ->
  emitted (UserPortal.handleEscalate srv s) past
  = [Request (PostTickets (UserPortal.fullHistory (UserPortal.messages s))
                          None true);
     Alert "Failed to create ticket."].
Proof. intros [m H]. unfold UserPortal.handleEscalate. io. now rewrite H. Qed.

Lemma fetchData_failure s :
  rejected (srv_get_kb srv past) ->
  emitted (DatabaseViewer.fetchData srv s) past
  = [Request GetKB; ConsoleError "DB Fetch error:"].
Proof. intros [m H]. io. now rewrite H. Qed.

Lemma handleDelete_failure entryId s m :
  srv_delete_kb srv
    (past ++ [Confirm "Are you sure you want to delete this entry?"])%list
    entryId = Rejected m ->
  emitted (DatabaseViewer.handleDelete srv entryId true s) past
  = [Confirm "Are you sure you want to delete this entry?";
     Request (DeleteKB entryId);
     Alert ("Failed to delete entry: " ++ m)].
Proof. intros H. unfold DatabaseViewer.handleDelete. io. now rewrite H. Qed.

Lemma handleSave_failure s m :
  let payload :=
    KbPayload (DatabaseViewer.formCategory (DatabaseViewer.formData s))
              (DatabaseViewer.formQuestion (DatabaseViewer.formData s))
              (DatabaseViewer.formResolution (DatabaseViewer.formData s))
              "" in
  match DatabaseViewer.editingEntry s with
  | Some e => srv_put_kb srv past (ID e) payload
  | None => srv_post_kb srv past payload
  end = Rejected m ->
  emitted (DatabaseViewer.handleSave srv s) past
  = [Request (match DatabaseViewer.editingEntry s with
              | Some e => PutKB (ID e) payload
              | None => PostKB payload
              end);
     Alert ("Failed to save: " ++ m)].
Proof.
  intros payload H. unfold DatabaseViewer.handleSave. fold payload.
  destruct (DatabaseViewer.editingEntry s); io; now rewrite H.
Qed.

End Failures.

(** C9, as the code has it.  Every failed request is caught where it is
    made and its handler sends nothing again.  What the user sees
    depends on the site: a failed fetch of the ticket list or of the
    knowledge base, and a failed automatic ticket creation, are only
    logged to the console; a failed chat analysis adds exactly one
    message to the chat, after the user's own; a failed broadcast, batch broadcast, ticket deletion,
    question, manual escalation, knowledge-base deletion or save shows
    exactly one toast or alert. *)
Theorem failures_handled_at_call_site (srv : server) (past : trace) :
  (forall s,
      rejected (srv_get_tickets srv past) ->
      loggedOnly (emitted (App.fetchTickets srv s) past))
  /\ (forall s,
         rejected (srv_get_kb srv past) ->
         loggedOnly (emitted (DatabaseViewer.fetchData srv s) past))
  /\ (forall ms summary s,
         rejected (srv_post_tickets srv past (UserPortal.queryText ms summary)
                                    (Some ms) true) ->
         loggedOnly (emitted (UserPortal.createTicket srv ms summary s) past))
  /\ (forall s,
         JS.trim (UserPortal.input s) <> "" ->
         UserPortal.loading s = false ->
         rejected (srv_analyze srv past (JS.trim (UserPortal.input s))
                     (UserPortal.analyzeHistory
                        (UserPortal.messages s
                         ++ [Message "user" (JS.trim (UserPortal.input s))]))) ->
         silent (emitted (UserPortal.handleSend srv s) past)
         /\ UserPortal.messages (result (UserPortal.handleSend srv s) past)
            = (UserPortal.messages s
               ++ [Message "user" (JS.trim (UserPortal.input s));
                   UserPortal.troubleNotice])%list)
  /\ (forall p s,
         rejected (srv_broadcast srv past (App.onConfirmTicket p)
                                 (App.onConfirmAnswer p)) ->
         surfacedOnce (emitted (App.onConfirm srv p s) past))
  /\ (forall s,
         App.selectedTicketIds s <> [] ->
         JS.trim (App.broadcastAllText s) <> "" ->
         App.isConfirmingBroadcastAll s = true ->
         rejected (srv_broadcast_all srv past (App.broadcastAllText s)
                                     (App.selectedTicketIds s)) ->
         surfacedOnce (emitted (App.handleBroadcastAll srv s) past))
  /\ (forall s i q,
         App.confirmDelete s = Some (i, q) ->
         rejected (srv_delete_ticket srv past i) ->
         surfacedOnce (emitted (App.deleteTicket srv s) past))
  /\ (forall s t,
         JS.trim (App.askQuestionText s) <> "" ->
         App.showAskModal s = Some t ->
         rejected (srv_ask srv past (id t) (App.askQuestionText s)) ->
         surfacedOnce (emitted (App.handleAskUser srv s) past))
  /\ (forall s,
         rejected (srv_post_tickets srv past
                     (UserPortal.fullHistory (UserPortal.messages s))
                     None true) ->
         surfacedOnce (emitted (UserPortal.handleEscalate srv s) past))
  /\ (forall entryId s,
         rejected (srv_delete_kb srv
                     (past ++ [Confirm
                                 "Are you sure you want to delete this entry?"])%list
                     entryId) ->
         surfacedOnce
           (emitted (DatabaseViewer.handleDelete srv entryId true s) past))
  /\ (forall s,
         rejected
           (let payload :=
              KbPayload
                (DatabaseViewer.formCategory (DatabaseViewer.formData s))
                (DatabaseViewer.formQuestion (DatabaseViewer.formData s))
                (DatabaseViewer.formResolution (DatabaseViewer.formData s))
                "" in
            match DatabaseViewer.editingEntry s with
            | Some e => srv_put_kb srv past (ID e) payload
            | None => srv_post_kb srv past payload
            end) ->
         surfacedOnce (emitted (DatabaseViewer.handleSave srv s) past)).
Proof.
  unfold loggedOnly, silent, surfacedOnce.
  repeat match goal with |- _ /\ _ => split end.
  - intros s H. by_trace (fetchTickets_failure srv past s H).
  - intros s H. by_trace (fetchData_failure srv past s H).
  - intros ms summary s H.
    by_trace (createTicket_failure srv past ms summary s H).
  - intros s Ht Hl H.
    destruct (handleSend_failure srv past s Ht Hl H) as [He Hm].
    split; [by_trace He|]. rewrite Hm, <- app_assoc. reflexivity.
  - intros p s H. by_trace (onConfirm_failure srv past p s H).
  - intros s H1 H2 H3 H.
    by_trace (handleBroadcastAll_failure srv past s H1 H2 H3 H).
  - intros s i q Hs H. by_trace (deleteTicket_failure srv past s i q Hs H).
  - intros s t Ht Hs H. by_trace (handleAskUser_failure srv past s t Ht Hs H).
  - intros s H. by_trace (handleEscalate_failure srv past s H).
  - intros entryId s [m H].
    by_trace (handleDelete_failure srv past entryId s m H).
  - intros s [m H]. cbv zeta in H.
    rewrite (handleSave_failure srv past s m H).
    destruct (DatabaseViewer.editingEntry s); repeat split; reflexivity.
Qed.

(** C9 as stated fails at the two fetches: with the backend down, the
    refresh of the ticket list and of the knowledge base show the user
    nothing. *)
Lemma fetch_failure_not_surfaced :
  srv_get_tickets Scenario.down [] = Rejected "Network Error"
  /\ filter userVisible
       (emitted (App.fetchTickets Scenario.down Scenario.dashboard) []) = []
  /\ ~ surfacedOnce
       (emitted (App.fetchTickets Scenario.down Scenario.dashboard) [])
  /\ srv_get_kb Scenario.down [] = Rejected "Network Error"
  /\ ~ surfacedOnce
       (emitted (DatabaseViewer.fetchData Scenario.down
                   DatabaseViewer.initial) []).
Proof.
  repeat split; try reflexivity; intros [H _]; discriminate H.
Qed.

(** Every site against a backend that cannot be reached. *)
Lemma failures_handled_at_call_site_witness :
  (rejected (srv_get_tickets Scenario.down [])
   /\ loggedOnly
        (emitted (App.fetchTickets Scenario.down Scenario.dashboard) []))
  /\ (JS.trim (UserPortal.input Scenario.typed) <> ""
      /\ UserPortal.loading Scenario.typed = false
      /\ silent (emitted (UserPortal.handleSend Scenario.down Scenario.typed)
                         []))
  /\ (App.selectedTicketIds Scenario.batchConfirming <> []
      /\ JS.trim (App.broadcastAllText Scenario.batchConfirming) <> ""
      /\ App.isConfirmingBroadcastAll Scenario.batchConfirming = true
      /\ surfacedOnce
           (emitted (App.handleBroadcastAll Scenario.down
                       Scenario.batchConfirming) []))
  /\ (App.confirmDelete Scenario.deleting
      = Some ("TKT-1002", "Internet keeps dropping")
      /\ surfacedOnce
           (emitted (App.deleteTicket Scenario.down Scenario.deleting) []))
  /\ (JS.trim (App.askQuestionText Scenario.asking) <> ""
      /\ App.showAskModal Scenario.asking = Some Scenario.wifi2
      /\ surfacedOnce
           (emitted (App.handleAskUser Scenario.down Scenario.asking) []))
  /\ surfacedOnce
       (emitted (App.onConfirm Scenario.down Scenario.draftPopup
                   Scenario.dashboard) [])
  /\ surfacedOnce
       (emitted (DatabaseViewer.handleSave Scenario.down Scenario.kbComplete)
                [])
  /\ surfacedOnce
       (emitted (DatabaseViewer.handleDelete Scenario.down "7" true
                   Scenario.kbComplete) [])
  /\ surfacedOnce
       (emitted (UserPortal.handleEscalate Scenario.down Scenario.typed) [])
  /\ loggedOnly
       (emitted (DatabaseViewer.fetchData Scenario.down
                   DatabaseViewer.initial) [])
  /\ loggedOnly
       (emitted (UserPortal.createTicket Scenario.down
                   (UserPortal.messages Scenario.typed) None Scenario.typed)
                []).
Proof.
  destruct (failures_handled_at_call_site Scenario.down [])
    as (T1 & T2 & T3 & T4 & T5 & T6 & T7 & T8 & T9 & T10 & T11).
  assert (R : forall A, rejected (@Rejected A "Network Error"))
    by (intros A; exists "Network Error"; reflexivity).
  split; [split; [apply R | exact (T1 _ (R _))]|].
  split.
  { assert (H1 : JS.trim (UserPortal.input Scenario.typed) <> "")
      by discriminate.
    assert (H2 : UserPortal.loading Scenario.typed = false) by reflexivity.
    split; [exact H1|]. split; [exact H2|].
    exact (proj1 (T4 Scenario.typed H1 H2 (R _))). }
  split.
  { assert (H1 : App.selectedTicketIds Scenario.batchConfirming <> [])
      by discriminate.
    assert (H2 : JS.trim (App.broadcastAllText Scenario.batchConfirming) <> "")
      by discriminate.
    assert (H3 : App.isConfirmingBroadcastAll Scenario.batchConfirming = true)
      by reflexivity.
    split; [exact H1|]. split; [exact H2|]. split; [exact H3|].
    exact (T6 Scenario.batchConfirming H1 H2 H3 (R _)). }
  split.
  { assert (H1 : App.confirmDelete Scenario.deleting
                 = Some ("TKT-1002", "Internet keeps dropping"))
      by reflexivity.
    split; [exact H1|]. exact (T7 Scenario.deleting _ _ H1 (R _)). }
  split.
  { assert (H1 : JS.trim (App.askQuestionText Scenario.asking) <> "")
      by discriminate.
    assert (H2 : App.showAskModal Scenario.asking = Some Scenario.wifi2)
      by reflexivity.
    split; [exact H1|]. split; [exact H2|].
    exact (T8 Scenario.asking _ H1 H2 (R _)). }
  split; [exact (T5 Scenario.draftPopup Scenario.dashboard (R _))|].
  split; [exact (T11 Scenario.kbComplete (R _))|].
  split; [exact (T10 "7" Scenario.kbComplete (R _))|].
  split; [exact (T9 Scenario.typed (R _))|].
  split; [exact (T2 DatabaseViewer.initial (R _))|].
  exact (T3 (UserPortal.messages Scenario.typed) None Scenario.typed (R _)).
Defined.

(* ================================================================= *)
(** ** The query of an escalated ticket *)

Lemma find_after_misses {A} (f : A -> bool) (y : A) (l2 : list A) :
  forall l1,
    (forall x, In x l1 -> f x = false) -> f y = true ->
    find f (l1 ++ y :: l2) = Some y.
Proof.
  induction l1 as [|x l1 IH]; intros Hmiss Hy; simpl.
  - now rewrite Hy.
  - rewrite (Hmiss x (or_introl eq_refl)). apply IH; [|exact Hy].
    intros x' Hx'. apply Hmiss. now right.
Qed.

Lemma find_all_miss {A} (f : A -> bool) :
  forall l, (forall x, In x l -> f x = false) -> find f l = None.
Proof.
  induction l as [|x l IH]; intros Hmiss; simpl; [reflexivity|].
  rewrite (Hmiss x (or_introl eq_refl)). apply IH.
  intros x' Hx'. apply Hmiss. now right.
Qed.

Lemma lastUserMsg_recent ms m :
  mostRecentUserMessage ms m -> UserPortal.lastUserMsg ms = Some m.
Proof.
  intros (earlier & later & -> & Hm & Hlater). unfold UserPortal.lastUserMsg.
  rewrite rev_app_distr. simpl. rewrite <- app_assoc. simpl.
  apply find_after_misses.
  - intros x Hx. apply in_rev in Hx. apply String.eqb_neq. now apply Hlater.
  - now apply String.eqb_eq.
Qed.

Lemma lastUserMsg_none ms :
  noUserMessage ms -> UserPortal.lastUserMsg ms = None.
Proof.
  intros H. unfold UserPortal.lastUserMsg. apply find_all_miss.
  intros x Hx. apply in_rev in Hx. apply String.eqb_neq. now apply H.
Qed.

Lemma queryText_falsy ms summary :
  JS.truthy summary = false ->
  UserPortal.queryText ms summary = UserPortal.fallbackQuery ms.
Proof.
  destruct summary as [q|]; simpl; [|reflexivity]. now intros ->.
Qed.

(** After [handleSend] appended the user's message and the answer, the
    fallback is the message just sent. *)
Lemma fallbackQuery_just_sent ms userMsg aiText :
  UserPortal.fallbackQuery
    ((ms ++ [Message "user" userMsg]) ++ [Message "ai" aiText])
  = userMsg.
Proof.
  unfold UserPortal.fallbackQuery, UserPortal.lastUserMsg.
  now rewrite !rev_app_distr.
Qed.

(** What [handleSend] sends when the analysis asks for escalation. *)
Lemma handleSend_escalating srv s past d :
  JS.trim (UserPortal.input s) <> "" ->
  UserPortal.loading s = false ->
  let userMsg := JS.trim (UserPortal.input s) in
  let newMessages := (UserPortal.messages s ++ [Message "user" userMsg])%list in
  let updatedMessages := (newMessages ++ [Message "ai" (response d)])%list in
  srv_analyze srv past userMsg (UserPortal.analyzeHistory newMessages)
  = Resolved d ->
  escalation_required d = true ->
  ticketCreations (emitted (UserPortal.handleSend srv s) past)
  = [PostTickets (UserPortal.queryText updatedMessages (summary d))
                 (Some updatedMessages) true].
Proof.
  intros Htext Hload userMsg newMessages updatedMessages Hres Hesc.
  unfold UserPortal.handleSend, UserPortal.createTicket.
  apply nonEmpty_true in Htext. rewrite Htext, Hload. io.
  fold userMsg newMessages. rewrite Hres, Hesc. cbn.
  fold updatedMessages. answer; reflexivity.
Qed.

(** ... and when it does not, or fails. *)
Lemma handleSend_not_escalating srv s past :
  let userMsg := JS.trim (UserPortal.input s) in
  let newMessages := (UserPortal.messages s ++ [Message "user" userMsg])%list in
  match srv_analyze srv past userMsg (UserPortal.analyzeHistory newMessages)
  with
  | Resolved d => escalation_required d = false
  | Rejected _ => True
  end ->
  ticketCreations (emitted (UserPortal.handleSend srv s) past) = [].
Proof.
  intros userMsg newMessages H. unfold UserPortal.handleSend.
  destruct (negb (JS.nonEmpty (JS.trim (UserPortal.input s)))
            || UserPortal.loading s); [reflexivity|].
  io. fold userMsg newMessages.
  destruct (srv_analyze srv past userMsg
                        (UserPortal.analyzeHistory newMessages)) as [d|m].
  - rewrite H. reflexivity.
  - reflexivity.
Qed.

Lemma handleSend_flag_blind srv s past flag :
  emitted (UserPortal.handleSend srv (UserPortal.setTicketCreated flag s)) past
  = emitted (UserPortal.handleSend srv s) past.
Proof.
  unfold UserPortal.handleSend, UserPortal.createTicket. destruct s; cbn.
  destruct (negb _ || _); [reflexivity|]. io.
  answer; [|reflexivity].
  destruct (escalation_required _); [|reflexivity].
  cbn. answer; reflexivity.
Qed.

(** C3.  The query of the ticket created on escalation is the summary
    when the analysis gives one (a text that is not empty); when there
    is none it is the content of the most recent user message of the
    conversation, and "Support Request" when the conversation has no
    user message.  In [handleSend] the most recent user message is the
    one just sent. *)
Theorem ticket_query_from_summary :
  (forall ms q, q <> "" -> UserPortal.queryText ms (Some q) = q)
  /\ (forall ms summary m,
         JS.truthy summary = false ->
         mostRecentUserMessage ms m ->
         UserPortal.queryText ms summary = content m)
  /\ (forall ms summary,
         JS.truthy summary = false ->
         noUserMessage ms ->
         UserPortal.queryText ms summary = "Support Request")
  /\ (forall srv s past d,
         JS.trim (UserPortal.input s) <> "" ->
         UserPortal.loading s = false ->
         let userMsg := JS.trim (UserPortal.input s) in
         let newMessages :=
           (UserPortal.messages s ++ [Message "user" userMsg])%list in
         let updatedMessages :=
           (newMessages ++ [Message "ai" (response d)])%list in
         srv_analyze srv past userMsg (UserPortal.analyzeHistory newMessages)
         = Resolved d ->
         escalation_required d = true ->
         (forall q,
             summary d = Some q -> q <> "" ->
             ticketCreations (emitted (UserPortal.handleSend srv s) past)
             = [PostTickets q (Some updatedMessages) true])
         /\ (JS.truthy (summary d) = false ->
             ticketCreations (emitted (UserPortal.handleSend srv s) past)
             = [PostTickets userMsg (Some updatedMessages) true])).
Proof.
  split; [|split; [|split]].
  - intros ms q Hq. simpl. apply nonEmpty_true in Hq. now rewrite Hq.
  - intros ms summary m Hs Hm. rewrite (queryText_falsy _ _ Hs).
    unfold UserPortal.fallbackQuery. now rewrite (lastUserMsg_recent _ _ Hm).
  - intros ms summary Hs Hm. rewrite (queryText_falsy _ _ Hs).
    unfold UserPortal.fallbackQuery. now rewrite (lastUserMsg_none _ Hm).
  - intros srv s past d Htext Hload userMsg newMessages updatedMessages
           Hres Hesc.
    pose proof (handleSend_escalating srv s past d Htext Hload Hres Hesc)
      as Hsend.
    fold userMsg newMessages updatedMessages in Hsend. rewrite Hsend.
    split.
    + intros q Hq Hne. rewrite Hq. simpl.
      apply nonEmpty_true in Hne. now rewrite Hne.
    + intros Hs. rewrite (queryText_falsy _ _ Hs).
      unfold updatedMessages, newMessages.
      now rewrite fallbackQuery_just_sent.
Qed.

(** The scenario of the specification: the user sends "The VPN won't
    connect" and the analysis escalates with a summary. *)
Lemma ticket_query_from_summary_witness :
  ("VPN connectivity failure" <> ""
   /\ UserPortal.queryText Scenario.conversation
        (Some "VPN connectivity failure") = "VPN connectivity failure")
  /\ (mostRecentUserMessage Scenario.conversation
        (Message "user" "The VPN won't connect")
      /\ UserPortal.queryText Scenario.conversation None
         = "The VPN won't connect")
  /\ (noUserMessage Scenario.greetingOnly
      /\ UserPortal.queryText Scenario.greetingOnly None = "Support Request")
  /\ (JS.trim (UserPortal.input Scenario.typed) <> ""
      /\ UserPortal.loading Scenario.typed = false
      /\ exists h,
          ticketCreations
            (emitted (UserPortal.handleSend (Scenario.up Scenario.vpnSummary)
                        Scenario.typed) [])
          = [PostTickets "VPN connectivity failure" h true]).
Proof.
  destruct ticket_query_from_summary as (Hsum & Hlast & Hnone & Hsend).
  split.
  { assert (H : "VPN connectivity failure" <> "") by discriminate.
    split; [exact H | exact (Hsum Scenario.conversation _ H)]. }
  split.
  { assert (H : mostRecentUserMessage Scenario.conversation
                  (Message "user" "The VPN won't connect")).
    { exists [Message "ai"
                "Hi! I'm your IT Assistant. How can I help you today?";
              Message "user" "My laptop is slow";
              Message "ai" "Did you restart it?"],
             [Message "ai" "I have escalated this to our IT team."].
      split; [reflexivity|]. split; [reflexivity|].
      intros m' [<- | []]. discriminate. }
    split; [exact H|].
    exact (Hlast Scenario.conversation None _ eq_refl H). }
  split.
  { assert (H : noUserMessage Scenario.greetingOnly).
    { intros m [<- | []]. discriminate. }
    split; [exact H | exact (Hnone Scenario.greetingOnly None eq_refl H)]. }
  assert (H1 : JS.trim (UserPortal.input Scenario.typed) <> "") by discriminate.
  assert (H2 : UserPortal.loading Scenario.typed = false) by reflexivity.
  split; [exact H1|]. split; [exact H2|].
  eexists.
  exact (proj1 (Hsend (Scenario.up Scenario.vpnSummary) Scenario.typed []
                      Scenario.vpnSummary H1 H2 eq_refl eq_refl)
               "VPN connectivity failure" eq_refl
               ltac:(discriminate)).
Defined.

(* ================================================================= *)
(** ** The ticket flag of the portal *)

(** C1, evaluated on a session with two escalations.  The user sends
    a first message, the analysis asks for escalation and the ticket
    TKT-1007 is created: the session has sent one ticket creation and
    the "ticket created" flag holds that ticket.  The user then types
    a second message: the analysis asks for escalation again and
    [handleSend] creates a second ticket, whose query is that second
    message, although the flag is set. *)
Lemma second_ticket_created :
  UserPortal.reachable (Scenario.up Scenario.noSummary)
                       Scenario.ticketOpenLog Scenario.ticketOpen
  /\ UserPortal.ticketCreated Scenario.ticketOpen = Some "TKT-1007"
  /\ length (ticketCreations Scenario.ticketOpenLog) = 1%nat
  /\ map (fun r => match r with PostTickets q _ _ => q | _ => "" end)
         (ticketCreations
            (emitted (UserPortal.handleSend (Scenario.up Scenario.noSummary)
                        Scenario.ticketOpen)
                     Scenario.ticketOpenLog))
     = ["It is still down"].
Proof.
  split; [exists Scenario.session; reflexivity|].
  repeat split; reflexivity.
Qed.

(* ================================================================= *)
(** ** Sequencing *)

(** From here on [++] is the concatenation of lists. *)
Local Open Scope list_scope.

Lemma run_bind {A B} (m : IO A) (k : A -> IO B) past :
  bind m k past
  = (result (k (result m past)) (past ++ emitted m past),
     (emitted m past ++ emitted (k (result m past)) (past ++ emitted m past))%list).
Proof.
  unfold bind, result, emitted. destruct (m past) as [a e1]. cbn.
  now destruct (k a (past ++ e1)%list).
Qed.

Lemma emitted_bind {A B} (m : IO A) (k : A -> IO B) past :
  emitted (bind m k) past
  = (emitted m past ++ emitted (k (result m past)) (past ++ emitted m past))%list.
Proof. unfold emitted at 1. now rewrite run_bind. Qed.

Lemma result_bind {A B} (m : IO A) (k : A -> IO B) past :
  result (bind m k) past
  = result (k (result m past)) (past ++ emitted m past).
Proof. unfold result at 1. now rewrite run_bind. Qed.

Lemma requests_app tr1 tr2 :
  requests (tr1 ++ tr2) = (requests tr1 ++ requests tr2)%list.
Proof.
  induction tr1 as [|e tr1 IH]; [reflexivity|].
  destruct e; simpl; now rewrite IH.
Qed.

Lemma isPrefix_refl {A} (l : list A) : isPrefix l l.
Proof. exists []. now rewrite app_nil_r. Qed.

Lemma isPrefix_trans {A} (l1 l2 l3 : list A) :
  isPrefix l1 l2 -> isPrefix l2 l3 -> isPrefix l1 l3.
Proof.
  intros [r1 ->] [r2 ->]. exists (r1 ++ r2)%list. now rewrite app_assoc.
Qed.

Lemma isPrefix_app {A} (l r : list A) : isPrefix l (l ++ r).
Proof. now exists r. Qed.

(* ================================================================= *)
(** ** The portal, event by event *)

(** Everything [handleSend] can do, by the guard and the two answers. *)
Lemma handleSend_cases srv s past :
  let userMsg := JS.trim (UserPortal.input s) in
  let newMessages := (UserPortal.messages s ++ [Message "user" userMsg])%list in
  let sent := Request (PostAnalyze userMsg
                         (UserPortal.analyzeHistory newMessages)) in
  ((userMsg = "" \/ UserPortal.loading s = true)
   /\ UserPortal.handleSend srv s past = (s, []))
  \/ (userMsg <> "" /\ UserPortal.loading s = false /\
      ((UserPortal.handleSend srv s past
        = (UserPortal.State "" (newMessages ++ [UserPortal.troubleNotice])
                            false (UserPortal.ticketCreated s),
           [sent]))
       \/ exists d,
           let updated := (newMessages ++ [Message "ai" (response d)])%list in
           let ticket :=
             Request (PostTickets (UserPortal.queryText updated (summary d))
                                  (Some updated) true) in
           (UserPortal.handleSend srv s past
            = (UserPortal.State "" updated false (UserPortal.ticketCreated s),
               [sent]))
           \/ (exists ticket_id,
                  UserPortal.handleSend srv s past
                  = (UserPortal.State
                       "" (updated ++ [UserPortal.createdNotice ticket_id])
                       false (Some ticket_id),
                     [sent; ticket]))
           \/ (UserPortal.handleSend srv s past
               = (UserPortal.State "" updated false (UserPortal.ticketCreated s),
                  [sent; ticket;
                   ConsoleError "Failed to create ticket automatically"])))).
Proof.
  cbv zeta. unfold UserPortal.handleSend, UserPortal.createTicket.
  destruct (JS.nonEmpty (JS.trim (UserPortal.input s))) eqn:Hne.
  2:{ left. apply nonEmpty_false in Hne. split; [now left | reflexivity]. }
  destruct (UserPortal.loading s) eqn:Hl.
  { left. split; [now right | reflexivity]. }
  right. apply nonEmpty_true in Hne. split; [exact Hne|]. split; [reflexivity|].
  cbn [negb orb]. unfold bind, ret, emit, call, postAnalyze, postTickets.
  destruct s as [i ms l f]; cbn in *. subst l.
  destruct (srv_analyze srv past _ _) as [d | m]; [|now left].
  right. exists d. destruct (escalation_required d); [|now left].
  right. cbn.
  destruct (srv_post_tickets srv _ _ _ _) as [tid | m];
    [left; now exists tid | now right].
Qed.

Lemma string_app_assoc (a b c : string) :
  ((a ++ b) ++ c)%string = (a ++ b ++ c)%string.
Proof. induction a as [|x a IH]; simpl; [reflexivity | now rewrite IH]. Qed.

Lemma string_app_empty_r (a : string) : (a ++ "")%string = a.
Proof. induction a as [|x a IH]; simpl; [reflexivity | now rewrite IH]. Qed.

Lemma analyzeHistory_ends_with_user ms userMsg :
  exists earlier,
    UserPortal.analyzeHistory (ms ++ [Message "user" userMsg])
    = earlier ++ [("user", userMsg)].
Proof.
  exists (UserPortal.analyzeHistory ms).
  unfold UserPortal.analyzeHistory. now rewrite map_app.
Qed.

Lemma queryText_just_sent_nonempty ms userMsg aiText summary :
  userMsg <> "" ->
  UserPortal.queryText ((ms ++ [Message "user" userMsg])
                        ++ [Message "ai" aiText]) summary <> "".
Proof.
  intros Hne. destruct (JS.truthy summary) eqn:Ht.
  - destruct summary as [q|]; [|discriminate]. simpl in *. rewrite Ht.
    now apply nonEmpty_true.
  - rewrite (queryText_falsy _ _ Ht). now rewrite fallbackQuery_just_sent.
Qed.

Lemma step_messages_prefix srv ev s past :
  isPrefix (UserPortal.messages s)
           (UserPortal.messages (result (UserPortal.step srv ev s) past)).
Proof.
  destruct ev as [v|]; simpl.
  - destruct (UserPortal.loading s); apply isPrefix_refl.
  - unfold result.
    destruct (handleSend_cases srv s past)
      as [[_ H] | (_ & _ & [H | (d & [H | [(tid & H) | H]])])];
      rewrite H; cbn; try apply isPrefix_refl;
      rewrite <- ?app_assoc; apply isPrefix_app.
Qed.

Lemma run_messages_prefix srv : forall evs s past,
  isPrefix (UserPortal.messages s)
           (UserPortal.messages (result (UserPortal.run srv evs s) past)).
Proof.
  induction evs as [|ev evs IH]; intros s past; simpl.
  - apply isPrefix_refl.
  - rewrite result_bind.
    eapply isPrefix_trans; [apply step_messages_prefix | apply IH].
Qed.

Lemma ticketCreations_app tr1 tr2 :
  ticketCreations (tr1 ++ tr2) = ticketCreations tr1 ++ ticketCreations tr2.
Proof. unfold ticketCreations. now rewrite requests_app, filter_app. Qed.

Lemma analyses_app tr1 tr2 :
  analyses (tr1 ++ tr2) = analyses tr1 ++ analyses tr2.
Proof. unfold analyses. now rewrite requests_app, filter_app. Qed.

Lemma portal_step_inv srv ev s past :
  portalInv past s ->
  portalInv (past ++ emitted (UserPortal.step srv ev s) past)
            (result (UserPortal.step srv ev s) past).
Proof.
  intros (Hl & Hflag & Hle & Hwf).
  assert (Hsame : portalInv (past ++ []) s).
  { rewrite app_nil_r. now repeat split. }
  destruct ev as [v|]; simpl.
  - rewrite Hl. cbn. rewrite app_nil_r. now repeat split.
  - unfold result, emitted.
    destruct (handleSend_cases srv s past)
      as [[_ H] | (Hne & _ & [H | (d & [H | [(tid & H) | H]])])];
      rewrite H; cbn [fst snd]; [exact Hsame | | | |];
      (split; [reflexivity|]);
      rewrite ticketCreations_app, analyses_app, requests_app, !length_app;
      cbn [UserPortal.ticketCreated ticketCreations analyses requests filter
           isTicketCreation isAnalysis length app].
    + rewrite app_nil_r. split; [exact Hflag|]. split; [lia|].
      apply Forall_app. split; [exact Hwf|]. constructor; [|constructor].
      split; [exact Hne | apply analyzeHistory_ends_with_user].
    + rewrite app_nil_r. split; [exact Hflag|]. split; [lia|].
      apply Forall_app. split; [exact Hwf|]. constructor; [|constructor].
      split; [exact Hne | apply analyzeHistory_ends_with_user].
    + split; [intros _ E; now apply app_eq_nil in E|]. split; [lia|].
      apply Forall_app. split; [exact Hwf|].
      constructor; [|constructor; [|constructor]].
      * split; [exact Hne | apply analyzeHistory_ends_with_user].
      * split; [now apply queryText_just_sent_nonempty | reflexivity].
    + split; [intros _ E; now apply app_eq_nil in E|]. split; [lia|].
      apply Forall_app. split; [exact Hwf|].
      constructor; [|constructor; [|constructor]].
      * split; [exact Hne | apply analyzeHistory_ends_with_user].
      * split; [now apply queryText_just_sent_nonempty | reflexivity].
Qed.

Lemma portal_run_inv srv : forall evs s past,
  portalInv past s ->
  portalInv (past ++ emitted (UserPortal.run srv evs s) past)
            (result (UserPortal.run srv evs s) past).
Proof.
  induction evs as [|ev evs IH]; intros s past Hinv; simpl.
  - cbn. now rewrite app_nil_r.
  - rewrite emitted_bind, result_bind, app_assoc.
    apply IH. now apply portal_step_inv.
Qed.

Lemma portal_reachable_inv srv past s :
  UserPortal.reachable srv past s -> portalInv past s.
Proof.
  intros [evs Hrun].
  pose proof (portal_run_inv srv evs UserPortal.initial []) as H.
  unfold result, emitted in H. rewrite Hrun in H. cbn in H. apply H.
  repeat split; try reflexivity; try (cbn; lia); try constructor.
  intros Hc. now contradiction Hc.
Qed.

(** X1. No event of the portal removes or rewrites a chat message: the
    conversation before a session is an initial segment of the
    conversation after it.  So every reachable conversation still
    starts with the assistant's greeting. *)
Theorem portal_conversation_only_grows :
  (forall srv evs s past,
      isPrefix (UserPortal.messages s)
               (UserPortal.messages (result (UserPortal.run srv evs s) past)))
  /\ (forall srv past s,
         UserPortal.reachable srv past s ->
         exists rest,
           UserPortal.messages s
           = Message "ai"
               "Hi! I'm your IT Assistant. How can I help you today?"
             :: rest).
Proof.
  split; [intros; apply run_messages_prefix|].
  intros srv past s [evs Hrun].
  destruct (run_messages_prefix srv evs UserPortal.initial []) as [rest H].
  unfold result in H. rewrite Hrun in H. cbn in H. now exists rest.
Qed.

(** After the session of the scenario the greeting is still first. *)
Lemma portal_conversation_only_grows_witness :
  UserPortal.reachable (Scenario.up Scenario.noSummary)
                       Scenario.ticketOpenLog Scenario.ticketOpen
  /\ exists rest,
      UserPortal.messages Scenario.ticketOpen
      = Message "ai" "Hi! I'm your IT Assistant. How can I help you today?"
        :: rest.
Proof.
  assert (H : UserPortal.reachable (Scenario.up Scenario.noSummary)
                Scenario.ticketOpenLog Scenario.ticketOpen)
    by (exists Scenario.session; reflexivity).
  split; [exact H|].
  exact (proj2 portal_conversation_only_grows _ _ _ H).
Defined.

(** X2. In a portal session the "ticket created" flag is set only if
    a ticket-creation request was sent, and the session never sent more
    ticket creations than chat analyses. *)
Theorem portal_flag_has_ticket_behind srv past s :
  UserPortal.reachable srv past s ->
  (UserPortal.ticketCreated s <> None -> ticketCreations past <> [])
  /\ (length (ticketCreations past) <= length (analyses past))%nat.
Proof.
  intros H. destruct (portal_reachable_inv srv past s H) as (_ & B & C & _).
  now split.
Qed.

Lemma portal_flag_has_ticket_behind_witness :
  UserPortal.reachable (Scenario.up Scenario.noSummary)
                       Scenario.ticketOpenLog Scenario.ticketOpen
  /\ (UserPortal.ticketCreated Scenario.ticketOpen <> None ->
      ticketCreations Scenario.ticketOpenLog <> [])
  /\ (length (ticketCreations Scenario.ticketOpenLog)
      <= length (analyses Scenario.ticketOpenLog))%nat.
Proof.
  assert (H : UserPortal.reachable (Scenario.up Scenario.noSummary)
                Scenario.ticketOpenLog Scenario.ticketOpen)
    by (exists Scenario.session; reflexivity).
  split; [exact H|].
  exact (portal_flag_has_ticket_behind _ _ _ H).
Defined.



(** X4. [handleSend] with a blank input, or while a request is in
    flight, does nothing at all.  Otherwise it clears the input, ends
    with [loading] off whatever the backend answers, keeps the old
    conversation followed by the user's trimmed message, and sends the
    analysis first, followed by at most one more request, which is not
    an analysis. *)
Theorem handleSend_outcome :
  (forall srv s past,
      JS.trim (UserPortal.input s) = "" \/ UserPortal.loading s = true ->
      UserPortal.handleSend srv s past = (s, []))
  /\ (forall srv s past,
         JS.trim (UserPortal.input s) <> "" ->
         UserPortal.loading s = false ->
         let userMsg := JS.trim (UserPortal.input s) in
         let after := result (UserPortal.handleSend srv s) past in
         UserPortal.input after = ""
         /\ UserPortal.loading after = false
         /\ isPrefix (UserPortal.messages s ++ [Message "user" userMsg])
                     (UserPortal.messages after)
         /\ exists tail,
             emitted (UserPortal.handleSend srv s) past
             = Request (PostAnalyze userMsg
                          (UserPortal.analyzeHistory
                             (UserPortal.messages s
                              ++ [Message "user" userMsg])))
               :: tail
             /\ (length (requests tail) <= 1)%nat
             /\ analyses tail = []).
Proof.
  split.
  - intros srv s past Hg.
    destruct (handleSend_cases srv s past) as [[_ H] | (Hne & Hl & _)];
      [exact H|].
    destruct Hg as [Hg | Hg]; [contradiction | congruence].
  - intros srv s past Hne Hl. cbv zeta. unfold result, emitted.
    destruct (handleSend_cases srv s past)
      as [[[Hg | Hg] _] | (_ & _ & [H | (d & [H | [(tid & H) | H]])])];
      [contradiction | congruence | | | |];
      rewrite H; cbn [fst snd UserPortal.input UserPortal.loading
                      UserPortal.messages];
      (split; [reflexivity|]); (split; [reflexivity|]);
      (split; [unfold isPrefix; eexists; rewrite <- ?app_assoc; reflexivity|]);
      eexists; (split; [reflexivity|]); cbn; split; (lia || reflexivity).
Qed.

Lemma handleSend_outcome_witness :
  (JS.trim (UserPortal.input UserPortal.initial) = ""
   /\ UserPortal.handleSend Scenario.down UserPortal.initial []
      = (UserPortal.initial, []))
  /\ (JS.trim (UserPortal.input Scenario.typed) <> ""
      /\ UserPortal.loading Scenario.typed = false
      /\ UserPortal.input
           (result (UserPortal.handleSend Scenario.down Scenario.typed) [])
         = "").
Proof.
  destruct handleSend_outcome as [Hguard Hsend].
  split.
  - assert (H : JS.trim (UserPortal.input UserPortal.initial) = "")
      by reflexivity.
    split; [exact H|].
    exact (Hguard Scenario.down UserPortal.initial [] (or_introl H)).
  - assert (H1 : JS.trim (UserPortal.input Scenario.typed) <> "")
      by discriminate.
    assert (H2 : UserPortal.loading Scenario.typed = false) by reflexivity.
    split; [exact H1|]. split; [exact H2|].
    exact (proj1 (Hsend Scenario.down Scenario.typed [] H1 H2)).
Defined.

(** X5. The manual escalation sends exactly one request, a ticket whose
    query is the whole transcript and which has no [history] field; it
    never asks for an analysis and always ends with [loading] off.  On
    success the flag takes the new ticket id and one notice is appended
    to the conversation; on failure the conversation and the flag are
    as before and one alert is shown. *)
Theorem handleEscalate_outcome srv s past :
  let after := result (UserPortal.handleEscalate srv s) past in
  requests (emitted (UserPortal.handleEscalate srv s) past)
  = [PostTickets (UserPortal.fullHistory (UserPortal.messages s)) None true]
  /\ UserPortal.loading after = false
  /\ UserPortal.input after = UserPortal.input s
  /\ match srv_post_tickets srv past
             (UserPortal.fullHistory (UserPortal.messages s)) None true with
     | Resolved ticket_id =>
         UserPortal.ticketCreated after = Some ticket_id
         /\ UserPortal.messages after
            = UserPortal.messages s ++ [UserPortal.escalatedNotice ticket_id]
         /\ filter userVisible (emitted (UserPortal.handleEscalate srv s) past)
            = []
     | Rejected _ =>
         UserPortal.ticketCreated after = UserPortal.ticketCreated s
         /\ UserPortal.messages after = UserPortal.messages s
         /\ filter userVisible (emitted (UserPortal.handleEscalate srv s) past)
            = [Alert "Failed to create ticket."]
     end.
Proof.
  cbv zeta. unfold UserPortal.handleEscalate. io.
  destruct (srv_post_tickets srv past _ None true); cbn; repeat split.
Qed.

Lemma join_app sep : forall l1 l2,
  l1 <> [] -> l2 <> [] ->
  JS.join sep (l1 ++ l2)
  = (JS.join sep l1 ++ sep ++ JS.join sep l2)%string.
Proof.
  induction l1 as [|x l1 IH]; intros l2 H1 H2; [contradiction|].
  destruct l1 as [|y l1].
  - destruct l2; [contradiction | reflexivity].
  - change (JS.join sep ((x :: y :: l1) ++ l2))
      with (x ++ sep ++ JS.join sep ((y :: l1) ++ l2))%string.
    rewrite IH by (discriminate || assumption).
    change (JS.join sep (x :: y :: l1))
      with (x ++ sep ++ JS.join sep (y :: l1))%string.
    now rewrite !string_app_assoc.
Qed.

(** X6. The transcript sent by the manual escalation is built message
    by message: a single message gives "ROLE: content", and the
    transcript of two conversations put together is the two transcripts
    separated by a line feed. *)
Theorem fullHistory_app :
  (forall m,
      UserPortal.fullHistory [m]
      = (JS.toUpperCase (role m) ++ ": " ++ content m)%string)
  /\ (forall ms1 ms2,
         ms1 <> [] -> ms2 <> [] ->
         UserPortal.fullHistory (ms1 ++ ms2)
         = (UserPortal.fullHistory ms1 ++ JS.LF
            ++ UserPortal.fullHistory ms2)%string).
Proof.
  split; [reflexivity|].
  intros ms1 ms2 H1 H2. unfold UserPortal.fullHistory.
  rewrite map_app. apply join_app.
  - destruct ms1; [contradiction | discriminate].
  - destruct ms2; [contradiction | discriminate].
Qed.

Lemma fullHistory_app_witness :
  Scenario.greetingOnly <> []
  /\ [Message "user" "The VPN won't connect"] <> []
  /\ UserPortal.fullHistory
       (Scenario.greetingOnly ++ [Message "user" "The VPN won't connect"])
     = (UserPortal.fullHistory Scenario.greetingOnly ++ JS.LF
        ++ "USER: The VPN won't connect")%string.
Proof.
  assert (H1 : Scenario.greetingOnly <> []) by discriminate.
  assert (H2 : [Message "user" "The VPN won't connect"] <> [])
    by discriminate.
  split; [exact H1|]. split; [exact H2|].
  exact (proj2 fullHistory_app _ _ H1 H2).
Defined.

(* ================================================================= *)
(** ** Selecting tickets *)

Lemma filter_other_In (i : string) l x :
  In x (filter (fun tid => negb (tid =? i)) l) <-> In x l /\ x <> i.
Proof.
  rewrite filter_In, negb_true_iff, String.eqb_neq. reflexivity.
Qed.

Lemma filter_other_absent (i : string) : forall l,
  ~ In i l -> filter (fun tid => negb (tid =? i)) l = l.
Proof.
  induction l as [|y l IH]; intros Hn; simpl; [reflexivity|].
  destruct (y =? i) eqn:E.
  - apply String.eqb_eq in E. subst y. exfalso. apply Hn. now left.
  - simpl. rewrite IH; [reflexivity|]. intros H. apply Hn. now right.
Qed.

Lemma toggled_selection i s :
  App.selectedTicketIds (App.toggleTicketSelection i s)
  = if JS.arrayIncludes (App.selectedTicketIds s) i
    then filter (fun tid => negb (tid =? i)) (App.selectedTicketIds s)
    else App.selectedTicketIds s ++ [i].
Proof. reflexivity. Qed.

(** X7. Ticking a card flips that ticket in the selection and leaves
    every other ticket as it was; a selection without duplicates stays
    without duplicates; ticking twice gives back the same set of
    tickets, and the very same list when the ticket was not selected. *)
Theorem toggle_selection_flips i s :
  let before := App.selectedTicketIds s in
  let after := App.selectedTicketIds (App.toggleTicketSelection i s) in
  let twice :=
    App.selectedTicketIds
      (App.toggleTicketSelection i (App.toggleTicketSelection i s)) in
  (In i after <-> ~ In i before)
  /\ (forall j, j <> i -> (In j after <-> In j before))
  /\ (NoDup before -> NoDup after)
  /\ sameSet twice before
  /\ (~ In i before -> twice = before).
Proof.
  cbv zeta. rewrite !toggled_selection.
  destruct (JS.arrayIncludes (App.selectedTicketIds s) i) eqn:E.
  - apply arrayIncludes_spec in E.
    assert (Hout : JS.arrayIncludes
                     (filter (fun tid => negb (tid =? i))
                             (App.selectedTicketIds s)) i = false).
    { destruct (JS.arrayIncludes _ i) eqn:E'; [|reflexivity].
      apply arrayIncludes_spec, filter_other_In in E'. now destruct E'. }
    rewrite Hout.
    split; [|split; [|split; [|split]]].
    + split; [|intros H; contradiction].
      intros H. apply filter_other_In in H. now destruct H.
    + intros j Hj. rewrite filter_other_In. tauto.
    + apply NoDup_filter.
    + intros x. rewrite in_app_iff, filter_other_In. simpl.
      destruct (string_dec x i) as [-> | Hne]; [tauto|].
      split; [intros [[H _] | [H | []]]; [exact H | congruence] | tauto].
    + intros H. contradiction.
  - assert (Hn : ~ In i (App.selectedTicketIds s)).
    { intros H. apply arrayIncludes_spec in H. congruence. }
    assert (Hin : JS.arrayIncludes (App.selectedTicketIds s ++ [i]) i = true).
    { apply arrayIncludes_spec, in_or_app. right. now left. }
    rewrite Hin.
    assert (Hback : filter (fun tid => negb (tid =? i))
                           (App.selectedTicketIds s ++ [i])
                    = App.selectedTicketIds s).
    { rewrite filter_app, filter_other_absent by exact Hn. simpl.
      rewrite String.eqb_refl. simpl. apply app_nil_r. }
    rewrite Hback.
    split; [|split; [|split; [|split]]].
    + rewrite in_app_iff. simpl. tauto.
    + intros j Hj. rewrite in_app_iff. simpl.
      split; [intros [H | [H | []]]; [exact H | congruence] | tauto].
    + intros Hnd. apply NoDup_app; [exact Hnd | repeat constructor; auto |].
      intros a Ha [<- | []]. contradiction.
    + intros x. reflexivity.
    + reflexivity.
Qed.

(** X8. The select-all button leaves all or nothing selected: it clears
    the selection when the selection has as many ids as the queue has
    tickets, and it selects every visible ticket otherwise; its label
    says which of the two a click does, and a second click clears what
    the first one selected. *)
Theorem select_all_is_all_or_nothing s :
  let visible := map id (App.escalatedTickets s) in
  (length (App.selectedTicketIds s) = length visible ->
   App.selectedTicketIds (App.toggleSelectAll s) = []
   /\ App.selectAllLabel s = "Deselect All")
  /\ (length (App.selectedTicketIds s) <> length visible ->
      App.selectedTicketIds (App.toggleSelectAll s) = visible
      /\ App.selectAllLabel s = "Select All"
      /\ App.selectedTicketIds (App.toggleSelectAll (App.toggleSelectAll s))
         = []).
Proof.
  cbv zeta. rewrite length_map. unfold App.toggleSelectAll, App.selectAllLabel.
  split; intros H.
  - apply Nat.eqb_eq in H. rewrite H. split; reflexivity.
  - apply Nat.eqb_neq in H. rewrite H. split; [reflexivity|].
    split; [reflexivity|].
    destruct s; cbn in *. unfold App.escalatedTickets. cbn.
    now rewrite length_map, Nat.eqb_refl.
Qed.

Lemma select_all_is_all_or_nothing_witness :
  length (App.selectedTicketIds Scenario.dashboard)
  <> length (map id (App.escalatedTickets Scenario.dashboard))
  /\ App.selectedTicketIds (App.toggleSelectAll Scenario.dashboard)
     = ["TKT-1001"; "TKT-1002"; "TKT-1003"]
  /\ length (App.selectedTicketIds
               (App.toggleSelectAll Scenario.dashboard))
     = length (map id (App.escalatedTickets
                         (App.toggleSelectAll Scenario.dashboard)))
  /\ App.selectedTicketIds
       (App.toggleSelectAll (App.toggleSelectAll Scenario.dashboard))
     = [].
Proof.
  assert (H1 : length (App.selectedTicketIds Scenario.dashboard)
               <> length (map id (App.escalatedTickets Scenario.dashboard)))
    by discriminate.
  assert (H2 : length (App.selectedTicketIds
                         (App.toggleSelectAll Scenario.dashboard))
               = length (map id (App.escalatedTickets
                                   (App.toggleSelectAll Scenario.dashboard))))
    by reflexivity.
  split; [exact H1|].
  split; [exact (proj1 (proj2 (select_all_is_all_or_nothing
                                 Scenario.dashboard) H1))|].
  split; [exact H2|].
  exact (proj1 (proj1 (select_all_is_all_or_nothing
                         (App.toggleSelectAll Scenario.dashboard)) H2)).
Defined.

Lemma toggle_selection_flips_witness :
  NoDup (App.selectedTicketIds Scenario.batchReady)
  /\ ~ In "TKT-1002" (App.selectedTicketIds Scenario.batchReady)
  /\ NoDup (App.selectedTicketIds
              (App.toggleTicketSelection "TKT-1002" Scenario.batchReady))
  /\ App.selectedTicketIds
       (App.toggleTicketSelection "TKT-1002"
          (App.toggleTicketSelection "TKT-1002" Scenario.batchReady))
     = App.selectedTicketIds Scenario.batchReady.
Proof.
  assert (H1 : NoDup (App.selectedTicketIds Scenario.batchReady)).
  { repeat constructor; simpl; intuition discriminate. }
  assert (H2 : ~ In "TKT-1002" (App.selectedTicketIds Scenario.batchReady)).
  { simpl. intuition discriminate. }
  destruct (toggle_selection_flips "TKT-1002" Scenario.batchReady)
    as (_ & _ & Hnd & _ & Hback).
  split; [exact H1|]. split; [exact H2|].
  split; [exact (Hnd H1) | exact (Hback H2)].
Defined.

(* ================================================================= *)
(** ** Tabs, pills and the queue *)

Lemma filter_length_same {A} (f g : A -> bool) (l : list A) :
  (forall x, f x = g x) -> length (filter f l) = length (filter g l).
Proof. intros H. now rewrite (filter_ext f g H). Qed.

Lemma filter_length_mono {A} (f g : A -> bool) : forall l : list A,
  (forall x, f x = true -> g x = true) ->
  (length (filter f l) <= length (filter g l))%nat.
Proof.
  induction l as [|x l IH]; intros H; simpl; [lia|].
  specialize (IH H). destruct (f x) eqn:Hf.
  - rewrite (H x Hf). simpl. lia.
  - destruct (g x); simpl; lia.
Qed.

Lemma filter_filter {A} (f g : A -> bool) : forall l : list A,
  (forall x, f x = true -> g x = true) ->
  filter f (filter g l) = filter f l.
Proof.
  induction l as [|x l IH]; intros H; simpl; [reflexivity|].
  destruct (g x) eqn:Hg; simpl.
  - destruct (f x); now rewrite IH.
  - destruct (f x) eqn:Hf; [|now apply IH].
    rewrite (H x Hf) in Hg. discriminate.
Qed.

Lemma isEscalated_widen cf sf t :
  App.isEscalated cf sf t = true ->
  App.isEscalated cf "All" t = true /\ App.isEscalated "All" "All" t = true.
Proof.
  rewrite !isEscalated_spec. unfold filterAccepts. intuition.
Qed.

(** X9. The number on a category tab is the number of cards the queue
    shows once the tab is clicked; and, under a category other than
    "All", the number on a subcategory pill is the number of cards the
    queue shows once the pill is clicked. *)
Theorem counts_match_queue :
  (forall s name,
      App.tabCount (App.tickets s) name
      = length (App.escalatedTickets (App.selectCategory name s)))
  /\ (forall s sub,
         App.categoryFilter s <> "All" ->
         App.subCount (App.tickets s) (App.categoryFilter s) sub
         = length (App.escalatedTickets (App.selectSubcategory sub s))).
Proof.
  split.
  - intros s name. unfold App.tabCount, App.escalatedTickets,
                     App.escalatedTicketsOf. cbn.
    apply filter_length_same. intros t. unfold App.isEscalated.
    destruct (status t =? "Pending"), (status t =? "Awaiting Info"),
      (name =? "All"), (JS.strictEq (category t) (Some name)); reflexivity.
  - intros s sub Hcf. unfold App.subCount, App.escalatedTickets,
                        App.escalatedTicketsOf. cbn.
    apply String.eqb_neq in Hcf.
    apply filter_length_same. intros t. unfold App.isEscalated. rewrite Hcf.
    destruct (status t =? "Pending"), (status t =? "Awaiting Info"),
      (sub =? "All"), (JS.strictEq (category t) (Some (App.categoryFilter s))),
      (JS.strictEq (subcategory t) (Some sub)); reflexivity.
Qed.

Lemma counts_match_queue_witness :
  App.categoryFilter (App.selectCategory "Network" Scenario.dashboard) <> "All"
  /\ App.subCount Scenario.queue "Network" "Wi-Fi" = 3%nat
  /\ length (App.escalatedTickets
               (App.selectSubcategory "Wi-Fi"
                  (App.selectCategory "Network" Scenario.dashboard)))
     = 3%nat.
Proof.
  assert (H : App.categoryFilter
                (App.selectCategory "Network" Scenario.dashboard) <> "All")
    by discriminate.
  split; [exact H|]. split; [reflexivity|].
  rewrite <- (proj2 counts_match_queue
                    (App.selectCategory "Network" Scenario.dashboard)
                    "Wi-Fi" H).
  reflexivity.
Defined.

Lemma offered_subcategory_In ts cf x :
  In x (tl (App.activeSubcategoriesOf ts cf)) ->
  x <> "" /\
  exists t, In t ts /\ category t = Some cf /\ openStatus t
            /\ subcategory t = Some x.
Proof.
  unfold App.activeSubcategoriesOf, JS.newSet. simpl.
  rewrite setFrom_In, filterBoolean_In, in_map_iff.
  intros [[Hx (t & Hs & Hin)] _]. split; [exact Hx|].
  apply filter_In in Hin. destruct Hin as [Hin Hc].
  apply andb_true_iff in Hc. destruct Hc as [Hc Ho].
  apply strictEq_spec in Hc. exists t. repeat split; auto.
  now apply isOpen_spec.
Qed.

(** X10. Every subcategory pill offered after the leading "All" is a
    non-empty text and leads to a queue with at least one card. *)
Theorem offered_subcategory_has_tickets ts cf sub :
  In sub (tl (App.activeSubcategoriesOf ts cf)) ->
  sub <> "" /\ App.escalatedTicketsOf ts cf sub <> [].
Proof.
  intros H. apply offered_subcategory_In in H.
  destruct H as [Hne (t & Hin & Hc & Ho & Hs)]. split; [exact Hne|].
  assert (Ht : In t (App.escalatedTicketsOf ts cf sub)).
  { apply filter_In. split; [exact Hin|]. apply isEscalated_spec.
    split; [exact Ho|]. split; now right. }
  intros E. rewrite E in Ht. contradiction.
Qed.

Lemma offered_subcategory_has_tickets_witness :
  In "Wi-Fi" (tl (App.activeSubcategoriesOf Scenario.queue "Network"))
  /\ "Wi-Fi" <> ""
  /\ App.escalatedTicketsOf Scenario.queue "Network" "Wi-Fi" <> [].
Proof.
  assert (H : In "Wi-Fi"
                 (tl (App.activeSubcategoriesOf Scenario.queue "Network")))
    by (simpl; now left).
  split; [exact H|].
  exact (offered_subcategory_has_tickets Scenario.queue "Network" "Wi-Fi" H).
Defined.

(** X11. The filters only narrow the queue: filtering the unfiltered
    queue gives the filtered queue, and the queue under a category and
    a subcategory is no longer than the queue under the category alone,
    which is no longer than the unfiltered queue, which is no longer
    than the ticket list. *)
Theorem filters_only_narrow ts cf sf :
  App.escalatedTicketsOf (App.escalatedTicketsOf ts "All" "All") cf sf
  = App.escalatedTicketsOf ts cf sf
  /\ (length (App.escalatedTicketsOf ts cf sf)
      <= length (App.escalatedTicketsOf ts cf "All"))%nat
  /\ (length (App.escalatedTicketsOf ts cf "All")
      <= length (App.escalatedTicketsOf ts "All" "All"))%nat
  /\ (length (App.escalatedTicketsOf ts "All" "All") <= length ts)%nat.
Proof.
  unfold App.escalatedTicketsOf. repeat split.
  - apply filter_filter. intros t H. now apply isEscalated_widen in H.
  - apply filter_length_mono. intros t H. now apply isEscalated_widen in H.
  - apply filter_length_mono. intros t H. now apply isEscalated_widen in H.
  - apply filter_length_le.
Qed.

(* ================================================================= *)
(** ** The batch modal *)

Lemma handleBroadcastAll_sends srv s past :
  App.selectedTicketIds s <> [] ->
  JS.trim (App.broadcastAllText s) <> "" ->
  App.isConfirmingBroadcastAll s = true ->
  App.handleBroadcastAll srv s past
  = match srv_broadcast_all srv past (App.broadcastAllText s)
            (App.selectedTicketIds s) with
    | Resolved n =>
        let toast := ("Successfully resolved " ++ n
                      ++ " ticket(s)!")%string in
        let cleared :=
          App.setSelectedTicketIds []
            (App.setIsConfirmingBroadcastAll false
               (App.setBroadcastAllText ""
                  (App.setShowBroadcastAll false
                     (App.setNotification (Some (toast, "success")) s)))) in
        let sent := [Request (PostBroadcastAll (App.broadcastAllText s)
                                               (App.selectedTicketIds s));
                     Notify toast "success"] in
        (result (App.fetchTickets srv cleared) (past ++ sent),
         sent ++ emitted (App.fetchTickets srv cleared) (past ++ sent))
    | Rejected _ =>
        (App.setNotification (Some ("Failed to broadcast solution", "error")) s,
         [Request (PostBroadcastAll (App.broadcastAllText s)
                                    (App.selectedTicketIds s));
          ConsoleError "Broadcast all error:";
          Notify "Failed to broadcast solution" "error"])
    end.
Proof.
  intros Hsel Htext Hconf. unfold App.handleBroadcastAll.
  apply length_zero_false in Hsel. apply nonEmpty_true in Htext.
  rewrite Hsel, Htext, Hconf. cbn [negb]. io.
  destruct (srv_broadcast_all srv past _ _) as [n | m]; [|reflexivity].
  cbn [fst snd app]. rewrite <- !app_assoc. cbn [app].
  now destruct (srv_get_tickets srv _).
Qed.

Lemma fetchTickets_run srv s past :
  App.fetchTickets srv s past
  = match srv_get_tickets srv past with
    | Resolved d => (App.setTickets d s, [Request GetTickets])
    | Rejected _ => (s, [Request GetTickets; ConsoleError "Fetch error:"])
    end.
Proof.
  unfold App.fetchTickets, getTickets, bind, call, emit, ret.
  now destruct (srv_get_tickets srv past).
Qed.

(** X12. A submit right after the batch modal was opened never sends
    anything: the modal opens on its first step with an empty text, so
    the submit only shows one error toast and stays on the first step. *)
Theorem fresh_modal_sends_nothing srv s past :
  let opened := App.openBroadcastModal s in
  requests (emitted (App.handleBroadcastAll srv opened) past) = []
  /\ length (filter userVisible
               (emitted (App.handleBroadcastAll srv opened) past)) = 1%nat
  /\ App.isConfirmingBroadcastAll
       (result (App.handleBroadcastAll srv opened) past) = false
  /\ App.showBroadcastAll
       (result (App.handleBroadcastAll srv opened) past) = true.
Proof.
  cbv zeta. unfold App.handleBroadcastAll, App.openBroadcastModal.
  destruct (length (App.selectedTicketIds s) =? 0)%nat eqn:E; cbn;
    [destruct (length (map id (App.escalatedTickets s)) =? 0)%nat
    | rewrite E]; repeat split.
Qed.

(** X13. What a confirmed batch broadcast leaves behind.  After a
    success the modal is closed, the text and the selection are empty
    and the confirmation step is off, so that a further submit sends
    nothing.  After a failure the modal, the text, the selection and
    the confirmation step are as before, so that a further submit sends
    the same batch again. *)
Theorem batch_broadcast_outcome srv s past :
  App.selectedTicketIds s <> [] ->
  JS.trim (App.broadcastAllText s) <> "" ->
  App.isConfirmingBroadcastAll s = true ->
  let after := result (App.handleBroadcastAll srv s) past in
  match srv_broadcast_all srv past (App.broadcastAllText s)
          (App.selectedTicketIds s) with
  | Resolved _ =>
      App.showBroadcastAll after = false
      /\ App.broadcastAllText after = ""
      /\ App.selectedTicketIds after = []
      /\ App.isConfirmingBroadcastAll after = false
      /\ forall past',
          requests (emitted (App.handleBroadcastAll srv after) past') = []
  | Rejected _ =>
      App.showBroadcastAll after = App.showBroadcastAll s
      /\ App.broadcastAllText after = App.broadcastAllText s
      /\ App.selectedTicketIds after = App.selectedTicketIds s
      /\ App.isConfirmingBroadcastAll after = true
      /\ App.tickets after = App.tickets s
      /\ forall past',
          exists tail,
            emitted (App.handleBroadcastAll srv after) past'
            = Request (PostBroadcastAll (App.broadcastAllText s)
                                        (App.selectedTicketIds s)) :: tail
  end.
Proof.
  intros Hsel Htext Hconf. cbv zeta. unfold result.
  rewrite (handleBroadcastAll_sends srv s past Hsel Htext Hconf).
  destruct (srv_broadcast_all srv past _ _) as [n | m]; cbv zeta; cbn [fst].
  - unfold result. rewrite fetchTickets_run.
    destruct (srv_get_tickets srv _); cbn; repeat split; reflexivity.
  - cbn. repeat split; auto.
    intros past'.
    unfold emitted.
    rewrite (handleBroadcastAll_sends srv _ past'); cbn; auto.
    destruct (srv_broadcast_all srv past' _ _); cbv zeta; cbn;
      eexists; reflexivity.
Qed.

Lemma batch_broadcast_outcome_witness :
  App.selectedTicketIds Scenario.batchConfirming <> []
  /\ JS.trim (App.broadcastAllText Scenario.batchConfirming) <> ""
  /\ App.isConfirmingBroadcastAll Scenario.batchConfirming = true
  /\ App.selectedTicketIds
       (result (App.handleBroadcastAll Scenario.down Scenario.batchConfirming)
               [])
     = ["TKT-1001"; "TKT-1003"]
  /\ App.selectedTicketIds
       (result (App.handleBroadcastAll (Scenario.up Scenario.noSummary)
                  Scenario.batchConfirming) [])
     = [].
Proof.
  assert (H1 : App.selectedTicketIds Scenario.batchConfirming <> [])
    by discriminate.
  assert (H2 : JS.trim (App.broadcastAllText Scenario.batchConfirming) <> "")
    by discriminate.
  assert (H3 : App.isConfirmingBroadcastAll Scenario.batchConfirming = true)
    by reflexivity.
  split; [exact H1|]. split; [exact H2|]. split; [exact H3|]. split.
  - exact (proj1 (proj2 (proj2
             (batch_broadcast_outcome Scenario.down Scenario.batchConfirming
                                      [] H1 H2 H3)))).
  - exact (proj1 (proj2 (proj2
             (batch_broadcast_outcome (Scenario.up Scenario.noSummary)
                                      Scenario.batchConfirming [] H1 H2 H3)))).
Defined.

(** X14. A refresh of the ticket list changes nothing but the list:
    the filters, the selection, the modals and the texts being typed
    are as before, and on failure the list is as before too.  Hence a
    batch confirmed after a refresh is sent for the tickets ticked
    before it, whatever the refresh returned. *)
Theorem refresh_keeps_view_state srv s past :
  let after := result (App.fetchTickets srv s) past in
  after = App.setTickets (App.tickets after) s
  /\ App.tickets after
     = match srv_get_tickets srv past with
       | Resolved d => d
       | Rejected _ => App.tickets s
       end
  /\ requests (emitted (App.fetchTickets srv s) past) = [GetTickets]
  /\ (App.selectedTicketIds s <> [] ->
      JS.trim (App.broadcastAllText s) <> "" ->
      App.isConfirmingBroadcastAll s = true ->
      forall past',
        exists tail,
          emitted (App.handleBroadcastAll srv after) past'
          = Request (PostBroadcastAll (App.broadcastAllText s)
                                      (App.selectedTicketIds s)) :: tail).
Proof.
  cbv zeta. unfold result, emitted. rewrite fetchTickets_run.
  destruct (srv_get_tickets srv past) as [d | m]; cbn [fst snd].
  - split; [reflexivity|]. split; [reflexivity|]. split; [reflexivity|].
    intros Hsel Htext Hconf past'.
    unfold emitted.
    rewrite (handleBroadcastAll_sends srv _ past'); cbn; auto.
    destruct (srv_broadcast_all srv past' _ _); cbv zeta; cbn;
      eexists; reflexivity.
  - split; [now destruct s|]. split; [reflexivity|]. split; [reflexivity|].
    intros Hsel Htext Hconf past'.
    unfold emitted.
    rewrite (handleBroadcastAll_sends srv _ past'); cbn; auto.
    destruct (srv_broadcast_all srv past' _ _); cbv zeta; cbn;
      eexists; reflexivity.
Qed.

Lemma refresh_keeps_view_state_witness :
  App.selectedTicketIds Scenario.batchConfirming <> []
  /\ JS.trim (App.broadcastAllText Scenario.batchConfirming) <> ""
  /\ App.isConfirmingBroadcastAll Scenario.batchConfirming = true
  /\ exists tail,
      emitted (App.handleBroadcastAll Scenario.down
                 (result (App.fetchTickets Scenario.down
                            Scenario.batchConfirming) []))
              []
      = Request (PostBroadcastAll "Restart the access point."
                                  ["TKT-1001"; "TKT-1003"]) :: tail.
Proof.
  assert (H1 : App.selectedTicketIds Scenario.batchConfirming <> [])
    by discriminate.
  assert (H2 : JS.trim (App.broadcastAllText Scenario.batchConfirming) <> "")
    by discriminate.
  assert (H3 : App.isConfirmingBroadcastAll Scenario.batchConfirming = true)
    by reflexivity.
  split; [exact H1|]. split; [exact H2|]. split; [exact H3|].
  exact (proj2 (proj2 (proj2
           (refresh_keeps_view_state Scenario.down Scenario.batchConfirming
                                     []))) H1 H2 H3 []).
Defined.

(* ================================================================= *)
(** ** Deleting, asking, confirming *)

(** X15. A ticket is deleted only through the confirmation: with no
    deletion pending [deleteTicket] does nothing, and a deletion that
    was cancelled is no longer pending.  After [Reject] on a card,
    [Delete] sends [DELETE /tickets/{id}] for that card's ticket first;
    a success closes the confirmation, a failure keeps it open on the
    same ticket and leaves the list as it was. *)
Theorem delete_goes_through_confirmation :
  (forall srv s past,
      App.confirmDelete s = None -> App.deleteTicket srv s past = (s, []))
  /\ (forall i q s, App.confirmDelete (App.cancelDelete
                                         (App.handleDeleteClick i q s)) = None)
  /\ (forall srv i q s past,
         let asked := App.handleDeleteClick i q s in
         let after := result (App.deleteTicket srv asked) past in
         (exists tail,
             emitted (App.deleteTicket srv asked) past
             = Request (DeleteTicket i) :: tail
             /\ forall r, In r (requests tail) -> r = GetTickets)
         /\ url (DeleteTicket i) = ("http://localhost:8000/tickets/" ++ i)%string
         /\ match srv_delete_ticket srv past i with
            | Resolved _ => App.confirmDelete after = None
            | Rejected _ =>
                App.confirmDelete after = Some (i, q)
                /\ App.tickets after = App.tickets s
            end).
Proof.
  split; [|split].
  - intros srv s past H. unfold App.deleteTicket. now rewrite H.
  - reflexivity.
  - intros srv i q s past. cbv zeta.
    unfold App.deleteTicket, App.handleDeleteClick. cbn. io.
    destruct (srv_delete_ticket srv past i).
    + cbn [fst snd app]. destruct (srv_get_tickets srv _); cbn.
      * split; [eexists; split; [reflexivity|]; cbn; intuition|].
        split; reflexivity.
      * split; [eexists; split; [reflexivity|]; cbn; intuition|].
        split; reflexivity.
    + cbn. split; [eexists; split; [reflexivity|]; cbn; intuition|].
      repeat split.
Qed.

Lemma delete_goes_through_confirmation_witness :
  App.confirmDelete Scenario.dashboard = None
  /\ App.deleteTicket Scenario.down Scenario.dashboard []
     = (Scenario.dashboard, []).
Proof.
  assert (H : App.confirmDelete Scenario.dashboard = None) by reflexivity.
  split; [exact H|].
  exact (proj1 delete_goes_through_confirmation Scenario.down
               Scenario.dashboard [] H).
Defined.

(** X16. A blank question is not sent and changes nothing.  A question
    sent with no ticket in the modal only shows the failure toast.
    From a card's [Ask User] button, sending the proposed question
    posts it to that ticket first; a success closes the modal and
    clears the question, a failure keeps both for another try. *)
Theorem ask_user_outcome :
  (forall srv s past,
      JS.trim (App.askQuestionText s) = "" ->
      App.handleAskUser srv s past = (s, []))
  /\ (forall srv s past,
         JS.trim (App.askQuestionText s) <> "" ->
         App.showAskModal s = None ->
         emitted (App.handleAskUser srv s) past
         = [Notify "Failed to send question" "error"])
  /\ (forall srv t s past,
         let question :=
           "Could you please provide more details about this issue?" in
         let opened := App.openAskModal t s in
         let after := result (App.handleAskUser srv opened) past in
         (exists tail,
             emitted (App.handleAskUser srv opened) past
             = Request (PostAsk (id t) question) :: tail
             /\ forall r, In r (requests tail) -> r = GetTickets)
         /\ match srv_ask srv past (id t) question with
            | Resolved _ =>
                App.showAskModal after = None /\ App.askQuestionText after = ""
            | Rejected _ =>
                App.showAskModal after = Some t
                /\ App.askQuestionText after = question
            end).
Proof.
  split; [|split].
  - intros srv s past H. unfold App.handleAskUser.
    apply nonEmpty_false in H. now rewrite H.
  - intros srv s past H Hm. unfold App.handleAskUser.
    apply nonEmpty_true in H. now rewrite H, Hm.
  - intros srv t s past. cbv zeta. unfold App.handleAskUser.
    change (App.askQuestionText (App.openAskModal t s))
      with "Could you please provide more details about this issue?".
    change (App.showAskModal (App.openAskModal t s)) with (Some t).
    assert (Hq : JS.nonEmpty
                   (JS.trim
                      "Could you please provide more details about this issue?")
                 = true) by reflexivity.
    rewrite Hq. cbn [negb]. io.
    destruct (srv_ask srv past (id t) _).
    + cbn [fst snd app]. destruct (srv_get_tickets srv _); cbn;
        (split; [eexists; split; [reflexivity|]; cbn; intuition|]);
        split; reflexivity.
    + cbn. split; [eexists; split; [reflexivity|]; cbn; intuition|].
      split; reflexivity.
Qed.

Lemma ask_user_outcome_witness :
  JS.trim (App.askQuestionText Scenario.dashboard) = ""
  /\ App.handleAskUser Scenario.down Scenario.dashboard []
     = (Scenario.dashboard, [])
  /\ JS.trim (App.askQuestionText
                (App.setAskQuestionText "Which floor?" Scenario.dashboard))
     <> ""
  /\ App.showAskModal
       (App.setAskQuestionText "Which floor?" Scenario.dashboard) = None
  /\ requests
       (emitted (App.handleAskUser Scenario.down
                   (App.setAskQuestionText "Which floor?" Scenario.dashboard))
                [])
     = [].
Proof.
  destruct ask_user_outcome as (Hblank & Hnone & _).
  assert (H0 : JS.trim (App.askQuestionText Scenario.dashboard) = "")
    by reflexivity.
  assert (H1 : JS.trim (App.askQuestionText
                          (App.setAskQuestionText "Which floor?"
                             Scenario.dashboard)) <> "") by discriminate.
  assert (H2 : App.showAskModal
                 (App.setAskQuestionText "Which floor?" Scenario.dashboard)
               = None) by reflexivity.
  split; [exact H0|].
  split; [exact (Hblank Scenario.down Scenario.dashboard [] H0)|].
  split; [exact H1|]. split; [exact H2|].
  rewrite (Hnone Scenario.down _ [] H1 H2). reflexivity.
Defined.

(** X17. Confirming a single broadcast sends the answer that was read
    when [Broadcast Reply] was pressed.  A success closes the
    confirmation and refreshes the list; a failure shows one toast,
    keeps the confirmation open with the same ticket and answer, and
    leaves the list alone, so that a second [Confirm] sends the same
    request again. *)
Theorem confirm_outcome srv p s past :
  App.confirmPopup s = Some p ->
  let sent := PostBroadcast (App.onConfirmTicket p) (App.onConfirmAnswer p) in
  let after := result (App.clickConfirm srv s) past in
  match srv_broadcast srv past (App.onConfirmTicket p) (App.onConfirmAnswer p)
  with
  | Resolved _ =>
      App.confirmPopup after = None
      /\ requests (emitted (App.clickConfirm srv s) past) = [sent; GetTickets]
  | Rejected _ =>
      App.confirmPopup after = Some p
      /\ App.tickets after = App.tickets s
      /\ emitted (App.clickConfirm srv s) past
         = [Request sent; Notify "Broadcast failed" "error"]
      /\ forall past',
          exists tail,
            emitted (App.clickConfirm srv after) past' = Request sent :: tail
  end.
Proof.
  intros Hp. cbv zeta. unfold App.clickConfirm. rewrite Hp.
  unfold App.onConfirm. io.
  destruct (srv_broadcast srv past _ _).
  - cbn [fst snd app]. destruct (srv_get_tickets srv _); cbn; split; reflexivity.
  - cbn. rewrite Hp. repeat split.
    intros past'. destruct (srv_broadcast srv past' _ _).
    + cbn [fst snd app]. destruct (srv_get_tickets srv _); cbn;
        eexists; reflexivity.
    + cbn. eexists; reflexivity.
Qed.

Lemma confirm_outcome_witness :
  App.confirmPopup (App.setConfirmPopup (Some Scenario.draftPopup)
                      Scenario.dashboard)
  = Some Scenario.draftPopup
  /\ App.confirmPopup
       (result (App.clickConfirm Scenario.down
                  (App.setConfirmPopup (Some Scenario.draftPopup)
                     Scenario.dashboard)) [])
     = Some Scenario.draftPopup.
Proof.
  assert (H : App.confirmPopup (App.setConfirmPopup (Some Scenario.draftPopup)
                                  Scenario.dashboard)
              = Some Scenario.draftPopup) by reflexivity.
  split; [exact H|].
  exact (proj1 (confirm_outcome Scenario.down Scenario.draftPopup _ [] H)).
Defined.

(* ================================================================= *)
(** ** The draft of an untouched card *)

Lemma draft_id_eqb a b : (("draft-" ++ a) =? ("draft-" ++ b))%string = (a =? b)%string.
Proof. reflexivity. Qed.

Lemma initialPage_grid ts selected t : forall l,
  NoDup (map id l) -> In t l ->
  App.initialPage (map (App.ticketCard ts selected) l) ("draft-" ++ id t)%string
  = Some (App.optText (JS.orElse (admin_draft t) (ai_draft t))).
Proof.
  induction l as [|x l IH]; intros Hnd Hin; [contradiction|].
  simpl in Hnd. inversion Hnd as [|? ? Hx Hl]; subst.
  cbn [map App.initialPage App.ticketCard App.draftId App.draftDefault].
  rewrite draft_id_eqb.
  destruct (id x =? id t)%string eqn:E.
  - apply String.eqb_eq in E. destruct Hin as [-> | Hin]; [reflexivity|].
    exfalso. apply Hx. rewrite E. now apply in_map.
  - destruct Hin as [-> | Hin]; [now rewrite String.eqb_refl in E|].
    now apply IH.
Qed.

(** X18. [Broadcast Reply] on a card whose draft area was not touched.
    When the visible tickets have distinct ids, the answer proposed for
    confirmation is the ticket's [admin_draft], or its [ai_draft] when
    the [admin_draft] is missing or empty; when both are missing or
    empty nothing is proposed and the toast asks for a solution. *)
Theorem untouched_draft_is_proposed s t past :
  NoDup (map id (App.escalatedTickets s)) ->
  In t (App.escalatedTickets s) ->
  let page := App.initialPage (App.escalatedGrid s) in
  let proposal :=
    App.optText (if JS.truthy (admin_draft t) then admin_draft t
                 else ai_draft t) in
  (proposal = "" ->
   emitted (App.approveResolution page (id t) s) past
   = [Notify "Please enter a solution" "error"])
  /\ (proposal <> "" ->
      emitted (App.approveResolution page (id t) s) past = []
      /\ exists p,
          App.confirmPopup (result (App.approveResolution page (id t) s) past)
          = Some p
          /\ App.onConfirmTicket p = id t
          /\ App.onConfirmAnswer p = proposal).
Proof.
  intros Hnd Hin. cbv zeta. unfold App.approveResolution, App.escalatedGrid.
  rewrite (initialPage_grid _ _ t _ Hnd Hin). unfold JS.orElse.
  set (proposal := App.optText (if JS.truthy (admin_draft t)
                                then admin_draft t else ai_draft t)).
  cbn [JS.truthy App.optText].
  destruct (JS.nonEmpty proposal) eqn:E.
  - apply nonEmpty_true in E. split; [intros H; contradiction|].
    intros _. split; [reflexivity|]. eexists. repeat split.
  - apply nonEmpty_false in E. split; [reflexivity|]. intros H. contradiction.
Qed.

Lemma untouched_draft_is_proposed_witness :
  NoDup (map id (App.escalatedTickets Scenario.draftsBoard))
  /\ In Scenario.drafted (App.escalatedTickets Scenario.draftsBoard)
  /\ In Scenario.wifi1 (App.escalatedTickets Scenario.draftsBoard)
  /\ (exists p,
         App.confirmPopup
           (result (App.approveResolution
                      (App.initialPage (App.escalatedGrid Scenario.draftsBoard))
                      "TKT-1008" Scenario.draftsBoard) [])
         = Some p
         /\ App.onConfirmTicket p = "TKT-1008"
         /\ App.onConfirmAnswer p
            = "Please replace the batteries of the mouse.")
  /\ emitted (App.approveResolution
                (App.initialPage (App.escalatedGrid Scenario.draftsBoard))
                "TKT-1001" Scenario.draftsBoard) []
     = [Notify "Please enter a solution" "error"].
Proof.
  assert (H1 : NoDup (map id (App.escalatedTickets Scenario.draftsBoard))).
  { repeat constructor; simpl; intuition discriminate. }
  assert (H2 : In Scenario.drafted (App.escalatedTickets Scenario.draftsBoard))
    by (simpl; tauto).
  assert (H3 : In Scenario.wifi1 (App.escalatedTickets Scenario.draftsBoard))
    by (simpl; tauto).
  split; [exact H1|]. split; [exact H2|]. split; [exact H3|]. split.
  - exact (proj2 (proj2 (untouched_draft_is_proposed Scenario.draftsBoard
                           Scenario.drafted [] H1 H2)
                        ltac:(discriminate))).
  - exact (proj1 (untouched_draft_is_proposed Scenario.draftsBoard
                    Scenario.wifi1 [] H1 H3) eq_refl).
Defined.

(* ================================================================= *)
(** ** More on the icons *)

Lemma lowerChar_idem c : JS.lowerChar (JS.lowerChar c) = JS.lowerChar c.
Proof. destruct c as [[] [] [] [] [] [] [] []]; reflexivity. Qed.

Lemma lowerChar_upperChar c : JS.lowerChar (JS.upperChar c) = JS.lowerChar c.
Proof. destruct c as [[] [] [] [] [] [] [] []]; reflexivity. Qed.

Lemma mapString_compose f g s :
  JS.mapString f (JS.mapString g s) = JS.mapString (fun c => f (g c)) s.
Proof. induction s as [|c s IH]; simpl; [reflexivity | now rewrite IH]. Qed.

Lemma mapString_ext f g s :
  (forall c, f c = g c) -> JS.mapString f s = JS.mapString g s.
Proof.
  intros H. induction s as [|c s IH]; simpl; [reflexivity|].
  now rewrite H, IH.
Qed.

Lemma mapString_app f a b :
  JS.mapString f (a ++ b)%string
  = (JS.mapString f a ++ JS.mapString f b)%string.
Proof. induction a as [|c a IH]; simpl; [reflexivity | now rewrite IH]. Qed.

Lemma upperChar_ascii c :
  (nat_of_ascii (JS.upperChar c) <? 128)%nat = (nat_of_ascii c <? 128)%nat.
Proof. destruct c as [[] [] [] [] [] [] [] []]; reflexivity. Qed.

Lemma toUpperCase_ascii s : JS.isAscii (JS.toUpperCase s) = JS.isAscii s.
Proof.
  unfold JS.toUpperCase.
  induction s as [|c s IH]; simpl; [reflexivity|].
  now rewrite upperChar_ascii, IH.
Qed.

Lemma isAscii_app a b :
  JS.isAscii (a ++ b)%string = JS.isAscii a && JS.isAscii b.
Proof.
  induction a as [|c a IH]; simpl; [reflexivity|].
  now rewrite IH, andb_assoc.
Qed.

(** X19. On a category written in ASCII the icon does not depend on
    the case of the letters: the category in upper case, and in lower
    case, gets the icon of the category as written.  ([toLowerCase] and
    [toUpperCase] are the platform's; on ASCII text they fold the
    letters A-Z and a-z.) *)
Theorem getCategoryIcon_ignores_case toLowerCase toUpperCase category :
  agreesOnAscii toLowerCase JS.asciiLowerCase ->
  agreesOnAscii toUpperCase JS.toUpperCase ->
  JS.isAscii category = true ->
  App.getCategoryIcon toLowerCase (toUpperCase category)
  = App.getCategoryIcon toLowerCase category
  /\ App.getCategoryIcon toLowerCase (toLowerCase category)
     = App.getCategoryIcon toLowerCase category.
Proof.
  intros Hlow Hup Hc.
  rewrite (Hup _ Hc), (Hlow _ Hc).
  assert (Hu : JS.isAscii (JS.toUpperCase category) = true)
    by now rewrite toUpperCase_ascii.
  assert (Hfold : forall (f : ascii -> ascii),
             (forall c, JS.lowerChar (f c) = JS.lowerChar c) ->
             JS.asciiLowerCase (JS.mapString f category)
             = JS.asciiLowerCase category).
  { intros f Hf. unfold JS.asciiLowerCase.
    rewrite mapString_compose. now apply mapString_ext. }
  assert (Hl : JS.isAscii (JS.asciiLowerCase category) = true).
  { clear - Hc. unfold JS.asciiLowerCase.
    induction category as [|c r IH]; [reflexivity|].
    simpl in *. apply andb_true_iff in Hc. destruct Hc as [Hc Hr].
    rewrite (IH Hr), andb_true_r.
    destruct c as [[] [] [] [] [] [] [] []]; (reflexivity || discriminate). }
  split; unfold App.getCategoryIcon; (apply scanIcons_agree; [|reflexivity]).
  - rewrite (Hlow _ Hu), (Hlow _ Hc). apply Hfold, lowerChar_upperChar.
  - rewrite (Hlow _ Hl), (Hlow _ Hc). apply Hfold, lowerChar_idem.
Qed.

(** With the folds of the letters for the two case mappings. *)
Lemma getCategoryIcon_ignores_case_witness :
  agreesOnAscii JS.asciiLowerCase JS.asciiLowerCase
  /\ agreesOnAscii JS.toUpperCase JS.toUpperCase
  /\ JS.isAscii "Wi-Fi" = true
  /\ App.getCategoryIcon JS.asciiLowerCase (JS.toUpperCase "Wi-Fi")
     = App.getCategoryIcon JS.asciiLowerCase "Wi-Fi".
Proof.
  assert (H1 : agreesOnAscii JS.asciiLowerCase JS.asciiLowerCase)
    by (intros s _; reflexivity).
  assert (H2 : agreesOnAscii JS.toUpperCase JS.toUpperCase)
    by (intros s _; reflexivity).
  assert (H3 : JS.isAscii "Wi-Fi" = true) by reflexivity.
  split; [exact H1|]. split; [exact H2|]. split; [exact H3|].
  exact (proj1 (getCategoryIcon_ignores_case _ _ "Wi-Fi" H1 H2 H3)).
Defined.

Lemma occursIn_embed key s pre post :
  occursIn key s -> occursIn key (pre ++ s ++ post)%string.
Proof.
  intros (a & b & ->). exists (pre ++ a)%string, (b ++ post)%string.
  now rewrite !string_app_assoc.
Qed.

Lemma iconMap_never_fallback :
  Forall (fun entry => snd entry <> App.fallbackIcon) App.iconMap.
Proof. repeat constructor; discriminate. Qed.

(** X20. The clipboard icon is the answer exactly when no key of the
    table occurs in the category once both are lower-cased.  So, for
    texts written in ASCII, a category that gets another icon still
    gets one that is not the clipboard when text is put before or after
    it. *)
Theorem fallback_icon_iff_no_key toLowerCase :
  (forall category,
      App.getCategoryIcon toLowerCase category = "📋"
      <-> ~ someKeyOccurs toLowerCase category)
  /\ (agreesOnAscii toLowerCase JS.asciiLowerCase ->
      forall category pre post,
        JS.isAscii pre = true -> JS.isAscii category = true ->
        JS.isAscii post = true ->
        App.getCategoryIcon toLowerCase category <> "📋" ->
        App.getCategoryIcon toLowerCase (pre ++ category ++ post)%string
        <> "📋").
Proof.
  assert (Hiff : forall category,
             App.getCategoryIcon toLowerCase category = App.fallbackIcon
             <-> ~ someKeyOccurs toLowerCase category).
  { intros category. unfold App.getCategoryIcon, someKeyOccurs.
    destruct (scanIcons_spec toLowerCase category App.iconMap)
      as [(before & key & icon & after & E & Hm & _ & Hr) | [Hall Hr]].
    - assert (Hin : In (key, icon) App.iconMap).
      { rewrite E. apply in_or_app. right. now left. }
      split.
      + intros Hf. exfalso.
        pose proof (proj1 (Forall_forall _ _) iconMap_never_fallback
                          (key, icon) Hin) as Hne.
        apply Hne. simpl. congruence.
      + intros Hno. exfalso. apply Hno. now exists key, icon.
    - split; [|intros _; exact Hr].
      intros _ (key & icon & Hin & Hm). exact (Hall key icon Hin Hm). }
  split; [exact Hiff|].
  intros Hlow category pre post Hpre Hc Hpost Hicon Hf.
  apply Hiff in Hf. apply Hicon, Hiff.
  intros (key & icon & Hin & Hm). apply Hf. exists key, icon.
  split; [exact Hin|]. unfold matchesKey in *.
  assert (Hbig : JS.isAscii (pre ++ category ++ post)%string = true)
    by now rewrite !isAscii_app, Hpre, Hc, Hpost.
  rewrite (Hlow _ Hbig). rewrite (Hlow _ Hc) in Hm.
  unfold JS.asciiLowerCase in *. rewrite !mapString_app.
  now apply occursIn_embed.
Qed.

Lemma fallback_icon_iff_no_key_witness :
  agreesOnAscii JS.asciiLowerCase JS.asciiLowerCase
  /\ JS.isAscii "Remote " = true /\ JS.isAscii "VPN" = true
  /\ JS.isAscii " access" = true
  /\ App.getCategoryIcon JS.asciiLowerCase "VPN" <> "📋"
  /\ App.getCategoryIcon JS.asciiLowerCase
       ("Remote " ++ "VPN" ++ " access")%string <> "📋".
Proof.
  assert (H0 : agreesOnAscii JS.asciiLowerCase JS.asciiLowerCase)
    by (intros s _; reflexivity).
  assert (H : App.getCategoryIcon JS.asciiLowerCase "VPN" <> "📋")
    by discriminate.
  split; [exact H0|]. repeat (split; [reflexivity|]).
  split; [exact H|].
  exact (proj2 (fallback_icon_iff_no_key JS.asciiLowerCase) H0
               "VPN" "Remote " " access" eq_refl eq_refl eq_refl H).
Defined.

(* ================================================================= *)
(** ** The dashboard, event by event *)

Lemma wellFormed_refresh : Forall wellFormed [GetTickets].
Proof. repeat constructor. Qed.

Lemma handleBroadcastAll_inv srv s past :
  App.confirmPopup (result (App.handleBroadcastAll srv s) past)
  = App.confirmPopup s
  /\ Forall wellFormed (requests (emitted (App.handleBroadcastAll srv s) past)).
Proof.
  unfold App.handleBroadcastAll.
  destruct (App.selectedTicketIds s) as [|i ids] eqn:Hsel;
    [split; [reflexivity | constructor]|].
  cbn [length Nat.eqb].
  destruct (JS.nonEmpty (JS.trim (App.broadcastAllText s))) eqn:Htext;
    [|split; [reflexivity | constructor]].
  apply nonEmpty_true in Htext. cbn [negb].
  destruct (App.isConfirmingBroadcastAll s);
    [|split; [reflexivity | constructor]].
  cbn [negb]. io.
  destruct (srv_broadcast_all srv past _ _);
    [cbn [fst snd app]; destruct (srv_get_tickets srv _)|]; cbn;
    (split; [reflexivity|]); repeat constructor; auto; discriminate.
Qed.

Lemma clickConfirm_inv srv s past :
  dashInv s ->
  dashInv (result (App.clickConfirm srv s) past)
  /\ Forall wellFormed (requests (emitted (App.clickConfirm srv s) past)).
Proof.
  intros Hinv. unfold App.clickConfirm.
  destruct (App.confirmPopup s) as [p|] eqn:Hp; [|split; [exact Hinv | constructor]].
  pose proof (Hinv p Hp) as Hne. unfold App.onConfirm. io.
  destruct (srv_broadcast srv past _ _);
    [cbn [fst snd app]; destruct (srv_get_tickets srv _)|]; cbn;
    (split; [|repeat constructor; exact Hne]);
    intros q; cbn; try discriminate.
  rewrite Hp. intros E. injection E as <-. exact Hne.
Qed.

Lemma deleteTicket_inv srv s past :
  App.confirmPopup (result (App.deleteTicket srv s) past) = App.confirmPopup s
  /\ Forall wellFormed (requests (emitted (App.deleteTicket srv s) past)).
Proof.
  unfold App.deleteTicket.
  destruct (App.confirmDelete s) as [[i q]|];
    [|split; [reflexivity | constructor]].
  io. destruct (srv_delete_ticket srv past i);
    [cbn [fst snd app]; destruct (srv_get_tickets srv _)|]; cbn;
    (split; [reflexivity|]); repeat constructor.
Qed.

Lemma handleAskUser_inv srv s past :
  App.confirmPopup (result (App.handleAskUser srv s) past) = App.confirmPopup s
  /\ Forall wellFormed (requests (emitted (App.handleAskUser srv s) past)).
Proof.
  unfold App.handleAskUser.
  destruct (JS.nonEmpty (JS.trim (App.askQuestionText s))) eqn:Htext;
    [|split; [reflexivity | constructor]].
  apply nonEmpty_true in Htext. cbn [negb].
  destruct (App.showAskModal s) as [t|];
    [|split; [reflexivity | constructor]].
  io. destruct (srv_ask srv past _ _);
    [cbn [fst snd app]; destruct (srv_get_tickets srv _)|]; cbn;
    (split; [reflexivity|]); repeat constructor; exact Htext.
Qed.

Lemma approveResolution_inv document i s past :
  dashInv s ->
  dashInv (result (App.approveResolution document i s) past)
  /\ requests (emitted (App.approveResolution document i s) past) = [].
Proof.
  intros Hinv. unfold App.approveResolution.
  destruct (document ("draft-" ++ i)%string) as [a|]; cbn;
    [destruct (JS.nonEmpty a) eqn:Ha|]; cbn; (split; [|reflexivity]);
    try exact Hinv.
  intros p E. injection E as <-. cbn. now apply nonEmpty_true.
Qed.

Lemma dashboard_step_inv srv ev s past :
  dashInv s ->
  dashInv (result (App.step srv ev s) past)
  /\ Forall wellFormed (requests (emitted (App.step srv ev s) past)).
Proof.
  intros Hinv.
  assert (Hkeep : forall s', App.confirmPopup s' = App.confirmPopup s ->
                             dashInv s').
  { intros s' E p Hp. apply Hinv. congruence. }
  destruct ev; cbn [App.step];
    try (split; [apply Hkeep; reflexivity | constructor]).
  - (* Poll *)
    unfold result, emitted. rewrite fetchTickets_run.
    destruct (srv_get_tickets srv past); cbn;
      (split; [apply Hkeep; reflexivity | repeat constructor]).
  - (* ClickSelectAll *)
    unfold App.toggleSelectAll. cbn.
    destruct (_ =? _)%nat; (split; [apply Hkeep; reflexivity | constructor]).
  - (* OpenBroadcastModal *)
    unfold App.openBroadcastModal. cbn.
    destruct (_ =? _)%nat; (split; [apply Hkeep; reflexivity | constructor]).
  - (* SubmitBroadcastAll *)
    destruct (handleBroadcastAll_inv srv s past) as [E W].
    split; [now apply Hkeep | exact W].
  - (* ClickBroadcastReply *)
    destruct (approveResolution_inv document ticketId s past Hinv) as [I E].
    split; [exact I | rewrite E; constructor].
  - (* ClickConfirm *)
    now apply clickConfirm_inv.
  - (* CancelConfirm *)
    split; [intros p E; discriminate | constructor].
  - (* ClickDelete *)
    destruct (deleteTicket_inv srv s past) as [E W].
    split; [now apply Hkeep | exact W].
  - (* SendQuestion *)
    destruct (handleAskUser_inv srv s past) as [E W].
    split; [now apply Hkeep | exact W].
Qed.

Lemma dashboard_run_inv srv : forall evs s past,
  dashInv s ->
  dashInv (result (App.run srv evs s) past)
  /\ Forall wellFormed (requests (emitted (App.run srv evs s) past)).
Proof.
  induction evs as [|ev evs IH]; intros s past Hinv; simpl.
  - split; [exact Hinv | constructor].
  - rewrite emitted_bind, result_bind, requests_app.
    destruct (dashboard_step_inv srv ev s past Hinv) as [I W].
    destruct (IH _ (past ++ emitted (App.step srv ev s) past) I) as [I' W'].
    split; [exact I' | now apply Forall_app].
Qed.

(** X21. In every session of the dashboard, from its initial state,
    every request is filled: a single broadcast carries a non-empty
    answer, a batch broadcast carries a non-blank answer and at least
    one ticket id, a question is not blank.  And whenever a
    confirmation of a single broadcast is open, the answer bound to it
    is not empty. *)
Theorem dashboard_requests_well_formed srv evs :
  Forall wellFormed (requests (emitted (App.run srv evs App.initial) []))
  /\ forall p,
      App.confirmPopup (result (App.run srv evs App.initial) []) = Some p ->
      App.onConfirmAnswer p <> "".
Proof.
  destruct (dashboard_run_inv srv evs App.initial []) as [I W].
  { intros p E. discriminate. }
  now split.
Qed.

(* ================================================================= *)
(** ** The knowledge-base editor, event by event *)

Lemma fetchData_run srv s past :
  DatabaseViewer.fetchData srv s past
  = match srv_get_kb srv past with
    | Resolved d => (DatabaseViewer.setData d s, [Request GetKB])
    | Rejected _ => (s, [Request GetKB; ConsoleError "DB Fetch error:"])
    end.
Proof.
  unfold DatabaseViewer.fetchData, getKB, bind, call, emit, ret.
  now destruct (srv_get_kb srv past).
Qed.

Lemma handleSave_run srv s past :
  DatabaseViewer.handleSave srv s past
  = match saveReply srv past s with
    | Resolved _ =>
        (DatabaseViewer.resetForm
           (result (DatabaseViewer.fetchData srv s)
                   (past ++ [Request (saveRequest s)])),
         Request (saveRequest s)
         :: emitted (DatabaseViewer.fetchData srv s)
                    (past ++ [Request (saveRequest s)]))
    | Rejected m =>
        (s, [Request (saveRequest s); Alert ("Failed to save: " ++ m)%string])
    end.
Proof.
  unfold DatabaseViewer.handleSave, saveReply, saveRequest.
  destruct (DatabaseViewer.editingEntry s) as [e|]; io.
  - destruct (srv_put_kb srv past _ _); [|reflexivity].
    cbn [fst snd app]. now destruct (srv_get_kb srv _).
  - destruct (srv_post_kb srv past _); [|reflexivity].
    cbn [fst snd app]. now destruct (srv_get_kb srv _).
Qed.

Lemma requiredFilled_spec f :
  DatabaseViewer.requiredFilled f = true
  <-> DatabaseViewer.formCategory f <> ""
      /\ DatabaseViewer.formQuestion f <> ""
      /\ DatabaseViewer.formResolution f <> "".
Proof.
  unfold DatabaseViewer.requiredFilled.
  rewrite !andb_true_iff, !nonEmpty_true. tauto.
Qed.

Lemma saveRequest_wellFormed s :
  DatabaseViewer.requiredFilled (DatabaseViewer.formData s) = true ->
  wellFormed (saveRequest s).
Proof.
  intros H. apply requiredFilled_spec in H. unfold saveRequest.
  destruct (DatabaseViewer.editingEntry s); cbn; tauto.
Qed.

Lemma kb_step_inv srv ev s past :
  kbInv s ->
  kbInv (result (DatabaseViewer.step srv ev s) past)
  /\ Forall wellFormed
       (requests (emitted (DatabaseViewer.step srv ev s) past)).
Proof.
  intros Hinv. unfold kbInv in *.
  destruct ev; cbn [DatabaseViewer.step].
  - (* Poll *)
    unfold result, emitted. rewrite fetchData_run.
    destruct (srv_get_kb srv past); cbn; (split; [exact Hinv|]);
      repeat constructor.
  - split; [intros E; discriminate | constructor].
  - split; [intros E; discriminate | constructor].
  - destruct (DatabaseViewer.showModal s) eqn:E; cbn;
      (split; [|constructor]);
      [intros Hc; congruence | intros _; now apply Hinv].
  - destruct (DatabaseViewer.showModal s) eqn:E; cbn;
      (split; [|constructor]);
      [intros Hc; congruence | intros _; now apply Hinv].
  - destruct (DatabaseViewer.showModal s) eqn:E; cbn;
      (split; [|constructor]);
      [intros Hc; congruence | intros _; now apply Hinv].
  - (* Save *)
    destruct (DatabaseViewer.showModal s) eqn:E;
      [|split; [intros _; now apply Hinv | constructor]].
    assert (Hopen : DatabaseViewer.showModal s = false ->
                    DatabaseViewer.editingEntry s = None
                    /\ DatabaseViewer.formData s = DatabaseViewer.Form "" "" "")
      by (intros Hc; congruence).
    clear Hinv. rename Hopen into Hinv.
    unfold DatabaseViewer.submitForm.
    destruct (DatabaseViewer.requiredFilled (DatabaseViewer.formData s))
      eqn:Hreq; [|split; [exact Hinv | constructor]].
    unfold result, emitted. rewrite handleSave_run.
    pose proof (saveRequest_wellFormed s Hreq) as Hwf.
    destruct (saveReply srv past s); cbn [fst snd].
    + unfold result, emitted. rewrite fetchData_run.
      destruct (srv_get_kb srv _); cbn;
        (split; [intros _; split; reflexivity|]);
        repeat constructor; exact Hwf.
    + cbn. split; [exact Hinv | repeat constructor; exact Hwf].
  - (* CloseForm *)
    destruct (DatabaseViewer.showModal s) eqn:E; cbn;
      (split; [|constructor]);
      [intros _; split; reflexivity | intros _; now apply Hinv].
  - (* Delete *)
    unfold DatabaseViewer.handleDelete. io. destruct confirmed; cbn.
    + destruct (srv_delete_kb srv _ entryId); cbn [fst snd app];
        [destruct (srv_get_kb srv _)|]; cbn; (split; [exact Hinv|]);
        repeat constructor.
    + split; [exact Hinv | constructor].
  - split; [exact Hinv | constructor].
Qed.

Lemma kb_run_inv srv : forall evs s past,
  kbInv s ->
  kbInv (result (DatabaseViewer.run srv evs s) past)
  /\ Forall wellFormed
       (requests (emitted (DatabaseViewer.run srv evs s) past)).
Proof.
  induction evs as [|ev evs IH]; intros s past Hinv; simpl.
  - split; [exact Hinv | constructor].
  - rewrite emitted_bind, result_bind, requests_app.
    destruct (kb_step_inv srv ev s past Hinv) as [I W].
    destruct (IH _ (past ++ emitted (DatabaseViewer.step srv ev s) past) I)
      as [I' W'].
    split; [exact I' | now apply Forall_app].
Qed.

Lemma kb_initial_inv : kbInv DatabaseViewer.initial.
Proof. intros _. split; reflexivity. Qed.

(** X22. In every session of the knowledge-base editor, from its
    initial state: while the form is closed it is empty and no row is
    being edited; and every entry sent to be created or updated has a
    non-empty category, question and resolution, and an empty issue. *)
Theorem kb_session_invariant srv evs :
  let s := result (DatabaseViewer.run srv evs DatabaseViewer.initial) [] in
  (DatabaseViewer.showModal s = false ->
   DatabaseViewer.editingEntry s = None
   /\ DatabaseViewer.formData s = DatabaseViewer.Form "" "" "")
  /\ Forall wellFormed
       (requests (emitted (DatabaseViewer.run srv evs DatabaseViewer.initial)
                          [])).
Proof.
  cbv zeta. apply kb_run_inv, kb_initial_inv.
Qed.

(** X23. [Add Entry] always creates: from any state the editor can be
    in with its form closed, opening the form with [Add Entry], filling
    the three fields and saving sends [POST /knowledge-base] with those
    fields first, and no other request of that submission creates or
    updates an entry: never an update of an earlier row. *)
Theorem add_entry_always_creates srv evs c q r past :
  let s := result (DatabaseViewer.run srv evs DatabaseViewer.initial) [] in
  DatabaseViewer.showModal s = false ->
  c <> "" -> q <> "" -> r <> "" ->
  exists tail,
    emitted (DatabaseViewer.run srv
               [DatabaseViewer.AddEntry; DatabaseViewer.TypeCategory c;
                DatabaseViewer.TypeQuestion q; DatabaseViewer.TypeResolution r;
                DatabaseViewer.Save] s) past
    = Request (PostKB (KbPayload c q r "")) :: tail
    /\ filter isKbMutation (requests tail) = [].
Proof.
  cbv zeta. intros Hclosed Hc Hq Hr.
  destruct (kb_run_inv srv evs DatabaseViewer.initial [] kb_initial_inv)
    as [Hinv _].
  destruct (Hinv Hclosed) as [Hedit Hform].
  destruct (result (DatabaseViewer.run srv evs DatabaseViewer.initial) [])
    as [d v m e f]. cbn in Hedit, Hform, Hclosed. subst e f m.
  assert (Hreq : DatabaseViewer.requiredFilled (DatabaseViewer.Form c q r)
                 = true).
  { apply requiredFilled_spec. cbn. tauto. }
  cbn [DatabaseViewer.run DatabaseViewer.step].
  unfold emitted, bind, ret, DatabaseViewer.submitForm. cbn.
  rewrite Hreq, handleSave_run. unfold saveReply, saveRequest. cbn.
  destruct (srv_post_kb srv _ _); [|eexists; split; reflexivity].
  unfold result, emitted. rewrite fetchData_run.
  destruct (srv_get_kb srv _); cbn; eexists; split; reflexivity.
Qed.

Lemma add_entry_always_creates_witness :
  DatabaseViewer.showModal
    (result (DatabaseViewer.run Scenario.down [DatabaseViewer.Poll]
               DatabaseViewer.initial) []) = false
  /\ "Network" <> "" /\ "Wi-Fi drops every hour" <> ""
  /\ "Update the router firmware." <> ""
  /\ exists tail,
      emitted (DatabaseViewer.run Scenario.down
                 [DatabaseViewer.AddEntry;
                  DatabaseViewer.TypeCategory "Network";
                  DatabaseViewer.TypeQuestion "Wi-Fi drops every hour";
                  DatabaseViewer.TypeResolution "Update the router firmware.";
                  DatabaseViewer.Save]
                 (result (DatabaseViewer.run Scenario.down
                            [DatabaseViewer.Poll] DatabaseViewer.initial) []))
              []
      = Request (PostKB (KbPayload "Network" "Wi-Fi drops every hour"
                                   "Update the router firmware." ""))
        :: tail
      /\ filter isKbMutation (requests tail) = [].
Proof.
  assert (H0 : DatabaseViewer.showModal
                 (result (DatabaseViewer.run Scenario.down
                            [DatabaseViewer.Poll] DatabaseViewer.initial) [])
               = false) by reflexivity.
  assert (H1 : "Network" <> "") by discriminate.
  assert (H2 : "Wi-Fi drops every hour" <> "") by discriminate.
  assert (H3 : "Update the router firmware." <> "") by discriminate.
  split; [exact H0|]. split; [exact H1|]. split; [exact H2|].
  split; [exact H3|].
  exact (add_entry_always_creates Scenario.down [DatabaseViewer.Poll]
           _ _ _ [] H0 H1 H2 H3).
Defined.

(** X24. Saving a row right after opening it for edit sends the row
    back as it is: [PUT /knowledge-base/{ID}] with the row's own
    identifier, category, question and resolution, and an empty issue.
    A row with an empty field cannot be saved unchanged: the submission
    is stopped and nothing is sent. *)
Theorem edit_then_save_round_trip :
  (forall srv e s past,
      Category e <> "" -> Question e <> "" -> Resolution e <> "" ->
      exists tail,
        emitted (DatabaseViewer.submitForm srv (DatabaseViewer.handleEdit e s))
                past
        = Request (PutKB (ID e)
                     (KbPayload (Category e) (Question e) (Resolution e) ""))
          :: tail)
  /\ (forall srv e s past,
         Category e = "" \/ Question e = "" \/ Resolution e = "" ->
         emitted (DatabaseViewer.submitForm srv (DatabaseViewer.handleEdit e s))
                 past = []).
Proof.
  split; intros srv e s past.
  - intros Hc Hq Hr. unfold DatabaseViewer.submitForm.
    assert (Hreq : DatabaseViewer.requiredFilled
                     (DatabaseViewer.formData (DatabaseViewer.handleEdit e s))
                   = true).
    { apply requiredFilled_spec. cbn. tauto. }
    rewrite Hreq. unfold emitted. rewrite handleSave_run.
    unfold saveReply, saveRequest. cbn.
    destruct (srv_put_kb srv past _ _); cbn; eexists; reflexivity.
  - intros H. unfold DatabaseViewer.submitForm.
    assert (Hreq : DatabaseViewer.requiredFilled
                     (DatabaseViewer.formData (DatabaseViewer.handleEdit e s))
                   = false).
    { unfold DatabaseViewer.requiredFilled. cbn.
      rewrite !andb_false_iff, !nonEmpty_false. tauto. }
    now rewrite Hreq.
Qed.

Lemma edit_then_save_round_trip_witness :
  (Category Scenario.kbRow <> "" /\ Question Scenario.kbRow <> ""
   /\ Resolution Scenario.kbRow <> ""
   /\ exists tail,
       emitted (DatabaseViewer.submitForm Scenario.down
                  (DatabaseViewer.handleEdit Scenario.kbRow
                     DatabaseViewer.initial)) []
       = Request (PutKB "7" (KbPayload "Network" "VPN will not connect"
                                       "Renew the certificate." ""))
         :: tail)
  /\ (Resolution (Entry "8" "Network" "Router LED is red" "") = ""
      /\ emitted (DatabaseViewer.submitForm Scenario.down
                    (DatabaseViewer.handleEdit
                       (Entry "8" "Network" "Router LED is red" "")
                       DatabaseViewer.initial)) []
         = []).
Proof.
  destruct edit_then_save_round_trip as [Hfull Hempty].
  split.
  - assert (H1 : Category Scenario.kbRow <> "") by discriminate.
    assert (H2 : Question Scenario.kbRow <> "") by discriminate.
    assert (H3 : Resolution Scenario.kbRow <> "") by discriminate.
    split; [exact H1|]. split; [exact H2|]. split; [exact H3|].
    exact (Hfull Scenario.down Scenario.kbRow DatabaseViewer.initial []
                 H1 H2 H3).
  - assert (H : Resolution (Entry "8" "Network" "Router LED is red" "") = "")
      by reflexivity.
    split; [exact H|].
    exact (Hempty Scenario.down _ DatabaseViewer.initial []
                  (or_intror (or_intror H))).
Defined.

(** X25. What a save leaves behind.  After a success the form is
    closed and empty, no row is being edited, and the list was asked
    for again; after a failure nothing has changed: the form stays open
    with what was typed, on the same row, with one alert that quotes
    the error. *)
Theorem save_outcome srv s past :
  let after := result (DatabaseViewer.handleSave srv s) past in
  match saveReply srv past s with
  | Resolved _ =>
      DatabaseViewer.showModal after = false
      /\ DatabaseViewer.editingEntry after = None
      /\ DatabaseViewer.formData after = DatabaseViewer.Form "" "" ""
      /\ requests (emitted (DatabaseViewer.handleSave srv s) past)
         = [saveRequest s; GetKB]
  | Rejected m =>
      after = s
      /\ emitted (DatabaseViewer.handleSave srv s) past
         = [Request (saveRequest s); Alert ("Failed to save: " ++ m)%string]
  end.
Proof.
  cbv zeta. unfold result, emitted. rewrite handleSave_run.
  destruct (saveReply srv past s); cbn [fst snd]; [|split; reflexivity].
  unfold result, emitted. rewrite fetchData_run.
  destruct (srv_get_kb srv _); cbn; repeat split.
Qed.

(** X26. Deleting a row of the knowledge base always asks first.  A
    declined confirmation sends nothing and changes nothing.  An
    accepted one sends [DELETE /knowledge-base/{id}] right after the
    question; a failure shows one alert that quotes the error and
    changes nothing; and in no case does a deletion touch the form,
    the modal or the row being edited. *)
Theorem kb_delete_outcome srv entryId confirmed s past :
  let question := Confirm "Are you sure you want to delete this entry?" in
  let after := result (DatabaseViewer.handleDelete srv entryId confirmed s)
                      past in
  DatabaseViewer.formData after = DatabaseViewer.formData s
  /\ DatabaseViewer.showModal after = DatabaseViewer.showModal s
  /\ DatabaseViewer.editingEntry after = DatabaseViewer.editingEntry s
  /\ (if confirmed
      then match srv_delete_kb srv (past ++ [question]) entryId with
           | Resolved _ =>
               requests (emitted (DatabaseViewer.handleDelete srv entryId
                                    confirmed s) past)
               = [DeleteKB entryId; GetKB]
           | Rejected m =>
               after = s
               /\ emitted (DatabaseViewer.handleDelete srv entryId confirmed s)
                          past
                  = [question; Request (DeleteKB entryId);
                     Alert ("Failed to delete entry: " ++ m)%string]
           end
      else after = s
           /\ emitted (DatabaseViewer.handleDelete srv entryId confirmed s) past
              = [question]).
Proof.
  cbv zeta. unfold DatabaseViewer.handleDelete. io.
  destruct confirmed; cbn; [|repeat split].
  destruct (srv_delete_kb srv _ entryId); cbn [fst snd app];
    [destruct (srv_get_kb srv _)|]; cbn; repeat split.
Qed.
